(** * Charms Wallet JS: a shallow embedding of the wallet core

    The development follows the TypeScript sources:

    - [src/constants.ts]               -> [Module Constants]
    - [src/types.ts]                   -> [Module Types]
    - [src/transaction/builder.ts]     -> [Module TransactionBuilder]
    - [src/transaction/signer.ts]      -> [Module TransactionSigner]
    - [src/core/address-wallet.ts]     -> [Module AddressWallet]
    - [src/core/wallet.ts]             -> [Module CharmsWallet]

    Conventions of the embedding.

    - A JavaScript [number] is an integer [Z]: satoshi amounts, fee rates,
      indices and nonces are integers well inside the range where the
      arithmetic of doubles is exact.  Fractional or NaN numbers are outside
      the model.
    - A [Uint8Array] is a [list Z] of values in [0, 256).
    - A JavaScript string is a Rocq [string]; each character is one code
      unit below 256, and [utf8] is what [TextEncoder] produces for it.
    - A thrown exception is the [Throw] case of [result]; [try]/[catch]
      blocks become [catch].
    - The @scure packages are not part of the repository.  What the wallet
      needs from them is collected in three interfaces ([BtcSigner], [Bip39],
      [Bip32]); a [None] answer stands for an exception thrown by the
      package.  The pieces of public standards that the properties talk about
      (secp256k1 point multiplication, bech32m) are written out.
    - [btc.Transaction] is a container of inputs and outputs.  Of the checks
      the package runs on what it is given, the one on the type of an output
      script is part of the interface ([knownOutputScript]); those on the
      length of a txid and on the range of an index or an amount are not
      modelled.  When one of them throws, the builder turns it into a
      [TransactionError] like any other [Error]. *)

From Stdlib Require Import ZArith List String Ascii Bool Lia.
From Stdlib Require Import DecimalString.
Import ListNotations.

Local Open Scope string_scope.
Local Open Scope list_scope.
Local Open Scope Z_scope.

(* ------------------------------------------------------------------ *)
(** ** JavaScript values: strings, bytes, hexadecimal *)
(* ------------------------------------------------------------------ *)

Module Js.

Definition code (c : ascii) : Z := Z.of_N (N_of_ascii c).

Definition chr (z : Z) : ascii := ascii_of_N (Z.to_N (z mod 256)).

Definition chars (s : string) : list ascii := list_ascii_of_string s.

(** [String.prototype.startsWith]. *)
Definition startsWith (s p : string) : bool := String.prefix p s.

(** [!s] for a string: only the empty string is falsy. *)
Definition emptyb (s : string) : bool :=
  match s with EmptyString => true | String _ _ => false end.

(** [new TextEncoder().encode(s)] for code units below 256. *)
Definition utf8_char (c : ascii) : list Z :=
  let k := code c in
  if k <? 128 then [k]
  else [Z.lor 192 (Z.shiftr k 6); Z.lor 128 (Z.land k 63)].

Fixpoint utf8 (s : string) : list Z :=
  match s with
  | EmptyString => []
  | String c s' => utf8_char c ++ utf8 s'
  end.

(** [bytes.slice(0, n)]. *)
Definition slice0 (n : nat) (bytes : list Z) : list Z := firstn n bytes.

(** [const p = new Uint8Array(n); p.set(h)] for [h] no longer than [n]:
    the bytes of [h] followed by zeros. *)
Definition padded (n : nat) (h : list Z) : list Z :=
  h ++ repeat 0 (n - List.length h).

(** [s.padStart(n, '0')]. *)
Definition padStart0 (n : nat) (s : string) : string :=
  (string_of_list_ascii (repeat "0"%char (n - String.length s)) ++ s)%string.

(** ['0'.repeat(n)]. *)
Definition zeros (n : nat) : string :=
  string_of_list_ascii (repeat "0"%char n).

(** Decimal rendering of a number inside a template string. *)
Definition show (z : Z) : string := NilZero.string_of_int (Z.to_int z).

Definition hexDigit (d : Z) : ascii :=
  if d <? 10 then chr (48 + d) else chr (87 + d).

(** [byte.toString(16).padStart(2, '0')] for a byte. *)
Definition hexByte (b : Z) : string :=
  String (hexDigit ((b / 16) mod 16)) (String (hexDigit (b mod 16)) EmptyString).

(** [n.toString(16)] for an integer. *)
Definition hexDigitsOf (n : Z) : list ascii :=
  let k := Z.to_nat (Z.log2 n / 4 + 1) in
  map (fun i => hexDigit ((n / 16 ^ Z.of_nat i) mod 16)) (rev (seq 0 k)).

Definition toString16 (n : Z) : string :=
  if n <? 0 then String "-"%char (string_of_list_ascii (hexDigitsOf (- n)))
  else string_of_list_ascii (hexDigitsOf n).

(** Value of one hexadecimal digit; [hex.decode] lower-cases first. *)
Definition hexValue (c : ascii) : option Z :=
  let k := code c in
  if (48 <=? k) && (k <=? 57) then Some (k - 48)
  else if (97 <=? k) && (k <=? 102) then Some (k - 87)
  else if (65 <=? k) && (k <=? 70) then Some (k - 55)
  else None.

Fixpoint hexPairs (cs : list ascii) : option (list Z) :=
  match cs with
  | [] => Some []
  | hi :: lo :: rest =>
      match hexValue hi, hexValue lo, hexPairs rest with
      | Some h, Some l, Some bs => Some (16 * h + l :: bs)
      | _, _, _ => None
      end
  | [_] => None
  end.

(** [hex.decode] of @scure/base: an even number of hexadecimal digits. *)
Definition hexDecode (s : string) : option (list Z) := hexPairs (chars s).

(** [hex.encode]. *)
Definition hexEncode (bytes : list Z) : string :=
  fold_right (fun b acc => (hexByte b ++ acc)%string) EmptyString bytes.

(** [Math.ceil(n * 0.75)] for a non-negative integer [n]. *)
Definition ceil_three_quarters (n : Z) : Z := (3 * n + 3) / 4.

(** [x || 0] on numbers. *)
Definition orZero (x : option Z) : Z :=
  match x with Some v => v | None => 0 end.

End Js.

(* ------------------------------------------------------------------ *)
(** ** src/types.ts *)
(* ------------------------------------------------------------------ *)

Module Types.

Inductive Network := mainnet | testnet | testnet4.

Definition Network_eqb (a b : Network) : bool :=
  match a, b with
  | mainnet, mainnet | testnet, testnet | testnet4, testnet4 => true
  | _, _ => false
  end.

Definition showNetwork (n : Network) : string :=
  match n with
  | mainnet => "mainnet" | testnet => "testnet" | testnet4 => "testnet4"
  end.

Record UTXO := mkUTXO {
  txid : string;
  vout : Z;
  amount : Z;
  address : string
}.

Record Output := mkOutput {
  o_address : string;
  o_amount : Z
}.

Record MiningData := mkMiningData {
  hash : string;
  nonce : Z
}.

Record MiningTxParams := mkMiningTxParams {
  m_utxo : UTXO;
  m_miningData : MiningData;
  m_changeAddress : string;
  m_network : option Network;
  m_feeRate : option Z
}.

Record SimpleTxParams := mkSimpleTxParams {
  s_utxos : list UTXO;
  s_outputs : list Output;
  s_changeAddress : string;
  s_network : option Network;
  s_feeRate : option Z
}.

Record SignedTransaction := mkSignedTransaction {
  st_txid : string;
  st_hex : string;
  st_size : Z;
  st_vsize : Z;
  st_fee : Z
}.

Record TransactionResult := mkTransactionResult {
  success : bool;
  r_txid : option string;
  r_hex : option string;
  r_error : option string;
  r_size : option Z;
  r_vsize : option Z;
  r_fee : option Z
}.

(** [ValidationResult]: [{ valid, error? }]. *)
Record ValidationResult := mkValidationResult {
  vr_valid : bool;
  vr_error : option string
}.

Inductive AddressType := p2tr | p2wpkh | p2sh | legacy.

Record AddressValidation := mkAddressValidation {
  valid : bool;
  v_error : option string;
  v_network : option Network;
  v_type : option AddressType
}.

Record TaprootKeys := mkTaprootKeys {
  privateKey : list Z;
  publicKey : list Z;
  xOnlyPubkey : list Z;
  k_address : string
}.

(** The error classes.  [JsError] is an exception that is not a
    [CharmsWalletError]: the [Error], [TypeError] or [RangeError] thrown
    by a package or by the runtime. *)
Inductive ErrorClass :=
| ValidationError
| TransactionError
| NetworkError
| CryptographyError
| JsError.

Record Exception := mkException {
  class : ErrorClass;
  message : string
}.

Inductive result (A : Type) :=
| Ok (a : A)
| Throw (e : Exception).
Arguments Ok {A} a.
Arguments Throw {A} e.

Definition throw {A} (c : ErrorClass) (msg : string) : result A :=
  Throw (mkException c msg).

Definition bind {A B} (m : result A) (k : A -> result B) : result B :=
  match m with
  | Ok a => k a
  | Throw e => Throw e
  end.

(** [try { m } catch (error) { handler(error) }]. *)
Definition catch {A} (m : result A) (handler : Exception -> result A) : result A :=
  match m with
  | Ok a => Ok a
  | Throw e => handler e
  end.

(** A package call that throws an ordinary [Error] when it fails. *)
Definition fromPackage {A} (what : string) (o : option A) : result A :=
  match o with
  | Some a => Ok a
  | None => throw JsError what
  end.

(** A [for ... of] loop whose body may throw, collecting what it builds. *)
Fixpoint forEach {A B} (f : A -> result B) (l : list A) : result (list B) :=
  match l with
  | [] => Ok []
  | a :: l' =>
      match f a with
      | Ok b =>
          match forEach f l' with
          | Ok bs => Ok (b :: bs)
          | Throw e => Throw e
          end
      | Throw e => Throw e
      end
  end.

Definition isOk {A} (m : result A) : bool :=
  match m with Ok _ => true | Throw _ => false end.

Definition thrownClass {A} (m : result A) : option ErrorClass :=
  match m with Ok _ => None | Throw e => Some (class e) end.

End Types.

Export Types.

Declare Scope result_scope.
Delimit Scope result_scope with result.
Notation "x <- m ;; k" := (bind m (fun x => k))
  (at level 61, m at next level, right associativity) : result_scope.
Notation "m ;;; k" := (bind m (fun _ => k))
  (at level 61, right associativity) : result_scope.
Local Open Scope result_scope.

(* ------------------------------------------------------------------ *)
(** ** src/constants.ts *)
(* ------------------------------------------------------------------ *)

Module Constants.

Definition DEFAULT_DERIVATION_PATH : string := "m/86'/0'/0'".

Definition DEFAULT_NETWORK : Network := testnet.

Definition MIN_FEE_RATE : Z := 1.
Definition DEFAULT_FEE_RATE : Z := 10.
Definition MAX_FEE_RATE : Z := 1000.
Definition DUST_THRESHOLD : Z := 546.
Definition MIN_UTXO_AMOUNT : Z := 1000.
Definition MAX_OP_RETURN_SIZE : Z := 80.

Definition ENTROPY_BITS_12 : Z := 128.
Definition ENTROPY_BITS_24 : Z := 256.
Definition DEFAULT_WORD_COUNT : Z := 12.
Definition SUPPORTED_WORD_COUNTS : list Z := [12; 15; 18; 21; 24].

(** The character classes of [ADDRESS_PATTERNS]. *)

Definition lower (k : Z) : bool := (97 <=? k) && (k <=? 122).
Definition digit (k : Z) : bool := (48 <=? k) && (k <=? 57).

(** [[a-zA-HJ-NP-Z0-9]] *)
Definition segwitClass (c : ascii) : bool :=
  let k := Js.code c in
  lower k
  || ((65 <=? k) && (k <=? 72))
  || ((74 <=? k) && (k <=? 78))
  || ((80 <=? k) && (k <=? 90))
  || digit k.

(** [[a-km-zA-HJ-NP-Z1-9]] *)
Definition base58Class (c : ascii) : bool :=
  let k := Js.code c in
  ((97 <=? k) && (k <=? 107))
  || ((109 <=? k) && (k <=? 122))
  || ((65 <=? k) && (k <=? 72))
  || ((74 <=? k) && (k <=? 78))
  || ((80 <=? k) && (k <=? 90))
  || ((49 <=? k) && (k <=? 57)).

(** [/^<prefix>[class]{n}$/] *)
Definition matchExact (prefix : string) (cls : ascii -> bool) (n : nat)
           (s : string) : bool :=
  let k := String.length prefix in
  Js.startsWith s prefix
  && (let rest := skipn k (Js.chars s) in
      Nat.eqb (List.length rest) n && forallb cls rest).

(** [/^[first][class]{lo,hi}$/] *)
Definition matchLegacy (first : list ascii) (lo hi : nat) (s : string) : bool :=
  match Js.chars s with
  | [] => false
  | c :: rest =>
      existsb (fun f => Ascii.eqb f c) first
      && Nat.leb lo (List.length rest) && Nat.leb (List.length rest) hi
      && forallb base58Class rest
  end.

Definition MAINNET_P2TR : string -> bool := matchExact "bc1p" segwitClass 58.
Definition TESTNET_P2TR : string -> bool := matchExact "tb1p" segwitClass 58.
Definition MAINNET_P2WPKH : string -> bool := matchExact "bc1q" segwitClass 38.
Definition TESTNET_P2WPKH : string -> bool := matchExact "tb1q" segwitClass 38.
Definition LEGACY : string -> bool :=
  matchLegacy ["1"; "3"]%char 25 34.
Definition TESTNET_LEGACY : string -> bool :=
  matchLegacy ["m"; "n"; "2"]%char 25 34.

End Constants.

(* ------------------------------------------------------------------ *)
(** ** secp256k1 (what [getPublicKey] of @noble/secp256k1 computes) *)
(* ------------------------------------------------------------------ *)

Module Secp256k1.

Definition p : Z := 2 ^ 256 - 2 ^ 32 - 977.

Definition n : Z :=
  0xFFFFFFFFFFFFFFFFFFFFFFFFFFFFFFFEBAAEDCE6AF48A03BBFD25E8CD0364141.

Definition Gx : Z :=
  0x79BE667EF9DCBBAC55A06295CE870B07029BFCDB2DCE28D959F2815B16F81798.

Definition Gy : Z :=
  0x483ADA7726A3C4655DA4FBFC0E1108A8FD17B448A68554199C47D08FFB10D4B8.

Inductive point :=
| Infinity
| Affine (x y : Z).

Definition G : point := Affine Gx Gy.

(** Extended Euclid on [(r0, r1)], carrying the coefficients of the
    inverted value; 512 rounds are more than a 256-bit modulus needs. *)
Fixpoint egcd (fuel : nat) (r0 r1 s0 s1 : Z) : Z :=
  match fuel with
  | O => s0
  | S fuel' =>
      if r1 =? 0 then s0
      else
        let q := r0 / r1 in
        egcd fuel' r1 (r0 - q * r1) s1 (s0 - q * s1)
  end.

(** Inverse in the prime field. *)
Definition inv (a : Z) : Z := (egcd 512 p (a mod p) 0 1) mod p.

Definition onCurve (P : point) : bool :=
  match P with
  | Infinity => true
  | Affine x y => (y * y) mod p =? (x * x * x + 7) mod p
  end.

Definition double (P : point) : point :=
  match P with
  | Infinity => Infinity
  | Affine x y =>
      if y =? 0 then Infinity
      else
        let l := (3 * x * x * inv (2 * y)) mod p in
        let x3 := (l * l - 2 * x) mod p in
        Affine x3 ((l * (x - x3) - y) mod p)
  end.

Definition add (P Q : point) : point :=
  match P, Q with
  | Infinity, _ => Q
  | _, Infinity => P
  | Affine x1 y1, Affine x2 y2 =>
      if x1 =? x2 then
        if (y1 + y2) mod p =? 0 then Infinity else double P
      else
        let l := ((y2 - y1) * inv (x2 - x1)) mod p in
        let x3 := (l * l - x1 - x2) mod p in
        Affine x3 ((l * (x1 - x3) - y1) mod p)
  end.

(** The Jacobi symbol of [a] over an odd [n], by the binary algorithm;
    2048 rounds are more than 256-bit operands need. *)
Fixpoint jacobiLoop (fuel : nat) (a n res : Z) : Z :=
  match fuel with
  | O => 0
  | S fuel' =>
      if a =? 0 then (if n =? 1 then res else 0)
      else if Z.even a then
        jacobiLoop fuel' (a / 2) n
                   (if (n mod 8 =? 3) || (n mod 8 =? 5) then - res else res)
      else
        jacobiLoop fuel' (n mod a) a
                   (if (a mod 4 =? 3) && (n mod 4 =? 3) then - res else res)
  end.

Definition jacobi (a n : Z) : Z := jacobiLoop 2048 (a mod n) n 1.

(** [lift_x] succeeds on [x]: [x] is below the field size and
    [x ^ 3 + 7] is a square. *)
Definition isXCoordinate (x : Z) : bool :=
  (0 <=? x) && (x <? p) && (jacobi ((x * x * x + 7) mod p) p =? 1).

(** [k * P] by double and add. *)
Fixpoint mulPos (k : positive) (P : point) : point :=
  match k with
  | xH => P
  | xO k' => double (mulPos k' P)
  | xI k' => add P (double (mulPos k' P))
  end.

Definition mul (k : Z) (P : point) : point :=
  match k with
  | Zpos k' => mulPos k' P
  | _ => Infinity
  end.

(** Big-endian integer of a byte string, and back on [len] bytes. *)
Definition bytesToNumberBE (bytes : list Z) : Z :=
  fold_left (fun acc b => 256 * acc + b) bytes 0.

Definition numberToBytesBE (len : nat) (v : Z) : list Z :=
  map (fun i => (v / 256 ^ Z.of_nat (len - 1 - i)) mod 256) (seq 0 len).

(** SEC1 compressed encoding: parity byte, then the x coordinate. *)
Definition compress (P : point) : option (list Z) :=
  match P with
  | Infinity => None
  | Affine x y =>
      Some ((if Z.even y then 2 else 3) :: numberToBytesBE 32 x)
  end.

(** Modelled from the spec: the public key of a private key [d] is the
    elliptic-curve scalar multiplication [P = d * G] on secp256k1, in
    compressed form (33 bytes).  This is [getPublicKey(privateKey, true)]
    of the package, defined for a 32-byte secret [0 < d < n]. *)
Definition getPublicKey (privateKey : list Z) : option (list Z) :=
  let d := bytesToNumberBE privateKey in
  if Nat.eqb (List.length privateKey) 32 && (0 <? d) && (d <? n)
  then compress (mul d G)
  else None.

End Secp256k1.

(* ------------------------------------------------------------------ *)
(** ** bech32m (BIP-350), the encoding behind [p2tr(...).address] *)
(* ------------------------------------------------------------------ *)

(** Modelled from the spec: a Taproot address is the bech32m encoding of a
    witness-v1 program under the human-readable prefix of the network. *)
Module Bech32m.

Definition CHARSET : list ascii :=
  Js.chars "qpzry9x8gf2tvdw0s3jn54khce6mua7l".

Definition charAt (v : Z) : ascii := nth (Z.to_nat v) CHARSET "q"%char.

Definition GEN : list Z :=
  [0x3b6a57b2; 0x26508e6d; 0x1ea119fa; 0x3d4233dd; 0x2a1462b3].

Definition BECH32M_CONST : Z := 0x2bc830a3.

Definition polymodStep (chk v : Z) : Z :=
  let b := Z.shiftr chk 25 in
  let chk' := Z.lxor (Z.shiftl (Z.land chk 0x1ffffff) 5) v in
  fold_left
    (fun acc ig =>
       if Z.testbit b (Z.of_nat (fst ig)) then Z.lxor acc (snd ig) else acc)
    (combine (seq 0 5) GEN) chk'.

Definition polymod (values : list Z) : Z := fold_left polymodStep values 1.

Definition hrpExpand (hrp : string) : list Z :=
  let cs := map Js.code (Js.chars hrp) in
  map (fun c => Z.shiftr c 5) cs ++ [0] ++ map (fun c => Z.land c 31) cs.

Definition createChecksum (hrp : string) (data : list Z) : list Z :=
  let pm :=
    Z.lxor (polymod (hrpExpand hrp ++ data ++ [0; 0; 0; 0; 0; 0]))
           BECH32M_CONST in
  map (fun i => Z.land (Z.shiftr pm (5 * (5 - Z.of_nat i))) 31) (seq 0 6).

Definition encode (hrp : string) (data : list Z) : string :=
  (hrp ++ "1"
       ++ string_of_list_ascii (map charAt (data ++ createChecksum hrp data)))%string.

(** Regrouping of bytes into 5-bit words, most significant bit first, the
    last word padded with zero bits. *)
Definition bitsOfByte (b : Z) : list bool :=
  map (fun i => Z.testbit b (7 - Z.of_nat i)) (seq 0 8).

Definition wordOfBits (bits : list bool) : Z :=
  fold_left (fun acc (b : bool) => 2 * acc + (if b then 1 else 0))
            (bits ++ repeat false (5 - List.length bits)) 0.

Definition toWords (bytes : list Z) : list Z :=
  let bits := flat_map bitsOfByte bytes in
  let count := Nat.div (List.length bits + 4) 5 in
  map (fun i => wordOfBits (firstn 5 (skipn (5 * i) bits))) (seq 0 count).

(** A segwit address: witness version, then the program. *)
Definition encodeSegwit (hrp : string) (version : Z) (program : list Z) : string :=
  encode hrp (version :: toWords program).

End Bech32m.

(* ------------------------------------------------------------------ *)
(** ** The @scure packages *)
(* ------------------------------------------------------------------ *)

Module Scure.

(** A [btc.Transaction] under construction, which is also the content of
    the PSBT that [hex.encode(tx.toPSBT())] serialises and
    [btc.Transaction.fromPSBT(hex.decode(...))] reads back. *)
Record WitnessUtxo := mkWitnessUtxo {
  w_script : list Z;
  w_amount : Z
}.

Record TxInput := mkTxInput {
  i_txid : list Z;
  i_index : Z;
  witnessUtxo : option WitnessUtxo;
  tapInternalKey : option (list Z)
}.

Record TxOutput := mkTxOutput {
  script : list Z;
  t_amount : Z
}.

Record Transaction := mkTransaction {
  inputs : list TxInput;
  outputs : list TxOutput
}.

(** [btc.NETWORK] and [btc.TEST_NETWORK]: only the bech32 prefix matters. *)
Inductive BtcNetwork := NETWORK | TEST_NETWORK.

Definition bech32 (net : BtcNetwork) : string :=
  match net with NETWORK => "bc" | TEST_NETWORK => "tb" end.

(** @scure/btc-signer.
    - [taprootOutputKey P]: the x coordinate of the BIP-341 output key
      [lift_x(P) + TaggedHash("TapTweak", P) * G] for the internal key
      [P]; [None] when [btc.p2tr] rejects [P].
    - [p2wpkhScript], [p2pkhScript]: [btc.p2wpkh(arg).script] and
      [btc.p2pkh(arg).script].
    - [knownOutputScript script]: [OutScript.decode(script)] finds one of
      the output types of the package.  A transaction made by
      [new btc.Transaction()], without [allowUnknownOutputs], throws in
      [addOutput] when it does not.
    - [signFinalizeExtract tx key]: [tx.sign(key); tx.finalize();
      tx.extract()], the raw bytes of the finalized transaction.
    - [rawTxId raw]: [btc.Transaction.fromRaw(raw).id]. *)
Class BtcSigner := {
  taprootOutputKey : list Z -> option Z;
  p2wpkhScript : list Z -> option (list Z);
  p2pkhScript : list Z -> option (list Z);
  knownOutputScript : list Z -> bool;
  signFinalizeExtract : Transaction -> list Z -> option (list Z);
  rawTxId : list Z -> option string
}.

(** @scure/bip39.
    - [validateMnemonic m]: [validateMnemonic(m, wordlist)].
    - [mnemonicToSeed m].
    - [randomByte i]: the i-th byte handed out by the secure random source.
    - [sha256 bytes]: the digest, as a 256-bit integer. *)
Class Bip39 := {
  validateMnemonic : string -> bool;
  mnemonicToSeed : string -> option (list Z);
  randomByte : nat -> Z;
  sha256 : list Z -> Z
}.

(** @scure/bip32: a node carries its private key; [derive] takes a path
    string, [deriveChild] one index. *)
Class Bip32 := {
  HDKey : Type;
  fromMasterSeed : list Z -> option HDKey;
  deriveChild : HDKey -> Z -> option HDKey;
  derive : HDKey -> string -> option HDKey;
  hdPrivateKey : HDKey -> option (list Z)
}.

(** The public key of a node is the compressed point of its private key. *)
Definition hdPublicKey `{Bip32} (k : HDKey) : option (list Z) :=
  match hdPrivateKey k with
  | Some d => Secp256k1.getPublicKey d
  | None => None
  end.

Record P2Ret := mkP2Ret {
  p_script : list Z;
  p_address : string
}.

(** Modelled from the spec: [btc.p2tr(internalKey, undefined, network)]
    takes the x coordinate of the tweaked output key as the 32-byte program
    of a witness-v1 output; the script is [OP_1 <32 bytes>] and the address
    the bech32m encoding of the program under the prefix of the network. *)
Definition p2tr `{BtcSigner} (internalKey : list Z) (net : BtcNetwork)
  : option P2Ret :=
  match taprootOutputKey internalKey with
  | Some q =>
      let program := Secp256k1.numberToBytesBE 32 (q mod 2 ^ 256) in
      Some (mkP2Ret (0x51 :: 0x20 :: program)
                    (Bech32m.encodeSegwit (bech32 net) 1 program))
  | None => None
  end.

(** [tx.addOutput({ script, amount })] on [new btc.Transaction()]. *)
Definition addOutput `{BtcSigner} (script : list Z) (amount : Z)
  : option TxOutput :=
  if knownOutputScript script then Some (mkTxOutput script amount) else None.

(** Modelled from the package: [btc.Script.encode(items)].  An item is a
    number or a byte string.  The numbers 0 and 1 to 16 are written as the
    opcodes [OP_0] and [OP_1] to [OP_16]; every other number is pushed as
    data, in the encoding of script numbers (little endian, the top bit of
    the last byte is the sign); a byte string is pushed behind its
    length. *)
Inductive ScriptItem :=
| Num (n : Z)
| Bytes (b : list Z).

Definition pushData (data : list Z) : list Z :=
  let len := Z.of_nat (List.length data) in
  if len <? 76 then len :: data
  else if len <? 256 then 0x4c :: len :: data
  else 0x4d :: len mod 256 :: (len / 256) mod 256 :: data.

Fixpoint littleEndian (fuel : nat) (a : Z) : list Z :=
  match fuel with
  | O => []
  | S fuel' =>
      if a =? 0 then [] else a mod 256 :: littleEndian fuel' (a / 256)
  end.

Definition scriptNum (n : Z) : list Z :=
  let a := Z.abs n in
  let bytes := littleEndian (Z.to_nat (Z.log2 a / 8 + 1)) a in
  match rev bytes with
  | [] => []
  | top :: rest =>
      if 128 <=? top then bytes ++ [if n <? 0 then 128 else 0]
      else if n <? 0 then rev (top + 128 :: rest)
      else bytes
  end.

Definition encodeItem (item : ScriptItem) : list Z :=
  match item with
  | Num n =>
      if n =? 0 then [0x00]
      else if (1 <=? n) && (n <=? 16) then [0x50 + n]
      else pushData (scriptNum n)
  | Bytes b => pushData b
  end.

Definition scriptEncode (items : list ScriptItem) : list Z :=
  flat_map encodeItem items.

(** [btc.OP.RETURN]: a member of the numeric enumeration [OP]. *)
Definition OP_RETURN : Z := 106.

(** [btc.Script.encode([btc.OP.RETURN, data])].  The first item is the
    number 106, so it is pushed as one byte of data: the script reads
    [01 6a <push of data>] and does not start with the opcode [6a]. *)
Definition opReturnScript (data : list Z) : list Z :=
  scriptEncode [Num OP_RETURN; Bytes data].

(** Modelled from the spec: [generateMnemonic(wordlist, strength)] draws
    [strength / 8] random bytes, appends [strength / 32] checksum bits taken
    from the top of their SHA-256 and cuts the result into 11-bit word
    indices; the strength is a multiple of 32 between 128 and 256.  A
    mnemonic is represented by its list of word indices (the word list
    itself is a constant of the package). *)
Definition entropyBitsOk (strength : Z) : bool :=
  (strength mod 32 =? 0) && (128 <=? strength) && (strength <=? 256).

Definition generateMnemonic `{Bip39} (strength : Z) : option (list Z) :=
  if entropyBitsOk strength then
    let entropy :=
      map (fun i => randomByte i mod 256) (seq 0 (Z.to_nat (strength / 8))) in
    let cs := strength / 32 in
    let checksum := (sha256 entropy mod 2 ^ 256) / 2 ^ (256 - cs) in
    let all := Secp256k1.bytesToNumberBE entropy * 2 ^ cs + checksum in
    let count := Z.to_nat ((strength + cs) / 11) in
    Some (map (fun i => (all / 2 ^ (11 * Z.of_nat (count - 1 - i))) mod 2048)
              (seq 0 count))
  else None.

End Scure.

Export Scure.

(* ------------------------------------------------------------------ *)
(** ** src/transaction/builder.ts *)
(* ------------------------------------------------------------------ *)

Module TransactionBuilder.

Import Constants.

(** The instance: [private readonly network]. *)
Record t := mk { network : Network }.

Definition new (network : option Network) : t :=
  mk (match network with Some n => n | None => DEFAULT_NETWORK end).

(** [estimateTransactionSize(inputs, outputs)] *)
Definition estimateTransactionSize (inputs outputs : Z) : Z :=
  let size := 10 in
  let size := size + inputs * 57 in
  let size := size + outputs * 43 in
  size.

(** [getNetworkConfig(network)]: every value of the [Network] type has a
    configuration, so the [default:] branch of the switch is never taken. *)
Definition getNetworkConfig (network : Network) : result BtcNetwork :=
  match network with
  | mainnet => Ok NETWORK
  | testnet | testnet4 => Ok TEST_NETWORK
  end.

(** [feeRate && (feeRate < MIN_FEE_RATE || feeRate > MAX_FEE_RATE)] *)
Definition feeRateRejected (feeRate : option Z) : bool :=
  match feeRate with
  | None => false
  | Some f => negb (f =? 0) && ((f <? MIN_FEE_RATE) || (f >? MAX_FEE_RATE))
  end.

Definition feeRateMessage (feeRate : option Z) : string :=
  ("Fee rate (" ++ Js.show (Js.orZero feeRate) ++ ") outside valid range ("
     ++ Js.show MIN_FEE_RATE ++ "-" ++ Js.show MAX_FEE_RATE ++ ")")%string.

(** [!utxo.txid || typeof utxo.vout !== 'number' || !utxo.amount || !utxo.address] *)
Definition utxoMalformed (utxo : UTXO) : bool :=
  Js.emptyb (txid utxo) || (amount utxo =? 0) || Js.emptyb (address utxo).

(** [validateMiningParams(params)] *)
Definition validateMiningParams (params : MiningTxParams) : result unit :=
  let utxo := m_utxo params in
  let miningData := m_miningData params in
  let changeAddress := m_changeAddress params in
  let feeRate := m_feeRate params in
  if utxoMalformed utxo then throw ValidationError "Invalid UTXO format"
  else if amount utxo <? MIN_UTXO_AMOUNT then
    throw ValidationError
          ("UTXO amount (" ++ Js.show (amount utxo) ++ ") below minimum ("
             ++ Js.show MIN_UTXO_AMOUNT ++ ")")%string
  else if Js.emptyb (hash miningData) then
    throw ValidationError "Invalid mining data format"
  else if Nat.ltb (String.length (hash miningData)) 32 then
    throw ValidationError "Mining hash too short (minimum 32 hex characters)"
  else if nonce miningData <? 0 then
    throw ValidationError "Mining nonce must be non-negative"
  else if Js.emptyb changeAddress then
    throw ValidationError "Invalid change address"
  else if feeRateRejected feeRate then
    throw ValidationError (feeRateMessage feeRate)
  else Ok tt.

(** The body of the loop over [outputs] in [validateSimpleParams]. *)
Definition validateOutput (output : Output) : result unit :=
  if Js.emptyb (o_address output) || (o_amount output <=? 0) then
    throw ValidationError "Invalid output format"
  else if o_amount output <? DUST_THRESHOLD then
    throw ValidationError
          ("Output amount (" ++ Js.show (o_amount output)
             ++ ") below dust threshold (" ++ Js.show DUST_THRESHOLD ++ ")")%string
  else Ok tt.

(** [validateSimpleParams(params)] *)
Definition validateSimpleParams (params : SimpleTxParams) : result unit :=
  let utxos := s_utxos params in
  let outputs := s_outputs params in
  let changeAddress := s_changeAddress params in
  let feeRate := s_feeRate params in
  match utxos with
  | [] => throw ValidationError "At least one UTXO is required"
  | _ =>
      forEach (fun utxo =>
                 if utxoMalformed utxo
                 then throw ValidationError "Invalid UTXO format"
                 else Ok tt) utxos ;;;
      match outputs with
      | [] => throw ValidationError "At least one output is required"
      | _ =>
          forEach validateOutput outputs ;;;
          if Js.emptyb changeAddress then
            throw ValidationError "Invalid change address"
          else if feeRateRejected feeRate then
            throw ValidationError (feeRateMessage feeRate)
          else Ok tt
      end
  end.

(** [createMiningOpReturn(miningData)].  [combinedHex.length / 2 > 80]
    is a comparison of reals: it holds from 161 characters on. *)
Definition halfMessage (len : nat) : string :=
  (Js.show (Z.of_nat len / 2) ++ (if Nat.even len then "" else ".5"))%string.

Definition createMiningOpReturn (miningData : MiningData) : result (list Z) :=
  let hashPrefix := substring 0 32 (hash miningData) in
  let nonceHex := Js.padStart0 8 (Js.toString16 (nonce miningData)) in
  let combinedHex := (hashPrefix ++ nonceHex)%string in
  if Z.of_nat (String.length combinedHex) >? 2 * MAX_OP_RETURN_SIZE then
    throw TransactionError
          ("OP_RETURN data too large: " ++ halfMessage (String.length combinedHex)
             ++ " bytes (max: " ++ Js.show MAX_OP_RETURN_SIZE ++ ")")%string
  else fromPackage "hex.decode" (Js.hexDecode combinedHex).

(** The catch clauses of the two entry points. *)
Definition rethrow {A} (what : string) (m : result A) : result A :=
  catch m (fun error =>
    match class error with
    | ValidationError | TransactionError => Throw error
    | _ => throw TransactionError
                 ("Failed to create " ++ what ++ " transaction: " ++ message error)%string
    end).

Section WithPackages.

Context `{BtcSigner}.

Definition isTaproot (address : string) : bool :=
  Js.startsWith address "bc1p" || Js.startsWith address "tb1p".

Definition isSegwit (address : string) : bool :=
  Js.startsWith address "bc1q" || Js.startsWith address "tb1q".

(** [createScriptPubKey(address, _network)] *)
Definition createScriptPubKey (address : string) (_network : Network)
  : result (list Z) :=
  catch
    (if isTaproot address then
       let addressBytes := Js.utf8 address in
       let hash := Js.slice0 32 addressBytes in
       let paddedHash := Js.padded 32 hash in
       p <- fromPackage "p2tr" (p2tr paddedHash NETWORK) ;;
       Ok (p_script p)
     else if isSegwit address then
       let addressBytes := Js.utf8 address in
       let hash := Js.slice0 20 addressBytes in
       let paddedHash := Js.padded 20 hash in
       fromPackage "p2wpkh" (p2wpkhScript paddedHash)
     else
       let addressBytes := Js.utf8 address in
       let hash := Js.slice0 20 addressBytes in
       let paddedHash := Js.padded 20 hash in
       fromPackage "p2pkh" (p2pkhScript paddedHash))
    (fun error =>
       throw ValidationError
             ("Failed to create script for address " ++ address ++ ": "
                ++ message error)%string).

(** The argument of [tx.addInput] built from one UTXO. *)
Definition inputOf (network : Network) (utxo : UTXO) : result TxInput :=
  decoded <- fromPackage "hex.decode" (Js.hexDecode (txid utxo)) ;;
  let inputHash := rev decoded in
  script <- createScriptPubKey (address utxo) network ;;
  Ok (mkTxInput inputHash (vout utxo)
                (Some (mkWitnessUtxo script (amount utxo))) None).

(** [tx.addOutput({ script: this.createScriptPubKey(address, network),
    amount: BigInt(amount) })] *)
Definition payment (network : Network) (address : string) (amount : Z)
  : result TxOutput :=
  script <- createScriptPubKey address network ;;
  fromPackage "addOutput" (addOutput script amount).

(** The body of the loop over [outputs]. *)
Definition outputOf (network : Network) (output : Output) : result TxOutput :=
  payment network (o_address output) (o_amount output).

Definition miningFee (params : MiningTxParams) : Z :=
  let feeRate :=
    match m_feeRate params with Some f => f | None => DEFAULT_FEE_RATE end in
  let estimatedSize := estimateTransactionSize 1 2 in
  feeRate * estimatedSize.

Definition miningChange (params : MiningTxParams) : Z :=
  amount (m_utxo params) - miningFee params.

(** [createMiningTransaction(params)] *)
Definition createMiningTransaction (self : t) (params : MiningTxParams)
  : result Transaction :=
  rethrow "mining"
    (validateMiningParams params ;;;
     let utxo := m_utxo params in
     let miningData := m_miningData params in
     let changeAddress := m_changeAddress params in
     let network :=
       match m_network params with Some n => n | None => network self end in
     getNetworkConfig network ;;;
     input <- inputOf network utxo ;;
     opReturnData <- createMiningOpReturn miningData ;;
     opReturn <- fromPackage "addOutput"
                             (addOutput (opReturnScript opReturnData) 0) ;;
     let changeAmount := miningChange params in
     if changeAmount <? DUST_THRESHOLD then
       throw TransactionError
             ("Change amount (" ++ Js.show changeAmount
                ++ ") below dust threshold (" ++ Js.show DUST_THRESHOLD ++ ")")%string
     else
       change <- payment network changeAddress changeAmount ;;
       Ok (mkTransaction [input] [opReturn; change])).

Definition totalInput (utxos : list UTXO) : Z :=
  fold_left (fun sum utxo => sum + amount utxo) utxos 0.

Definition totalOutput (outputs : list Output) : Z :=
  fold_left (fun sum output => sum + o_amount output) outputs 0.

Definition simpleFee (params : SimpleTxParams) : Z :=
  let feeRate :=
    match s_feeRate params with Some f => f | None => DEFAULT_FEE_RATE end in
  let estimatedSize :=
    estimateTransactionSize (Z.of_nat (List.length (s_utxos params)))
                            (Z.of_nat (List.length (s_outputs params)) + 1) in
  feeRate * estimatedSize.

Definition simpleChange (params : SimpleTxParams) : Z :=
  totalInput (s_utxos params) - totalOutput (s_outputs params)
  - simpleFee params.

(** [createSimpleTransaction(params)] *)
Definition createSimpleTransaction (self : t) (params : SimpleTxParams)
  : result Transaction :=
  rethrow "simple"
    (validateSimpleParams params ;;;
     let utxos := s_utxos params in
     let outputs := s_outputs params in
     let changeAddress := s_changeAddress params in
     let network :=
       match s_network params with Some n => n | None => network self end in
     getNetworkConfig network ;;;
     txInputs <- forEach (inputOf network) utxos ;;
     txOutputs <- forEach (outputOf network) outputs ;;
     let changeAmount := simpleChange params in
     if changeAmount >? DUST_THRESHOLD then
       change <- payment network changeAddress changeAmount ;;
       Ok (mkTransaction txInputs (txOutputs ++ [change]))
     else if changeAmount <? 0 then
       throw TransactionError "Insufficient funds for transaction"
     else Ok (mkTransaction txInputs txOutputs)).

End WithPackages.

End TransactionBuilder.

(* ------------------------------------------------------------------ *)
(** ** Private helpers that signer.ts and address-wallet.ts both carry *)
(* ------------------------------------------------------------------ *)

Module Signing.

(** [calculateFee(utxo, tx)]: the outputs of a PSBT all carry an amount,
    so the loop never throws and the [catch] returning 0 is not reached. *)
Definition calculateFee (utxo : UTXO) (tx : Transaction) : Z :=
  let totalOutput :=
    fold_left (fun total output => total + t_amount output) (outputs tx) 0 in
  amount utxo - totalOutput.

(** [calculateVirtualSize(txBytes)] *)
Definition calculateVirtualSize (txBytes : list Z) : Z :=
  Js.ceil_three_quarters (Z.of_nat (List.length txBytes)).

(** JavaScript white space among the code units below 256. *)
Definition isSpace (c : ascii) : bool :=
  let k := Js.code c in
  ((9 <=? k) && (k <=? 13)) || (k =? 32) || (k =? 160).

Fixpoint countWords (inWord : bool) (cs : list ascii) : nat :=
  match cs with
  | [] => O
  | c :: cs' =>
      if isSpace c then countWords false cs'
      else ((if inWord then 0 else 1) + countWords true cs')%nat
  end.

(** [mnemonic.trim().split(/\s+/).length]: an all-blank string splits
    into one empty word. *)
Definition splitLength (mnemonic : string) : nat :=
  match countWords false (Js.chars mnemonic) with
  | O => 1%nat
  | k => k
  end.

(** [!utxo || !utxo.txid || typeof utxo.vout !== 'number' || !utxo.amount
    || !utxo.address] *)
Definition utxoMalformed (utxo : UTXO) : bool :=
  Js.emptyb (txid utxo) || (amount utxo =? 0) || Js.emptyb (address utxo).

(** The tail of [signTransaction], after [signPSBT] returned. *)
Definition nonEmpty (s : option string) : option string :=
  match s with
  | Some v => if Js.emptyb v then None else Some v
  | None => None
  end.

Definition toSignedTransaction (r : TransactionResult) : result SignedTransaction :=
  match success r, nonEmpty (r_txid r), nonEmpty (r_hex r) with
  | true, Some id, Some h =>
      Ok (mkSignedTransaction id h (Js.orZero (r_size r))
                              (Js.orZero (r_vsize r)) (Js.orZero (r_fee r)))
  | _, _, _ =>
      throw TransactionError
            (match nonEmpty (r_error r) with
             | Some e => e
             | None => "Transaction signing failed"
             end)
  end.

Definition failed (error : Exception) : TransactionResult :=
  mkTransactionResult false None None
                      (Some ("Signing failed: " ++ message error)%string)
                      None None None.

(** What [signPSBT] returns once its [try] block has run. *)
Definition settle (m : result TransactionResult) : TransactionResult :=
  match m with
  | Ok r => r
  | Throw error => failed error
  end.

Definition networkConfig (network : Network) : result BtcNetwork :=
  match network with
  | mainnet => Ok NETWORK
  | testnet | testnet4 => Ok TEST_NETWORK
  end.

Section WithPackages.

Context `{BtcSigner}.

(** [calculateTxId(txBytes)] *)
Definition calculateTxId (txBytes : list Z) : string :=
  match rawTxId txBytes with
  | Some id => id
  | None => Js.hexEncode (Js.slice0 32 txBytes)
  end.

(** [updateWitnessUtxo(tx, utxo, ...)] with the x-only key the caller
    holds. *)
Definition updateWitnessUtxo (network : Network) (tx : Transaction)
           (utxo : UTXO) (xOnly : list Z) : result Transaction :=
  catch
    (match inputs tx with
     | [] => throw JsError "getInput"
     | input :: rest =>
         match witnessUtxo input with
         | Some _ => Ok tx
         | None =>
             net <- networkConfig network ;;
             p <- fromPackage "p2tr" (p2tr xOnly net) ;;
             Ok (mkTransaction
                   (mkTxInput (i_txid input) (i_index input)
                              (Some (mkWitnessUtxo (p_script p) (amount utxo)))
                              (tapInternalKey input)
                      :: rest)
                   (outputs tx))
         end
     end)
    (fun error =>
       throw TransactionError
             ("Failed to update witness UTXO: " ++ message error)%string).

(** From [tx.sign] to the returned object, shared by both [signPSBT]. *)
Definition signAndReport (tx : Transaction) (utxo : UTXO) (key : list Z)
  : result TransactionResult :=
  finalTx <- fromPackage "sign" (signFinalizeExtract tx key) ;;
  let txHex := Js.hexEncode finalTx in
  let txId := calculateTxId finalTx in
  Ok (mkTransactionResult true (Some txId) (Some txHex) None
                          (Some (Z.of_nat (List.length finalTx)))
                          (Some (calculateVirtualSize finalTx))
                          (Some (calculateFee utxo tx))).

End WithPackages.

End Signing.

(* ------------------------------------------------------------------ *)
(** ** src/transaction/signer.ts *)
(* ------------------------------------------------------------------ *)

Module TransactionSigner.

Import Constants Signing.

Record t := mk { network : Network }.

Definition new (network : option Network) : t :=
  mk (match network with Some n => n | None => DEFAULT_NETWORK end).

(** [validateSigningInputs(psbtHex, utxo, mnemonic)].  The PSBT argument
    of the model is the content a hexadecimal PSBT string decodes to, so
    the two checks of the string itself have passed. *)
Definition validateSigningInputs (psbt : Transaction) (utxo : UTXO)
           (mnemonic : string) : result unit :=
  if utxoMalformed utxo then throw ValidationError "Invalid UTXO format"
  else if Js.emptyb mnemonic then throw ValidationError "Invalid mnemonic"
  else
    let words := splitLength mnemonic in
    if Nat.ltb words 12 || Nat.ltb 24 words then
      throw ValidationError "Invalid mnemonic word count"
    else Ok tt.

Section WithPackages.

Context `{BtcSigner} `{Bip39} `{Bip32}.

(** [deriveTaprootKeys(mnemonic, derivationPath, index)] *)
Definition deriveTaprootKeys (self : t) (mnemonic : string)
           (derivationPath : string) (index : Z) : result TaprootKeys :=
  catch
    (seed <- fromPackage "mnemonicToSeed" (mnemonicToSeed mnemonic) ;;
     hdkey <- fromPackage "fromMasterSeed" (fromMasterSeed seed) ;;
     accountKey <- fromPackage "derive" (derive hdkey derivationPath) ;;
     chainKey <- fromPackage "derive" (derive accountKey "0") ;;
     addressKey <- fromPackage "derive" (derive chainKey (Js.show index)) ;;
     match hdPrivateKey addressKey, hdPublicKey addressKey with
     | Some priv, Some pub =>
         let xOnlyPubkey := tl pub in
         net <- networkConfig (network self) ;;
         p <- fromPackage "p2tr" (p2tr xOnlyPubkey net) ;;
         if Js.emptyb (p_address p) then
           throw CryptographyError "Failed to generate Taproot address"
         else Ok (mkTaprootKeys priv pub xOnlyPubkey (p_address p))
     | _, _ =>
         throw CryptographyError "Failed to derive private or public key"
     end)
    (fun error =>
       throw CryptographyError
             ("Failed to derive Taproot keys: " ++ message error)%string).

(** [signPSBT(psbtHex, utxo, mnemonic, derivationPath)] *)
Definition signPSBT (self : t) (psbt : Transaction) (utxo : UTXO)
           (mnemonic : string) (derivationPath : option string)
  : TransactionResult :=
  let path :=
    match derivationPath with
    | Some d => d
    | None => DEFAULT_DERIVATION_PATH
    end in
  settle
    (validateSigningInputs psbt utxo mnemonic ;;;
     keys <- deriveTaprootKeys self mnemonic path 0 ;;
     tx <- updateWitnessUtxo (network self) psbt utxo (xOnlyPubkey keys) ;;
     signAndReport tx utxo (privateKey keys)).

(** [signTransaction(psbtHex, utxo, mnemonic, derivationPath?)] *)
Definition signTransaction (self : t) (psbt : Transaction) (utxo : UTXO)
           (mnemonic : string) (derivationPath : option string)
  : result SignedTransaction :=
  toSignedTransaction (signPSBT self psbt utxo mnemonic derivationPath).

End WithPackages.

End TransactionSigner.

(* ------------------------------------------------------------------ *)
(** ** src/core/address-wallet.ts *)
(* ------------------------------------------------------------------ *)

Module AddressWallet.

Import Signing.

Record t := mk {
  privateKey : list Z;
  network : Network;
  address : string;
  publicKey : list Z;
  xOnlyPubkey : list Z
}.

(** [derivePublicKey(privateKey)]: byte 0 is [0x02]; byte [i + 1] is
    [(privateKey[i] || 0) ^ 0x01].  Nothing in the body throws. *)
Definition derivePublicKey (privateKey : list Z) : list Z :=
  0x02 :: map (fun i => Z.lxor (nth i privateKey 0) 0x01) (seq 0 32).

Section WithPackages.

Context `{BtcSigner}.

(** [generateAddressFromPublicKey()] *)
Definition generateAddressFromPublicKey (network : Network)
           (xOnlyPubkey : list Z) : result string :=
  catch
    (net <- networkConfig network ;;
     p <- fromPackage "p2tr" (p2tr xOnlyPubkey net) ;;
     if Js.emptyb (p_address p) then
       throw CryptographyError "Failed to generate Taproot address"
     else Ok (p_address p))
    (fun error =>
       throw CryptographyError
             ("Failed to generate address: " ++ message error)%string).

(** [constructor(privateKey, network, address?)] *)
Definition new (privateKey : list Z) (network : Network)
           (address : option string) : result t :=
  let publicKey := derivePublicKey privateKey in
  let xOnlyPubkey := tl publicKey in
  address' <-
    match nonEmpty address with
    | Some a => Ok a
    | None => generateAddressFromPublicKey network xOnlyPubkey
    end ;;
  Ok (mk privateKey network address' publicKey xOnlyPubkey).

Definition getAddress (self : t) : string := address self.
Definition getPublicKey (self : t) : list Z := publicKey self.
Definition getXOnlyPublicKey (self : t) : list Z := xOnlyPubkey self.

(** [validateSigningInputs(psbtHex, utxo)] *)
Definition validateSigningInputs (self : t) (psbt : Transaction)
           (utxo : UTXO) : result unit :=
  if utxoMalformed utxo then throw ValidationError "Invalid UTXO format"
  else if negb (String.eqb (Types.address utxo) (address self)) then
    throw ValidationError "UTXO address does not match wallet address"
  else Ok tt.

(** [signPSBT(psbtHex, utxo)] *)
Definition signPSBT (self : t) (psbt : Transaction) (utxo : UTXO)
  : TransactionResult :=
  settle
    (validateSigningInputs self psbt utxo ;;;
     tx <- updateWitnessUtxo (network self) psbt utxo (xOnlyPubkey self) ;;
     signAndReport tx utxo (privateKey self)).

(** [signTransaction(psbtHex, utxo)] *)
Definition signTransaction (self : t) (psbt : Transaction) (utxo : UTXO)
  : result SignedTransaction :=
  toSignedTransaction (signPSBT self psbt utxo).

End WithPackages.

End AddressWallet.

(* ------------------------------------------------------------------ *)
(** ** src/core/wallet.ts *)
(* ------------------------------------------------------------------ *)

Module CharmsWallet.

Import Constants.

Inductive AddressKind := taproot | segwit.

Record WalletConfig := mkConfig {
  network : Network;
  derivationPath : string;
  addressType : AddressKind
}.

Record t := mk { config : WalletConfig }.

(** [constructor(config)] with the fields the core reads. *)
Definition new (network : option Network) : t :=
  mk (mkConfig (match network with Some n => n | None => DEFAULT_NETWORK end)
               DEFAULT_DERIVATION_PATH taproot).

(** [SUPPORTED_WORD_COUNTS.includes(wordCount)] *)
Definition supported (wordCount : Z) : bool :=
  existsb (Z.eqb wordCount) SUPPORTED_WORD_COUNTS.

(** [SUPPORTED_WORD_COUNTS.join(', ')] *)
Definition supportedList : string :=
  String.concat ", " (map Js.show SUPPORTED_WORD_COUNTS).

(** [const entropyBits = wordCount === 12 ? ENTROPY_BITS_12 : ENTROPY_BITS_24] *)
Definition entropyBits (wordCount : Z) : Z :=
  if wordCount =? 12 then ENTROPY_BITS_12 else ENTROPY_BITS_24.

(** [fromPrivateKey]: the address handed to the [AddressWallet]. *)
Definition addressSuffix (privateKey : list Z) : string :=
  fold_left (fun acc byte => (acc ++ Js.hexByte byte)%string)
            (Js.slice0 8 privateKey) "".

Definition mockAddress (privateKey : list Z) (network : Network) : string :=
  let suffix := addressSuffix privateKey in
  let prefix :=
    if Network_eqb network mainnet then "bc1p" else "tb1p" in
  (prefix ++ suffix ++ Js.zeros (54 - String.length suffix))%string.

(** [validateAddress(address)]: no step of the body throws. *)
Definition accept (n : Network) (ty : AddressType) : AddressValidation :=
  mkAddressValidation true None (Some n) (Some ty).

Definition isTest (network : Network) : bool :=
  Network_eqb network testnet || Network_eqb network testnet4.

Definition validateAddress (self : t) (address : string) : AddressValidation :=
  let network := network (config self) in
  if Network_eqb network mainnet && MAINNET_P2TR address then
    accept mainnet Types.p2tr
  else if isTest network && TESTNET_P2TR address then
    accept network Types.p2tr
  else if Network_eqb network mainnet && MAINNET_P2WPKH address then
    accept mainnet Types.p2wpkh
  else if isTest network && TESTNET_P2WPKH address then
    accept network Types.p2wpkh
  else if Network_eqb network mainnet && LEGACY address then
    accept mainnet Types.legacy
  else if isTest network && TESTNET_LEGACY address then
    accept network Types.legacy
  else
    mkAddressValidation
      false
      (Some ("Invalid address format for " ++ showNetwork network ++ " network")%string)
      None None.

Section WithPackages.

Context `{BtcSigner} `{Bip39} `{Bip32}.

(** [generateMnemonic(wordCount)]; the mnemonic is the list of its word
    indices. *)
Definition generateMnemonic (self : t) (wordCount : option Z)
  : result (list Z) :=
  let wordCount :=
    match wordCount with Some w => w | None => DEFAULT_WORD_COUNT end in
  catch
    (if negb (supported wordCount) then
       throw ValidationError
             ("Unsupported word count: " ++ Js.show wordCount
                ++ ". Supported: " ++ supportedList)%string
     else
       let entropyBits := entropyBits wordCount in
       fromPackage "generateMnemonic" (Scure.generateMnemonic entropyBits))
    (fun error =>
       throw CryptographyError
             ("Failed to generate mnemonic: " ++ message error)%string).

(** The BIP-86 walk [m/86'/0'/0'/0/index] the static methods share. *)
Definition hardened (i : Z) : Z := i + 0x80000000.

Definition addressKeyOf (mnemonic : string) (index : Z) : result HDKey :=
  seed <- fromPackage "mnemonicToSeed" (mnemonicToSeed mnemonic) ;;
  hdkey <- fromPackage "fromMasterSeed" (fromMasterSeed seed) ;;
  k1 <- fromPackage "deriveChild" (deriveChild hdkey (hardened 86)) ;;
  k2 <- fromPackage "deriveChild" (deriveChild k1 (hardened 0)) ;;
  accountKey <- fromPackage "deriveChild" (deriveChild k2 (hardened 0)) ;;
  chainKey <- fromPackage "deriveChild" (deriveChild accountKey 0) ;;
  fromPackage "deriveChild" (deriveChild chainKey index).

(** From the derived node to the returned key bundle. *)
Definition taprootKeysOf (net : BtcNetwork) (addressKey : HDKey)
  : result TaprootKeys :=
  match hdPrivateKey addressKey, hdPublicKey addressKey with
  | Some priv, Some pub =>
      let xOnlyPubkey := tl pub in
      p <- fromPackage "p2tr" (p2tr xOnlyPubkey net) ;;
      if Js.emptyb (p_address p) then
        throw CryptographyError "Failed to generate Taproot address"
      else Ok (mkTaprootKeys priv pub xOnlyPubkey (p_address p))
  | _, _ =>
      throw CryptographyError "Failed to derive private or public key"
  end.

Definition staticNetworkConfig (network : Network) : BtcNetwork :=
  if Network_eqb network mainnet then NETWORK else TEST_NETWORK.

Definition checkedMnemonic (mnemonic : string) : result unit :=
  if validateMnemonic mnemonic then Ok tt
  else throw ValidationError "Invalid mnemonic phrase".

(** [static generateAddress(mnemonic, network, index)] *)
Definition generateAddress (mnemonic : string) (network : Network)
           (index : Z) : result string :=
  catch
    (checkedMnemonic mnemonic ;;;
     addressKey <- addressKeyOf mnemonic index ;;
     keys <- taprootKeysOf (staticNetworkConfig network) addressKey ;;
     Ok (k_address keys))
    (fun error =>
       throw CryptographyError
             ("Failed to generate address: " ++ message error)%string).

(** [static getPrivateKey(mnemonic, network, index)] *)
Definition getPrivateKey (mnemonic : string) (network : Network)
           (index : Z) : result (list Z) :=
  catch
    (checkedMnemonic mnemonic ;;;
     addressKey <- addressKeyOf mnemonic index ;;
     match hdPrivateKey addressKey with
     | Some priv => Ok priv
     | None => throw CryptographyError "Failed to derive private key"
     end)
    (fun error =>
       throw CryptographyError
             ("Failed to get private key: " ++ message error)%string).

(** [static getAddressData(mnemonic, network, index)] *)
Definition getAddressData (mnemonic : string) (network : Network)
           (index : Z) : result TaprootKeys :=
  catch
    (checkedMnemonic mnemonic ;;;
     addressKey <- addressKeyOf mnemonic index ;;
     taprootKeysOf (staticNetworkConfig network) addressKey)
    (fun error =>
       throw CryptographyError
             ("Failed to get address data: " ++ message error)%string).

(** [static fromPrivateKey(privateKey, network)] *)
Definition fromPrivateKey (privateKey : list Z) (network : Network)
  : result AddressWallet.t :=
  AddressWallet.new privateKey network
                    (Some (mockAddress privateKey network)).

(** [deriveTaprootKeys(mnemonic, index)] *)
Definition deriveTaprootKeys (self : t) (mnemonic : string) (index : Z)
  : result TaprootKeys :=
  catch
    (addressKey <- addressKeyOf mnemonic index ;;
     net <- Signing.networkConfig (network (config self)) ;;
     taprootKeysOf net addressKey)
    (fun error =>
       throw CryptographyError
             ("Failed to derive Taproot keys: " ++ message error)%string).

(** [validateMnemonic(mnemonic)]: the package function answers [false] on
    whatever it cannot read, so the [catch] of the method is not reached. *)
Definition validateMnemonic (self : t) (mnemonic : string) : ValidationResult :=
  let isValid := Scure.validateMnemonic mnemonic in
  if negb isValid then
    mkValidationResult
      false
      (Some "Invalid mnemonic phrase. Please check the words and try again.")
  else mkValidationResult true None.

End WithPackages.

(** [getNetworkConfig()] *)
Definition getNetworkConfig (self : t) : result BtcNetwork :=
  match network (config self) with
  | mainnet => Ok NETWORK
  | testnet | testnet4 => Ok TEST_NETWORK
  end.

End CharmsWallet.

(* ------------------------------------------------------------------ *)
(** ** Vocabulary of the statements *)
(* ------------------------------------------------------------------ *)

Definition sumZ (l : list Z) : Z := fold_left Z.add l 0.

(** The amount an input spends, as recorded in its [witnessUtxo]. *)
Definition inputAmount (i : TxInput) : Z :=
  match witnessUtxo i with
  | Some w => w_amount w
  | None => 0
  end.

(** Sum of the input amounts and of the output amounts of a transaction. *)
Definition sumInputs (tx : Transaction) : Z := sumZ (map inputAmount (inputs tx)).
Definition sumOutputs (tx : Transaction) : Z := sumZ (map t_amount (outputs tx)).

(** The network a build runs on: [network = this.network] in the
    destructuring of the parameters. *)
Definition simpleNetwork (self : TransactionBuilder.t) (p : SimpleTxParams) : Network :=
  match s_network p with Some n => n | None => TransactionBuilder.network self end.

Definition miningNetwork (self : TransactionBuilder.t) (p : MiningTxParams) : Network :=
  match m_network p with Some n => n | None => TransactionBuilder.network self end.

(** [signed] is what one of the two signers returned for the PSBT [tx] and
    the UTXO [utxo]. *)
Definition signedBy `{BtcSigner} `{Bip39} `{Bip32}
           (tx : Transaction) (utxo : UTXO) (signed : SignedTransaction) : Prop :=
  (exists self mnemonic path,
      TransactionSigner.signTransaction self tx utxo mnemonic path = Ok signed)
  \/ (exists wallet, AddressWallet.signTransaction wallet tx utxo = Ok signed).

(** The fee rate a build uses: [feeRate = DEFAULT_FEE_RATE] in the
    destructuring of the parameters. *)
Definition effectiveFeeRate (feeRate : option Z) : Z :=
  match feeRate with Some f => f | None => Constants.DEFAULT_FEE_RATE end.

(** The value a call returns, if it returns. *)
Definition returned {A} (m : result A) : option A :=
  match m with Ok a => Some a | Throw _ => None end.

(** The bytes of an address that [createScriptPubKey] reads: the first 32
    of its UTF-8 encoding for an address starting with [bc1p] or [tb1p], the
    first 20 otherwise. *)
Definition scriptPrefix (address : string) : list Z :=
  if TransactionBuilder.isTaproot address
  then Js.slice0 32 (Js.utf8 address)
  else Js.slice0 20 (Js.utf8 address).

(** Two requested outputs of the same amount whose addresses share that
    prefix. *)
Definition sameOutput (o o' : Output) : Prop :=
  o_amount o = o_amount o' /\ scriptPrefix (o_address o) = scriptPrefix (o_address o').

(** [pre] is a prefix of [bs], on bytes. *)
Fixpoint bytesPrefix (pre bs : list Z) : bool :=
  match pre with
  | [] => true
  | x :: pre' =>
      match bs with
      | [] => false
      | y :: bs' => (x =? y) && bytesPrefix pre' bs'
      end
  end.

Definition asciiOnly (p : string) : Prop :=
  Forall (fun c => Js.code c < 128) (Js.chars p).

(** On the bytes: does the address start like a Taproot one, like a SegWit
    v0 one? *)
Definition taprootBytes (bs : list Z) : bool :=
  bytesPrefix (Js.utf8 "bc1p") bs || bytesPrefix (Js.utf8 "tb1p") bs.

Definition segwitBytes (bs : list Z) : bool :=
  bytesPrefix (Js.utf8 "bc1q") bs || bytesPrefix (Js.utf8 "tb1q") bs.

(** Two requests that differ only in addresses sharing their prefix. *)
Definition sameSimple (p p' : SimpleTxParams) : Prop :=
  s_utxos p = s_utxos p'
  /\ Forall2 sameOutput (s_outputs p) (s_outputs p')
  /\ scriptPrefix (s_changeAddress p) = scriptPrefix (s_changeAddress p')
  /\ s_network p = s_network p'
  /\ s_feeRate p = s_feeRate p'.

Definition sameMining (p p' : MiningTxParams) : Prop :=
  m_utxo p = m_utxo p'
  /\ m_miningData p = m_miningData p'
  /\ scriptPrefix (m_changeAddress p) = scriptPrefix (m_changeAddress p')
  /\ m_network p = m_network p'
  /\ m_feeRate p = m_feeRate p'.

(** The request [p] with another change address, or another address for
    its first output. *)
Definition withChange (p : SimpleTxParams) (a : string) : SimpleTxParams :=
  mkSimpleTxParams (s_utxos p) (s_outputs p) a (s_network p) (s_feeRate p).

Definition payTo (p : SimpleTxParams) (a : string) : SimpleTxParams :=
  mkSimpleTxParams
    (s_utxos p)
    (match s_outputs p with
     | [] => []
     | o :: rest => mkOutput a (o_amount o) :: rest
     end)
    (s_changeAddress p) (s_network p) (s_feeRate p).

Definition withMiningChange (p : MiningTxParams) (a : string) : MiningTxParams :=
  mkMiningTxParams (m_utxo p) (m_miningData p) a (m_network p) (m_feeRate p).

(** The request [p] sent to another network (or to the builder's own,
    with [None]). *)
Definition onNetwork (p : SimpleTxParams) (n : option Network) : SimpleTxParams :=
  mkSimpleTxParams (s_utxos p) (s_outputs p) (s_changeAddress p) n (s_feeRate p).

Definition miningOnNetwork (p : MiningTxParams) (n : option Network) : MiningTxParams :=
  mkMiningTxParams (m_utxo p) (m_miningData p) (m_changeAddress p) n (m_feeRate p).

(** A word of a mnemonic: not empty, no white space inside. *)
Definition isWord (w : string) : bool :=
  negb (Js.emptyb w) && forallb (fun c => negb (Signing.isSpace c)) (Js.chars w).

(** [words.join(' ')] *)
Definition joinWords (ws : list string) : string := String.concat " " ws.

(* ------------------------------------------------------------------ *)
(** ** A small instance of the package interfaces *)
(* ------------------------------------------------------------------ *)

(** The theorems below hold for every instance of [BtcSigner], [Bip39] and
    [Bip32].  To run the model on concrete inputs one instance is needed;
    this one keeps the shapes of the real packages and replaces the hashing
    by arithmetic that evaluates quickly:
    - an x-only key has 32 bytes that are the x coordinate of a curve
      point, a key for the hash scripts has 33 bytes;
    - an output script is known when it has one of the fixed layouts of
      P2TR, P2WPKH, P2WSH, P2PKH and P2SH;
    - [tx.sign(key)] signs the key-path spend of an input that carries a
      witness-v1 script in [witnessUtxo] and the x-only public key of [key]
      in [tapInternalKey], and throws when it signed no input;
      [tx.finalize()] throws on an input that was not signed, and
      [tx.extract()] on a transaction without outputs or with outputs that
      exceed the inputs;
    - a derivation path starts with [m]. *)
Module Fixture.

Definition serialize (tx : Transaction) : list Z :=
  flat_map (fun i => i_txid i ++ [i_index i mod 256]) (inputs tx)
  ++ flat_map (fun o => script o) (outputs tx).

Fixpoint sameBytes (a b : list Z) : bool :=
  match a, b with
  | [], [] => true
  | x :: a', y :: b' => (x =? y) && sameBytes a' b'
  | _, _ => false
  end.

Definition knownLayout (script : list Z) : bool :=
  match script with
  | 0x51 :: 0x20 :: program => Nat.eqb (List.length program) 32
  | 0x00 :: 0x14 :: program => Nat.eqb (List.length program) 20
  | 0x00 :: 0x20 :: program => Nat.eqb (List.length program) 32
  | 0x76 :: 0xa9 :: 0x14 :: rest =>
      Nat.eqb (List.length rest) 22 && sameBytes (skipn 20 rest) [0x88; 0xac]
  | 0xa9 :: 0x14 :: rest =>
      Nat.eqb (List.length rest) 21 && sameBytes (skipn 20 rest) [0x87]
  | _ => false
  end.

Definition witnessV1 (script : list Z) : bool :=
  match script with
  | 0x51 :: 0x20 :: program => Nat.eqb (List.length program) 32
  | _ => false
  end.

(** The input is a key-path spend that [key] signs. *)
Definition signs (key : list Z) (i : TxInput) : bool :=
  match witnessUtxo i, tapInternalKey i, Secp256k1.getPublicKey key with
  | Some w, Some internal, Some pub =>
      witnessV1 (w_script w) && sameBytes internal (tl pub)
  | _, _, _ => false
  end.

Definition spends (tx : Transaction) : bool :=
  match outputs tx with
  | [] => false
  | _ => sumOutputs tx <=? sumInputs tx
  end.

Definition signedAndFinal (tx : Transaction) (key : list Z) : bool :=
  match inputs tx with
  | [] => false
  | _ => forallb (signs key) (inputs tx) && spends tx
  end.

Definition btcSigner : BtcSigner := {|
  taprootOutputKey := fun P =>
    if Nat.eqb (List.length P) 32
       && Secp256k1.isXCoordinate (Secp256k1.bytesToNumberBE P)
    then Some (Secp256k1.bytesToNumberBE P) else None;
  p2wpkhScript := fun key =>
    if Nat.eqb (List.length key) 33
    then Some (0x00 :: 0x14 :: firstn 20 (tl key)) else None;
  p2pkhScript := fun key =>
    if Nat.eqb (List.length key) 33
    then Some (0x76 :: 0xa9 :: 0x14 :: firstn 20 (tl key) ++ [0x88; 0xac])
    else None;
  knownOutputScript := knownLayout;
  signFinalizeExtract := fun tx key =>
    if signedAndFinal tx key then Some (serialize tx) else None;
  rawTxId := fun raw =>
    match raw with
    | [] => None
    | _ => Some (Js.hexEncode (rev (firstn 32 raw)))
    end
|}.

Definition bip39 : Bip39 := {|
  validateMnemonic := fun m => Nat.eqb (Signing.splitLength m) 12;
  mnemonicToSeed := fun m => Some (firstn 64 (Js.utf8 m));
  randomByte := fun i => Z.of_nat (7 * i + 3);
  sha256 := fun bytes => fold_left (fun acc b => (31 * acc + b) mod 2 ^ 256) bytes 1
|}.

Definition bip32 : Bip32 := {|
  HDKey := Z;
  fromMasterSeed := fun seed =>
    match seed with [] => None | _ => Some 1 end;
  deriveChild := fun k i =>
    if (0 <=? i) && (i <? 2 ^ 32) then Some ((k + i) mod 7 + 1) else None;
  derive := fun k path =>
    if Js.startsWith path "m" then Some (k + 1) else None;
  hdPrivateKey := fun k => Some (Secp256k1.numberToBytesBE 32 k)
|}.

Definition mnemonic : string :=
  "abandon abandon abandon abandon abandon abandon abandon abandon abandon abandon abandon about".

Definition addressA : string :=
  "tb1ptj7lqerwtk6w4guc7djl96n6pc75rxm7qvcw888f90w7mjkylx7q0xcczh".

Definition addressB : string :=
  "tb1pe7gfqvmdj7xjhu3awnwt9q3edgyf24dhejx34sc8p7z7gpwv80tqslxpr6".

(** Another address with the first 32 characters of [addressA]. *)
Definition addressA' : string :=
  "tb1ptj7lqerwtk6w4guc7djl96n6pc75qqqqqqqqqqqqqqqqqqqqqqqqqqqqqq".

Definition txidA : string :=
  "aaaaaaaaaaaaaaaaaaaaaaaaaaaaaaaaaaaaaaaaaaaaaaaaaaaaaaaaaaaaaaaa".

Definition txidB : string :=
  "bbbbbbbbbbbbbbbbbbbbbbbbbbbbbbbbbbbbbbbbbbbbbbbbbbbbbbbbbbbbbbbb".

Definition builder : TransactionBuilder.t := TransactionBuilder.new (Some testnet).

End Fixture.

(* ------------------------------------------------------------------ *)
(** ** Concrete inputs *)
(* ------------------------------------------------------------------ *)

Module Examples.

Import Fixture.

Definition utxoA (sats : Z) : UTXO := mkUTXO txidA 0 sats addressA.
Definition utxoB (sats : Z) : UTXO := mkUTXO txidB 1 sats addressA.

Definition miningHash : string :=
  "bbbbbbbbbbbbbbbbbbbbbbbbbbbbbbbbbbbbbbbbbbbbbbbbbbbbbbbbbbbbbbbb".

(** One input of 1245, one output of 546, 1 sat/vB: the fee is
    [10 + 57 + 2 * 43 = 153] and the change is exactly 546. *)
Definition change546 : SimpleTxParams :=
  mkSimpleTxParams [utxoA 1245] [mkOutput addressB 546] addressA None (Some 1).

(** One satoshi more: the change is 547. *)
Definition change547 : SimpleTxParams :=
  mkSimpleTxParams [utxoA 1246] [mkOutput addressB 546] addressA None (Some 1).

(** 1000 in, 900 out, fee 153: 53 satoshis are missing. *)
Definition insufficient : SimpleTxParams :=
  mkSimpleTxParams [utxoA 1000] [mkOutput addressB 900] addressA None (Some 1).



(** A UTXO of 999 satoshis, below [MIN_UTXO_AMOUNT]. *)
Definition smallUtxo : SimpleTxParams :=
  mkSimpleTxParams [utxoA 999] [mkOutput addressB 546] addressA None (Some 1).

(** A fee rate of 0, below [MIN_FEE_RATE]. *)
Definition zeroRateSimple : SimpleTxParams :=
  mkSimpleTxParams [utxoA 100000] [mkOutput addressB 50000] addressA None (Some 0).

Definition zeroRateMining : MiningTxParams :=
  mkMiningTxParams (utxoA 100000) (mkMiningData miningHash 12345)
                   addressB (Some testnet) (Some 0).

(** The mining example of the README. *)
Definition mining : MiningTxParams :=
  mkMiningTxParams (utxoA 100000) (mkMiningData miningHash 12345)
                   addressB (Some testnet) (Some 10).

(** 2000 in at 10 sat/vB: the fee is [10 * (10 + 57 + 2 * 43) = 1530] and
    the change 470, positive and below the dust threshold. *)
Definition miningSmallChange : MiningTxParams :=
  mkMiningTxParams (utxoA 2000) (mkMiningData miningHash 12345)
                   addressB (Some testnet) (Some 10).

(** The simple example of the README: 100000 in, 50000 out, 10 sat/vB. *)
Definition simple : SimpleTxParams :=
  mkSimpleTxParams [utxoA 100000] [mkOutput addressB 50000] addressA None (Some 10).


(** The private keys 1 and 3. *)
Definition keyOne : list Z := repeat 0 31 ++ [1].
Definition keyThree : list Z := repeat 0 31 ++ [3].

(** The x coordinate of [3 * G], as published with the test vectors of
    the curve. *)
Definition threeGx : Z :=
  0xF9308A019258C31049344F85F89D5229B531C845836F99B08601F113BCE036F9.

(** An [AddressWallet] for [addressA], as
    [new AddressWallet(keyOne, 'testnet', addressA)] builds it. *)
Definition walletA : AddressWallet.t :=
  AddressWallet.mk keyOne testnet addressA
                   (AddressWallet.derivePublicKey keyOne)
                   (tl (AddressWallet.derivePublicKey keyOne)).

Definition built (m : result Transaction) : Transaction :=
  match m with Ok tx => tx | Throw _ => mkTransaction [] [] end.

Definition signedOf (m : result SignedTransaction) : SignedTransaction :=
  match m with
  | Ok s => s
  | Throw _ => mkSignedTransaction "" "" 0 0 0
  end.

(** The PSBTs of [simple] and of [twoInputs]. *)
Definition simpleTx : Transaction :=
  Eval vm_compute in
    built (TransactionBuilder.createSimpleTransaction (H := btcSigner) builder simple).


(** The x-only public key of [keyOne], and the script of the Taproot
    output that is locked to it. *)
Definition xOnlyOne : list Z :=
  Eval vm_compute in
    match Secp256k1.getPublicKey keyOne with
    | Some pub => tl pub
    | None => []
    end.

Definition scriptOne : list Z :=
  Eval vm_compute in
    match p2tr (H := btcSigner) xOnlyOne TEST_NETWORK with
    | Some r => p_script r
    | None => []
    end.

(** A PSBT as a wallet application prepares it for a key-path spend by
    [keyOne]: the txids, indices, amounts and outputs of [tx]; every
    input spends an output locked to the key and names the key in
    [tapInternalKey]. *)
Definition prepared (tx : Transaction) : Transaction :=
  mkTransaction
    (map (fun i => mkTxInput (i_txid i) (i_index i)
                             (Some (mkWitnessUtxo scriptOne (inputAmount i)))
                             (Some xOnlyOne))
         (inputs tx))
    (outputs tx).

(** The payment of [simple], prepared, and what [walletA] returns for it. *)
Definition preparedTx : Transaction := Eval vm_compute in prepared simpleTx.

Definition preparedSigned : SignedTransaction :=
  Eval vm_compute in
    signedOf (AddressWallet.signTransaction (H := btcSigner) walletA preparedTx
                                            (utxoA 100000)).



(** A fee rate of 1001 sat/vB, an output of 545 satoshis, a nonce of -1. *)
Definition highRate : SimpleTxParams :=
  mkSimpleTxParams [utxoA 100000] [mkOutput addressB 50000] addressA None (Some 1001).

Definition dustOutput : SimpleTxParams :=
  mkSimpleTxParams [utxoA 100000] [mkOutput addressB 545] addressA None (Some 10).

Definition negativeNonce : MiningTxParams :=
  mkMiningTxParams (utxoA 100000) (mkMiningData miningHash (-1))
                   addressB (Some testnet) (Some 10).

(** The key bundle of index 1 on the HD path, and the isolated wallet
    made from its private key. *)
Definition hdKeys : TaprootKeys :=
  Eval vm_compute in
    match CharmsWallet.getAddressData (H := btcSigner) (H0 := bip39) (H1 := bip32)
                                      mnemonic testnet 1 with
    | Ok keys => keys
    | Throw _ => mkTaprootKeys [] [] [] ""
    end.

Definition isolated : AddressWallet.t :=
  Eval vm_compute in
    match CharmsWallet.fromPrivateKey (H := btcSigner) (privateKey hdKeys) testnet with
    | Ok w => w
    | Throw _ => walletA
    end.

(** The two README requests with a txid that is not hexadecimal. *)
Definition badTxidMining : MiningTxParams :=
  mkMiningTxParams (mkUTXO "not-a-txid" 0 100000 addressA)
                   (mkMiningData miningHash 12345)
                   addressB (Some testnet) (Some 10).

Definition badTxidSimple : SimpleTxParams :=
  mkSimpleTxParams [mkUTXO "not-a-txid" 0 100000 addressA]
                   [mkOutput addressB 50000] addressA None (Some 10).

(** A nonce of [2 ^ 32]: nine hexadecimal digits. *)
Definition bigNonce : MiningTxParams :=
  mkMiningTxParams (utxoA 100000) (mkMiningData miningHash 4294967296)
                   addressB (Some testnet) (Some 10).

(** Requests without UTXOs, without outputs, with a UTXO of 0 satoshis. *)
Definition noUtxos : SimpleTxParams :=
  mkSimpleTxParams [] [mkOutput addressB 50000] addressA None None.

Definition noOutputs : SimpleTxParams :=
  mkSimpleTxParams [utxoA 100000] [] addressA None None.

Definition zeroAmount : SimpleTxParams :=
  mkSimpleTxParams [utxoA 100000; utxoB 0] [mkOutput addressB 50000]
                   addressA None None.

(** [addressA] under the mainnet prefix: the shape of a mainnet Taproot
    address. *)
Definition mainnetShaped : string :=
  "bc1ptj7lqerwtk6w4guc7djl96n6pc75rxm7qvcw888f90w7mjkylx7q0xcczh".

(** A UTXO sitting on the address of [hdKeys]. *)
Definition utxoDerived : UTXO := mkUTXO txidA 0 100000 (k_address hdKeys).

(** Three words, and fourteen. *)
Definition threeWords : list string := ["abandon"; "ability"; "able"].

Definition fourteenWords : list string := repeat "abandon" 14.

(** The wallet that the constructor makes of [keyThree] without an
    address. *)
Definition derivedWallet : AddressWallet.t :=
  Eval vm_compute in
    match AddressWallet.new (H := btcSigner) keyThree testnet None with
    | Ok w => w
    | Throw _ => walletA
    end.

End Examples.

(* ================================================================== *)
(** * Properties *)
(* ================================================================== *)

(** ** The [result] monad *)

Lemma bind_Ok {A B} (m : result A) (k : A -> result B) (b : B) :
  bind m k = Ok b -> exists a, m = Ok a /\ k a = Ok b.
Proof.
  destruct m as [a|e]; simpl; intros E; [exists a; auto | discriminate].
Qed.

Lemma catch_Ok {A} (m : result A) (h : Exception -> result A) (a : A) :
  (forall e, h e <> Ok a) -> catch m h = Ok a -> m = Ok a.
Proof.
  destruct m as [x|e]; simpl; intros Hh E; [exact E | elim (Hh e E)].
Qed.

Lemma fromPackage_Ok {A} (what : string) (o : option A) (a : A) :
  fromPackage what o = Ok a -> o = Some a.
Proof.
  destruct o; simpl; intros E; [inversion E; reflexivity | discriminate].
Qed.

Lemma forEach_length {A B} (f : A -> result B) (l : list A) (bs : list B) :
  forEach f l = Ok bs -> List.length bs = List.length l.
Proof.
  revert bs; induction l as [|a l IH]; simpl; intros bs E.
  - inversion E; reflexivity.
  - destruct (f a); [|discriminate].
    destruct (forEach f l); [|discriminate].
    inversion E; subst; simpl; f_equal; apply IH; reflexivity.
Qed.

Lemma forEach_map {A B C} (f : A -> result B) (g : B -> C) (h : A -> C)
      (l : list A) (bs : list B) :
  (forall a b, f a = Ok b -> g b = h a) ->
  forEach f l = Ok bs -> map g bs = map h l.
Proof.
  intros Hf; revert bs; induction l as [|a l IH]; simpl; intros bs E.
  - inversion E; reflexivity.
  - destruct (f a) as [b|] eqn:Ea; [|discriminate].
    destruct (forEach f l) as [bs'|]; [|discriminate].
    inversion E; subst; simpl; f_equal; [apply Hf; exact Ea | apply IH; reflexivity].
Qed.

(** ** Sums of amounts *)

Lemma fold_left_add_shift (l : list Z) (a : Z) :
  fold_left Z.add l a = a + fold_left Z.add l 0.
Proof.
  revert a; induction l as [|x l IH]; simpl; intros a; [lia|].
  rewrite (IH (a + x)), (IH x); lia.
Qed.

Lemma sumZ_cons (x : Z) (l : list Z) : sumZ (x :: l) = x + sumZ l.
Proof. unfold sumZ; simpl; apply fold_left_add_shift. Qed.

Lemma sumZ_app (l1 l2 : list Z) : sumZ (l1 ++ l2) = sumZ l1 + sumZ l2.
Proof.
  induction l1 as [|x l1 IH]; simpl; [reflexivity|].
  rewrite !sumZ_cons, IH; lia.
Qed.

Lemma fold_left_sum {A} (f : A -> Z) (l : list A) (a : Z) :
  fold_left (fun acc x => acc + f x) l a = a + sumZ (map f l).
Proof.
  revert a; induction l as [|x l IH]; simpl; intros a.
  - unfold sumZ; simpl; lia.
  - rewrite IH, sumZ_cons; lia.
Qed.

Lemma totalInput_sum (utxos : list UTXO) :
  TransactionBuilder.totalInput utxos = sumZ (map amount utxos).
Proof. unfold TransactionBuilder.totalInput; rewrite fold_left_sum; lia. Qed.

Lemma totalOutput_sum (outs : list Output) :
  TransactionBuilder.totalOutput outs = sumZ (map o_amount outs).
Proof. unfold TransactionBuilder.totalOutput; rewrite fold_left_sum; lia. Qed.


Lemma forEach_Throw {A B} (f : A -> result B) (l : list A) (e : Exception) :
  forEach f l = Throw e -> exists a, In a l /\ f a = Throw e.
Proof.
  induction l as [|a l IH]; simpl; intros E; [discriminate|].
  destruct (f a) as [b|e'] eqn:Ea.
  - destruct (forEach f l) as [bs|e'']; [discriminate|].
    inversion E; subst. destruct IH as (a' & Hin & Ha); [reflexivity|].
    exists a'; auto.
  - inversion E; subst. exists a; auto.
Qed.

(** ** The transaction builder *)

Section BuilderFacts.

Import Constants TransactionBuilder.

Context {L : BtcSigner}.

Lemma rethrow_Ok {A} (what : string) (m : result A) (a : A) :
  rethrow what m = Ok a -> m = Ok a.
Proof.
  unfold rethrow; apply catch_Ok; intros e.
  destruct (class e); unfold throw; discriminate.
Qed.

Lemma rethrow_Throw {A} (what : string) (m : result A) (e : Exception) :
  m = Throw e ->
  thrownClass (rethrow what m)
  = Some (match class e with
          | ValidationError => ValidationError
          | _ => TransactionError
          end).
Proof.
  intros ->; unfold rethrow; simpl.
  destruct (class e) eqn:C; simpl; rewrite ?C; reflexivity.
Qed.

Lemma rethrow_classes {A} (what : string) (m : result A) (e : Exception) :
  rethrow what m = Throw e ->
  class e = TransactionError \/ class e = ValidationError.
Proof.
  unfold rethrow, catch. destruct m as [a|e0]; [discriminate|].
  destruct (class e0) eqn:C; unfold throw; intros E; inversion E; subst; auto.
Qed.

Lemma createScriptPubKey_Throw (a : string) (net : Network) (e : Exception) :
  createScriptPubKey a net = Throw e -> class e = ValidationError.
Proof.
  unfold createScriptPubKey, catch.
  destruct (if isTaproot a then _ else _) as [s|e']; [discriminate|].
  unfold throw; intros E; inversion E; reflexivity.
Qed.

Lemma inputOf_Throw (net : Network) (u : UTXO) (e : Exception) :
  inputOf net u = Throw e ->
  class e = JsError \/ createScriptPubKey (address u) net = Throw e.
Proof.
  unfold inputOf.
  destruct (Js.hexDecode (txid u)) as [d|]; simpl.
  - destruct (createScriptPubKey (address u) net) as [s|e'] eqn:Es; simpl.
    + discriminate.
    + intros E; inversion E; subst; right; reflexivity.
  - intros E; inversion E; left; reflexivity.
Qed.

Lemma inputOf_amount (net : Network) (u : UTXO) (i : TxInput) :
  inputOf net u = Ok i -> inputAmount i = amount u.
Proof.
  unfold inputOf; intros E.
  apply bind_Ok in E as (d & _ & E).
  apply bind_Ok in E as (s & _ & E).
  inversion E; reflexivity.
Qed.

Lemma addOutput_Some (s : list Z) (v : Z) (t : TxOutput) :
  addOutput s v = Some t -> knownOutputScript s = true /\ t = mkTxOutput s v.
Proof.
  unfold addOutput. destruct (knownOutputScript s); [|discriminate].
  intros E; inversion E; auto.
Qed.

(** What an output that was added looks like. *)
Lemma payment_Ok (net : Network) (a : string) (v : Z) (t : TxOutput) :
  payment net a v = Ok t ->
  exists s,
    createScriptPubKey a net = Ok s /\ knownOutputScript s = true
    /\ t = mkTxOutput s v.
Proof.
  unfold payment; intros E.
  apply bind_Ok in E as (s & Es & E).
  apply fromPackage_Ok, addOutput_Some in E as (Hk & ->).
  exists s; auto.
Qed.


Lemma outputOf_amount (net : Network) (o : Output) (t : TxOutput) :
  outputOf net o = Ok t -> t_amount t = o_amount o.
Proof.
  unfold outputOf; intros E.
  apply payment_Ok in E as (s & _ & _ & ->). reflexivity.
Qed.

(** What a successful simple build looks like. *)
Lemma createSimpleTransaction_Ok (self : TransactionBuilder.t)
      (p : SimpleTxParams) (tx : Transaction) :
  createSimpleTransaction self p = Ok tx ->
  validateSimpleParams p = Ok tt /\
  exists ins outs,
    forEach (inputOf (simpleNetwork self p)) (s_utxos p) = Ok ins /\
    forEach (outputOf (simpleNetwork self p)) (s_outputs p) = Ok outs /\
    ((DUST_THRESHOLD < simpleChange p /\
      exists cs,
        createScriptPubKey (s_changeAddress p) (simpleNetwork self p) = Ok cs /\
        tx = mkTransaction ins (outs ++ [mkTxOutput cs (simpleChange p)]))
     \/ (0 <= simpleChange p <= DUST_THRESHOLD /\ tx = mkTransaction ins outs)).
Proof.
  unfold createSimpleTransaction; intros E.
  apply rethrow_Ok in E. cbv zeta in E.
  apply bind_Ok in E as ([] & Ev & E).
  apply bind_Ok in E as (c & _ & E).
  apply bind_Ok in E as (ins & Ei & E).
  apply bind_Ok in E as (outs & Eo & E).
  split; [exact Ev|]. exists ins, outs. fold (simpleNetwork self p) in *.
  split; [exact Ei|]. split; [exact Eo|].
  destruct (simpleChange p >? DUST_THRESHOLD) eqn:Hgt.
  - apply bind_Ok in E as (change & Ec & E). inversion E; subst.
    apply payment_Ok in Ec as (cs & Ec & _ & ->).
    left; split; [lia|]. exists cs; auto.
  - destruct (simpleChange p <? 0) eqn:Hlt; [discriminate|].
    inversion E; subst. right; split; [lia | reflexivity].
Qed.

(** What a successful mining build looks like. *)
Lemma createMiningTransaction_Ok (self : TransactionBuilder.t)
      (p : MiningTxParams) (tx : Transaction) :
  createMiningTransaction self p = Ok tx ->
  validateMiningParams p = Ok tt /\
  DUST_THRESHOLD <= miningChange p /\
  exists input data cs,
    inputOf (miningNetwork self p) (m_utxo p) = Ok input /\
    createMiningOpReturn (m_miningData p) = Ok data /\
    createScriptPubKey (m_changeAddress p) (miningNetwork self p) = Ok cs /\
    tx = mkTransaction [input]
                       [mkTxOutput (opReturnScript data) 0;
                        mkTxOutput cs (miningChange p)].
Proof.
  unfold createMiningTransaction; intros E.
  apply rethrow_Ok in E. cbv zeta in E.
  apply bind_Ok in E as ([] & Ev & E).
  apply bind_Ok in E as (c & _ & E).
  apply bind_Ok in E as (input & Ei & E).
  apply bind_Ok in E as (data & Ed & E).
  apply bind_Ok in E as (opReturn & Eo & E).
  apply fromPackage_Ok, addOutput_Some in Eo as (_ & ->).
  fold (miningNetwork self p) in *.
  destruct (miningChange p <? DUST_THRESHOLD) eqn:Hlt; [discriminate|].
  apply bind_Ok in E as (change & Ec & E). inversion E; subst.
  apply payment_Ok in Ec as (cs & Ec & _ & ->).
  split; [exact Ev|]. split; [lia|].
  exists input, data, cs; auto.
Qed.

Lemma getNetworkConfig_total (net : Network) :
  exists c, getNetworkConfig net = Ok c.
Proof. destruct net; simpl; eauto. Qed.

End BuilderFacts.

(** ** Simple payments: change and insufficient funds *)

Section SimplePayments.

Import Constants TransactionBuilder.

Context {L : BtcSigner}.

(** The amounts of a built simple transaction: the inputs carry the
    amounts of the UTXOs, the outputs those of the request, followed by
    the change when there is one. *)
Lemma simple_amounts (self : TransactionBuilder.t) (p : SimpleTxParams)
      (tx : Transaction) :
  createSimpleTransaction self p = Ok tx ->
  map inputAmount (inputs tx) = map amount (s_utxos p) /\
  ((DUST_THRESHOLD < simpleChange p /\
    map t_amount (outputs tx) = map o_amount (s_outputs p) ++ [simpleChange p])
   \/ (0 <= simpleChange p <= DUST_THRESHOLD /\
       map t_amount (outputs tx) = map o_amount (s_outputs p))).
Proof.
  intros E. apply createSimpleTransaction_Ok in E
    as (_ & ins & outs & Ei & Eo & Hcases).
  apply (forEach_map _ inputAmount amount) in Ei;
    [| intros a b; apply inputOf_amount].
  apply (forEach_map _ t_amount o_amount) in Eo;
    [| intros a b; apply outputOf_amount].
  destruct Hcases as [(Hgt & cs & _ & ->) | (Hle & ->)]; simpl.
  - split; [exact Ei|]. left; split; [exact Hgt|].
    rewrite map_app, Eo; reflexivity.
  - split; [exact Ei|]. right; split; [exact Hle | exact Eo].
Qed.

(** The change rule as the builder applies it: a change output is
    appended when the change exceeds the dust threshold, and none when
    it lies between 0 and the threshold, both included. *)
Lemma simple_change_rule (self : TransactionBuilder.t) (p : SimpleTxParams)
      (tx : Transaction) :
  createSimpleTransaction self p = Ok tx ->
  (DUST_THRESHOLD < simpleChange p ->
   exists cs,
     createScriptPubKey (s_changeAddress p) (simpleNetwork self p) = Ok cs /\
     skipn (List.length (s_outputs p)) (outputs tx)
     = [mkTxOutput cs (simpleChange p)]) /\
  (simpleChange p <= DUST_THRESHOLD ->
   0 <= simpleChange p /\
   skipn (List.length (s_outputs p)) (outputs tx) = []).
Proof.
  intros E. apply createSimpleTransaction_Ok in E
    as (_ & ins & outs & Ei & Eo & Hcases).
  apply forEach_length in Eo.
  destruct Hcases as [(Hgt & cs & Ec & ->) | (Hle & ->)]; simpl; split; intros Hc;
    try lia.
  - exists cs; split; [exact Ec|].
    rewrite <- Eo, skipn_app, skipn_all, Nat.sub_diag; reflexivity.
  - split; [lia|]. rewrite <- Eo; apply skipn_all.
Qed.

(** C3.  A simple payment whose change is exactly the dust threshold
    (546) is built without a change output: the outputs of the
    transaction are the requested ones, and the 546 satoshis are added to
    the fee.  The specification asks for a change output at 546. *)
Theorem simple_change_equal_to_dust_is_dropped
        (self : TransactionBuilder.t) (p : SimpleTxParams) (tx : Transaction) :
  simpleChange p = DUST_THRESHOLD ->
  createSimpleTransaction self p = Ok tx ->
  map t_amount (outputs tx) = map o_amount (s_outputs p)
  /\ skipn (List.length (s_outputs p)) (outputs tx) = []
  /\ sumInputs tx - sumOutputs tx = simpleFee p + DUST_THRESHOLD.
Proof.
  intros Hc E.
  pose proof (simple_amounts _ _ _ E) as (Hin & [(Hgt & _) | (_ & Hout)]); [lia|].
  pose proof (simple_change_rule _ _ _ E) as (_ & Hnone).
  split; [exact Hout|]. split; [apply Hnone; lia|].
  unfold sumInputs, sumOutputs. rewrite Hin, Hout.
  unfold simpleChange in Hc. rewrite totalInput_sum, totalOutput_sum in Hc. lia.
Qed.


End SimplePayments.

(** At [Examples.change546] the change is 546 and the built transaction
    has the single requested output. *)
Lemma simple_change_equal_to_dust_is_dropped_witness :
  TransactionBuilder.simpleChange Examples.change546 = Constants.DUST_THRESHOLD
  /\ exists tx,
      TransactionBuilder.createSimpleTransaction
        (H := Fixture.btcSigner) Fixture.builder Examples.change546 = Ok tx
      /\ map t_amount (outputs tx) = [546]
      /\ skipn 1 (outputs tx) = []
      /\ sumInputs tx - sumOutputs tx = 153 + 546.
Proof.
  split; [reflexivity|].
  eexists; split; [vm_compute; reflexivity|].
  apply (@simple_change_equal_to_dust_is_dropped
           Fixture.btcSigner Fixture.builder Examples.change546);
    vm_compute; reflexivity.
Defined.



(** ** Mining transactions *)

Section MiningTransactions.

Import Constants TransactionBuilder.

Context {L : BtcSigner}.

Lemma createMiningOpReturn_Throw (d : MiningData) (e : Exception) :
  createMiningOpReturn d = Throw e ->
  class e = TransactionError \/ class e = JsError.
Proof.
  unfold createMiningOpReturn. cbv zeta.
  destruct (_ >? _).
  - unfold throw; intros E; inversion E; left; reflexivity.
  - destruct (Js.hexDecode _); simpl; intros E; inversion E; right; reflexivity.
Qed.

(** C6.  A mining build whose change would fall below the dust
    threshold returns no transaction: it throws.  What it throws is a
    [TransactionError], unless the [ValidationError] of
    [validateMiningParams] or of the script of the UTXO address came first. *)
Theorem mining_change_below_dust_rejected
        (self : TransactionBuilder.t) (p : MiningTxParams) :
  miningChange p < DUST_THRESHOLD ->
  (forall tx, createMiningTransaction self p <> Ok tx)
  /\ (thrownClass (createMiningTransaction self p) = Some TransactionError
      \/ thrownClass (createMiningTransaction self p) = Some ValidationError)
  /\ (validateMiningParams p = Ok tt ->
      isOk (createScriptPubKey (address (m_utxo p)) (miningNetwork self p)) = true ->
      thrownClass (createMiningTransaction self p) = Some TransactionError).
Proof.
  intros Hlt.
  assert (Hno : forall tx, createMiningTransaction self p <> Ok tx).
  { intros tx E. apply createMiningTransaction_Ok in E as (_ & Hge & _). lia. }
  split; [exact Hno|].
  assert (Hmain :
            (validateMiningParams p = Ok tt ->
             isOk (createScriptPubKey (address (m_utxo p)) (miningNetwork self p)) = true ->
             thrownClass (createMiningTransaction self p) = Some TransactionError)).
  { intros Hv Hs. unfold createMiningTransaction. cbv zeta. rewrite Hv. cbn [bind].
    fold (miningNetwork self p).
    destruct (getNetworkConfig_total (miningNetwork self p)) as (c & ->). cbn [bind].
    destruct (inputOf (miningNetwork self p) (m_utxo p)) as [input|e] eqn:Ei; cbn [bind].
    - destruct (createMiningOpReturn (m_miningData p)) as [data|e] eqn:Ed; cbn [bind].
      + destruct (addOutput (opReturnScript data) 0); cbn [fromPackage bind];
          [| reflexivity].
        destruct (miningChange p <? DUST_THRESHOLD) eqn:Hb; [reflexivity | lia].
      + rewrite (rethrow_Throw _ _ e eq_refl).
        apply createMiningOpReturn_Throw in Ed as [-> | ->]; reflexivity.
    - rewrite (rethrow_Throw _ _ e eq_refl).
      apply inputOf_Throw in Ei as [-> | Ei]; [reflexivity|].
      rewrite Ei in Hs; discriminate Hs. }
  split; [| exact Hmain].
  destruct (createMiningTransaction self p) as [tx|e] eqn:E.
  - elim (Hno tx); reflexivity.
  - unfold createMiningTransaction in E.
    apply rethrow_classes in E as [C | C]; simpl; rewrite C; auto.
Qed.

End MiningTransactions.

(** At [Examples.miningSmallChange] the change is 470 and the builder
    throws a [TransactionError]. *)
Lemma mining_change_below_dust_rejected_witness :
  TransactionBuilder.miningChange Examples.miningSmallChange < Constants.DUST_THRESHOLD
  /\ (forall tx,
        TransactionBuilder.createMiningTransaction
          (H := Fixture.btcSigner) Fixture.builder Examples.miningSmallChange <> Ok tx)
  /\ thrownClass
       (TransactionBuilder.createMiningTransaction
          (H := Fixture.btcSigner) Fixture.builder Examples.miningSmallChange)
     = Some TransactionError.
Proof.
  assert (Hlt : TransactionBuilder.miningChange Examples.miningSmallChange
                < Constants.DUST_THRESHOLD) by (vm_compute; reflexivity).
  split; [exact Hlt|].
  destruct (@mining_change_below_dust_rejected
              Fixture.btcSigner Fixture.builder Examples.miningSmallChange Hlt)
    as (Hno & _ & Hclass).
  split; [exact Hno|].
  apply Hclass; vm_compute; reflexivity.
Defined.

(** ** Parameter validation *)

Lemma forEach_Ok_Forall {A B} (f : A -> result B) (l : list A) (bs : list B) :
  forEach f l = Ok bs -> Forall (fun a => isOk (f a) = true) l.
Proof.
  revert bs; induction l as [|a l IH]; simpl; intros bs E; [constructor|].
  destruct (f a) eqn:Ea; [|discriminate].
  destruct (forEach f l) eqn:El; [|discriminate].
  constructor; [rewrite Ea; reflexivity | eapply IH; reflexivity].
Qed.

Section Validation.

Import Constants TransactionBuilder.

(** What the parameters of a simple payment satisfy once
    [validateSimpleParams] has passed: nothing about the size of a UTXO,
    and a fee rate that is in range or zero. *)
Lemma validateSimpleParams_Ok (p : SimpleTxParams) :
  validateSimpleParams p = Ok tt ->
  s_utxos p <> []
  /\ Forall (fun u => utxoMalformed u = false) (s_utxos p)
  /\ s_outputs p <> []
  /\ Forall (fun o => Js.emptyb (o_address o) = false
                      /\ DUST_THRESHOLD <= o_amount o) (s_outputs p)
  /\ Js.emptyb (s_changeAddress p) = false
  /\ feeRateRejected (s_feeRate p) = false.
Proof.
  unfold validateSimpleParams. cbv zeta.
  destruct (s_utxos p) as [|u us] eqn:Eu; [discriminate|].
  intros E. apply bind_Ok in E as (r1 & E1 & E).
  destruct (s_outputs p) as [|o os] eqn:Eo; [discriminate|].
  apply bind_Ok in E as (r2 & E2 & E).
  destruct (Js.emptyb (s_changeAddress p)) eqn:Ec; [discriminate|].
  destruct (feeRateRejected (s_feeRate p)) eqn:Ef; [discriminate|].
  apply forEach_Ok_Forall in E1, E2.
  repeat split; try discriminate; try reflexivity.
  - eapply Forall_impl; [|exact E1]. cbv beta. intros a.
    destruct (utxoMalformed a); [discriminate | reflexivity].
  - eapply Forall_impl; [|exact E2]. cbv beta. intros a. unfold validateOutput.
    destruct (Js.emptyb (o_address a)); simpl; [discriminate|].
    destruct (o_amount a <=? 0) eqn:H0; simpl; [discriminate|].
    destruct (o_amount a <? DUST_THRESHOLD) eqn:H1; [discriminate|].
    intros _; split; [reflexivity | lia].
Qed.

Lemma validateSimpleParams_Throw (p : SimpleTxParams) (e : Exception) :
  validateSimpleParams p = Throw e -> class e = ValidationError.
Proof.
  unfold validateSimpleParams. cbv zeta.
  destruct (s_utxos p) as [|u us]; [intros E; inversion E; reflexivity|].
  destruct (forEach _ (u :: us)) as [r|e1] eqn:E1; cbn [bind].
  - destruct (s_outputs p) as [|o os]; [intros E; inversion E; reflexivity|].
    destruct (forEach validateOutput (o :: os)) as [r'|e2] eqn:E2; cbn [bind].
    + destruct (Js.emptyb _); [intros E; inversion E; reflexivity|].
      destruct (feeRateRejected _); intros E; inversion E; reflexivity.
    + intros E; inversion E; subst.
      apply forEach_Throw in E2 as (a & _ & Ea). unfold validateOutput in Ea.
      destruct (_ || _); [inversion Ea; reflexivity|].
      destruct (_ <? _); inversion Ea; reflexivity.
  - intros E; inversion E; subst.
    apply forEach_Throw in E1 as (a & _ & Ea).
    destruct (utxoMalformed a); inversion Ea; reflexivity.
Qed.

(** What the parameters of a mining transaction satisfy once
    [validateMiningParams] has passed. *)
Lemma validateMiningParams_Ok (p : MiningTxParams) :
  validateMiningParams p = Ok tt ->
  utxoMalformed (m_utxo p) = false
  /\ MIN_UTXO_AMOUNT <= amount (m_utxo p)
  /\ (32 <= String.length (hash (m_miningData p)))%nat
  /\ 0 <= nonce (m_miningData p)
  /\ Js.emptyb (m_changeAddress p) = false
  /\ feeRateRejected (m_feeRate p) = false.
Proof.
  unfold validateMiningParams. cbv zeta.
  destruct (utxoMalformed (m_utxo p)); [discriminate|].
  destruct (amount (m_utxo p) <? MIN_UTXO_AMOUNT) eqn:Ha; [discriminate|].
  destruct (Js.emptyb (hash (m_miningData p))); [discriminate|].
  destruct (Nat.ltb _ 32) eqn:Hh; [discriminate|].
  destruct (nonce (m_miningData p) <? 0) eqn:Hn; [discriminate|].
  destruct (Js.emptyb (m_changeAddress p)); [discriminate|].
  destruct (feeRateRejected (m_feeRate p)); [discriminate|].
  intros _. apply Nat.ltb_ge in Hh. repeat split; try reflexivity; lia.
Qed.

Lemma validateMiningParams_Throw (p : MiningTxParams) (e : Exception) :
  validateMiningParams p = Throw e -> class e = ValidationError.
Proof.
  unfold validateMiningParams. cbv zeta.
  repeat match goal with
         | |- (if ?c then _ else _) = _ -> _ => destruct c
         end; intros E; inversion E; reflexivity.
Qed.

Context {L : BtcSigner}.

(** X3.  The checks that do work: an out-of-range fee rate other than 0 and a
    dust output make a simple build throw a [ValidationError]. *)
Lemma simple_validation_rejects (self : TransactionBuilder.t) (p : SimpleTxParams) :
  (exists f, s_feeRate p = Some f /\ f <> 0 /\ (f < MIN_FEE_RATE \/ MAX_FEE_RATE < f))
  \/ (exists o, In o (s_outputs p) /\ o_amount o < DUST_THRESHOLD) ->
  thrownClass (createSimpleTransaction self p) = Some ValidationError.
Proof.
  intros Hbad.
  destruct (validateSimpleParams p) as [[]|e] eqn:Ev.
  - exfalso. apply validateSimpleParams_Ok in Ev as (_ & _ & _ & Ho & _ & Hf).
    destruct Hbad as [(f & Ef & Hnz & Hr) | (o & Hin & Hlt)].
    + rewrite Ef in Hf. simpl in Hf.
      apply andb_false_iff in Hf as [Hf | Hf].
      * apply negb_false_iff in Hf. lia.
      * apply orb_false_iff in Hf as (H1 & H2). lia.
    + rewrite Forall_forall in Ho. destruct (Ho o Hin) as (_ & Hge). lia.
  - unfold createSimpleTransaction. cbv zeta. rewrite Ev. cbn [bind].
    rewrite (rethrow_Throw _ _ e eq_refl).
    rewrite (validateSimpleParams_Throw _ _ Ev). reflexivity.
Qed.

(** X4.  For a mining build: a UTXO below the minimum, a short hash, a
    negative nonce and an out-of-range fee rate other than 0. *)
Lemma mining_validation_rejects (self : TransactionBuilder.t) (p : MiningTxParams) :
  amount (m_utxo p) < MIN_UTXO_AMOUNT
  \/ (String.length (hash (m_miningData p)) < 32)%nat
  \/ nonce (m_miningData p) < 0
  \/ (exists f, m_feeRate p = Some f /\ f <> 0 /\ (f < MIN_FEE_RATE \/ MAX_FEE_RATE < f)) ->
  thrownClass (createMiningTransaction self p) = Some ValidationError.
Proof.
  intros Hbad.
  destruct (validateMiningParams p) as [[]|e] eqn:Ev.
  - exfalso. apply validateMiningParams_Ok in Ev as (_ & Ha & Hh & Hn & _ & Hf).
    destruct Hbad as [H1 | [H2 | [H3 | (f & Ef & Hnz & Hr)]]]; try lia.
    rewrite Ef in Hf. simpl in Hf.
    apply andb_false_iff in Hf as [Hf | Hf].
    + apply negb_false_iff in Hf. lia.
    + apply orb_false_iff in Hf as (H1 & H2). lia.
  - unfold createMiningTransaction. cbv zeta. rewrite Ev. cbn [bind].
    rewrite (rethrow_Throw _ _ e eq_refl).
    rewrite (validateMiningParams_Throw _ _ Ev). reflexivity.
Qed.

End Validation.

(** C5.  Two of the listed violations are not caught.
    (1) [validateSimpleParams] never compares a UTXO amount with
    [MIN_UTXO_AMOUNT]: a simple payment spending a UTXO of 999 satoshis is
    validated and built.
    (2) The fee-rate check is guarded by the truthiness of [feeRate], so a
    fee rate of 0 is not rejected.  [validateSimpleParams] passes it and
    the simple payment is built, paying no fee.  [validateMiningParams]
    passes it too; the mining build then fails where every mining build
    fails, when the OP_RETURN output is added, and what it throws is a
    [TransactionError], not the [ValidationError] of a rejected fee
    rate. *)
Theorem validation_gaps :
  (* a UTXO of 999 satoshis in a simple payment *)
  (amount (Examples.utxoA 999) < Constants.MIN_UTXO_AMOUNT
   /\ TransactionBuilder.validateSimpleParams Examples.smallUtxo = Ok tt
   /\ isOk (TransactionBuilder.createSimpleTransaction
              (H := Fixture.btcSigner) Fixture.builder Examples.smallUtxo) = true)
  (* fee rate 0 in a simple payment *)
  /\ (s_feeRate Examples.zeroRateSimple = Some 0
      /\ TransactionBuilder.validateSimpleParams Examples.zeroRateSimple = Ok tt
      /\ exists tx,
          TransactionBuilder.createSimpleTransaction
            (H := Fixture.btcSigner) Fixture.builder Examples.zeroRateSimple = Ok tx
          /\ sumInputs tx - sumOutputs tx = 0)
  (* fee rate 0 in a mining transaction *)
  /\ (m_feeRate Examples.zeroRateMining = Some 0
      /\ TransactionBuilder.validateMiningParams Examples.zeroRateMining = Ok tt
      /\ thrownClass
           (TransactionBuilder.createMiningTransaction
              (H := Fixture.btcSigner) Fixture.builder Examples.zeroRateMining)
         = Some TransactionError).
Proof.
  split; [| split].
  - split; [vm_compute; reflexivity|]. split; vm_compute; reflexivity.
  - split; [reflexivity|]. split; [vm_compute; reflexivity|].
    eexists; split; vm_compute; reflexivity.
  - split; [reflexivity|]. split; vm_compute; reflexivity.
Qed.

(** ** The fee reported by the signers *)

Section SignedFee.

Import Constants Signing.

Context {L : BtcSigner} {L39 : Bip39} {L32 : Bip32}.

Lemma toSignedTransaction_Ok (r : TransactionResult) (s : SignedTransaction) :
  toSignedTransaction r = Ok s ->
  success r = true /\ st_fee s = Js.orZero (r_fee r).
Proof.
  unfold toSignedTransaction.
  destruct (success r); [|discriminate].
  destruct (nonEmpty (r_txid r)); [|discriminate].
  destruct (nonEmpty (r_hex r)); [|discriminate].
  intros E; inversion E; auto.
Qed.

Lemma settle_success (m : result TransactionResult) :
  success (settle m) = true -> m = Ok (settle m).
Proof. destruct m; simpl; [reflexivity | discriminate]. Qed.




Lemma effectiveFeeRate_nonneg (feeRate : option Z) :
  TransactionBuilder.feeRateRejected feeRate = false ->
  0 <= effectiveFeeRate feeRate.
Proof.
  destruct feeRate as [f|]; simpl; [|unfold DEFAULT_FEE_RATE; lia].
  unfold MIN_FEE_RATE, MAX_FEE_RATE. intros H.
  apply andb_false_iff in H as [H | H].
  - apply negb_false_iff in H. lia.
  - apply orb_false_iff in H as (H1 & H2). lia.
Qed.

Lemma simpleFee_nonneg (p : SimpleTxParams) :
  TransactionBuilder.validateSimpleParams p = Ok tt ->
  0 <= TransactionBuilder.simpleFee p.
Proof.
  intros Hv. apply validateSimpleParams_Ok in Hv as (_ & _ & _ & _ & _ & Hf).
  apply effectiveFeeRate_nonneg in Hf.
  unfold TransactionBuilder.simpleFee, TransactionBuilder.estimateTransactionSize.
  cbv zeta. fold (effectiveFeeRate (s_feeRate p)).
  apply Z.mul_nonneg_nonneg; lia.
Qed.





End SignedFee.



(** ** Taproot addresses and [validateAddress] *)

Section AddressShape.

Import Bech32m Constants.

Lemma numberToBytesBE_length (len : nat) (v : Z) :
  List.length (Secp256k1.numberToBytesBE len v) = len.
Proof. unfold Secp256k1.numberToBytesBE; rewrite length_map, length_seq; reflexivity. Qed.

Lemma bits_length (bytes : list Z) :
  List.length (flat_map bitsOfByte bytes) = (8 * List.length bytes)%nat.
Proof.
  induction bytes as [|b bytes IH]; [reflexivity|].
  cbn [flat_map]. rewrite length_app, IH.
  unfold bitsOfByte. rewrite length_map, length_seq. simpl List.length. lia.
Qed.

Lemma toWords_length (bytes : list Z) :
  List.length (toWords bytes) = Nat.div (8 * List.length bytes + 4) 5.
Proof.
  unfold toWords. rewrite length_map, length_seq, bits_length. reflexivity.
Qed.

Lemma createChecksum_length (hrp : string) (data : list Z) :
  List.length (createChecksum hrp data) = 6%nat.
Proof. unfold createChecksum. rewrite length_map, length_seq. reflexivity. Qed.

(** Every character of the bech32 alphabet belongs to the class
    [[a-zA-HJ-NP-Z0-9]] of the address patterns. *)
Lemma charAt_class (v : Z) : segwitClass (charAt v) = true.
Proof.
  unfold charAt. generalize (Z.to_nat v) as k. intros k.
  do 32 (destruct k as [|k]; [reflexivity|]).
  destruct k; reflexivity.
Qed.

(** A witness-v1 address over a 32-byte program is the prefix, ['1'],
    ['p'] and 58 characters of the alphabet. *)
Lemma encodeSegwit_shape (hrp : string) (program : list Z) :
  List.length program = 32%nat ->
  exists rest,
    encodeSegwit hrp 1 program
    = (hrp ++ "1" ++ String "p" (string_of_list_ascii rest))%string
    /\ List.length rest = 58%nat
    /\ forallb segwitClass rest = true.
Proof.
  intros Hlen. unfold encodeSegwit, encode.
  exists (map charAt (toWords program ++ createChecksum hrp (1 :: toWords program))).
  split; [reflexivity|]. split.
  - rewrite length_map, length_app, toWords_length, createChecksum_length, Hlen.
    reflexivity.
  - apply forallb_forall. intros c Hc.
    apply in_map_iff in Hc as (v & <- & _). apply charAt_class.
Qed.

Lemma prefix_empty (s : string) : String.prefix "" s = true.
Proof. destruct s; reflexivity. Qed.

Lemma matchExact_p2tr (program : list Z) :
  List.length program = 32%nat ->
  matchExact "bc1p" segwitClass 58 (encodeSegwit "bc" 1 program) = true
  /\ matchExact "tb1p" segwitClass 58 (encodeSegwit "tb" 1 program) = true.
Proof.
  intros Hlen. split.
  - destruct (encodeSegwit_shape "bc" program Hlen) as (rest & -> & Hr & Hc).
    unfold matchExact, Js.startsWith, Js.chars. simpl.
    rewrite prefix_empty, list_ascii_of_string_of_list_ascii, Hr, Hc; reflexivity.
  - destruct (encodeSegwit_shape "tb" program Hlen) as (rest & -> & Hr & Hc).
    unfold matchExact, Js.startsWith, Js.chars. simpl.
    rewrite prefix_empty, list_ascii_of_string_of_list_ascii, Hr, Hc; reflexivity.
Qed.

Lemma address_length (hrp : string) (program : list Z) :
  hrp = "bc" \/ hrp = "tb" ->
  List.length program = 32%nat ->
  String.length (encodeSegwit hrp 1 program) = 62%nat.
Proof.
  intros Hhrp Hlen.
  destruct (encodeSegwit_shape hrp program Hlen) as (rest & -> & Hr & _).
  assert (Hl : String.length (string_of_list_ascii rest) = 58%nat).
  { rewrite <- Hr. clear. induction rest; simpl; congruence. }
  destruct Hhrp as [-> | ->]; simpl; rewrite Hl; reflexivity.
Qed.

Context {L : BtcSigner} {L39 : Bip39} {L32 : Bip32}.

(** The address [btc.p2tr] returns. *)
Lemma p2tr_address (internalKey : list Z) (net : BtcNetwork) (r : P2Ret) :
  p2tr internalKey net = Some r ->
  exists program,
    List.length program = 32%nat
    /\ p_address r = encodeSegwit (bech32 net) 1 program.
Proof.
  unfold p2tr. destruct (taprootOutputKey internalKey) as [q|]; [|discriminate].
  intros E; inversion E; subst; simpl.
  eexists; split; [apply numberToBytesBE_length | reflexivity].
Qed.

Lemma taprootKeysOf_Ok (net : BtcNetwork) (k : HDKey) (keys : TaprootKeys) :
  CharmsWallet.taprootKeysOf net k = Ok keys ->
  hdPrivateKey k = Some (privateKey keys)
  /\ Secp256k1.getPublicKey (privateKey keys) = Some (publicKey keys)
  /\ xOnlyPubkey keys = tl (publicKey keys)
  /\ exists r, p2tr (xOnlyPubkey keys) net = Some r /\ k_address keys = p_address r.
Proof.
  unfold CharmsWallet.taprootKeysOf, hdPublicKey.
  destruct (hdPrivateKey k) as [priv|]; [|discriminate].
  destruct (Secp256k1.getPublicKey priv) as [pub|] eqn:Ep; [|discriminate].
  intros E. apply bind_Ok in E as (r & Er & E). apply fromPackage_Ok in Er.
  destruct (Js.emptyb (p_address r)); [discriminate|].
  inversion E; subst; simpl. repeat split; auto. exists r; auto.
Qed.

Lemma generateAddress_Ok (mnemonic : string) (network : Network) (index : Z)
      (addr : string) :
  CharmsWallet.generateAddress mnemonic network index = Ok addr ->
  exists program,
    List.length program = 32%nat
    /\ addr = encodeSegwit (bech32 (CharmsWallet.staticNetworkConfig network)) 1 program.
Proof.
  unfold CharmsWallet.generateAddress. intros E.
  apply catch_Ok in E; [| intros e; unfold throw; discriminate].
  apply bind_Ok in E as ([] & _ & E).
  apply bind_Ok in E as (k & _ & E).
  apply bind_Ok in E as (keys & Ek & E).
  inversion E; subst.
  apply taprootKeysOf_Ok in Ek as (_ & _ & _ & r & Er & ->).
  apply p2tr_address in Er. exact Er.
Qed.

(** C7.  An address produced by [generateAddress] for a network is
    accepted by [validateAddress] of a wallet configured with that
    network: valid, the same network, type ['p2tr']. *)
Theorem generated_address_validates
        (self : CharmsWallet.t) (mnemonic : string) (network : Network)
        (index : Z) (addr : string) :
  CharmsWallet.network (CharmsWallet.config self) = network ->
  CharmsWallet.generateAddress mnemonic network index = Ok addr ->
  CharmsWallet.validateAddress self addr
  = mkAddressValidation true None (Some network) (Some Types.p2tr).
Proof.
  intros Hn E. apply generateAddress_Ok in E as (program & Hlen & ->).
  unfold CharmsWallet.validateAddress. cbv zeta. rewrite Hn.
  unfold MAINNET_P2TR, TESTNET_P2TR.
  destruct network; simpl CharmsWallet.staticNetworkConfig; simpl bech32.
  - rewrite (proj1 (matchExact_p2tr program Hlen)). reflexivity.
  - rewrite (proj2 (matchExact_p2tr program Hlen)). reflexivity.
  - rewrite (proj2 (matchExact_p2tr program Hlen)). reflexivity.
Qed.

End AddressShape.

(** The first address of the example mnemonic on testnet. *)
Lemma generated_address_validates_witness :
  exists addr,
    CharmsWallet.generateAddress
      (H := Fixture.btcSigner) (H0 := Fixture.bip39) (H1 := Fixture.bip32)
      Fixture.mnemonic testnet 0 = Ok addr
    /\ CharmsWallet.validateAddress (CharmsWallet.new (Some testnet)) addr
       = mkAddressValidation true None (Some testnet) (Some Types.p2tr).
Proof.
  eexists. split; [vm_compute; reflexivity|].
  apply (@generated_address_validates
           Fixture.btcSigner Fixture.bip39 Fixture.bip32
           (CharmsWallet.new (Some testnet)) Fixture.mnemonic testnet 0);
    [reflexivity | vm_compute; reflexivity].
Defined.

(** ** Mnemonic generation *)

Section Mnemonics.

Import Constants.

Context {L : BtcSigner} {L39 : Bip39} {L32 : Bip32}.

(** The package returns [(strength + strength / 32) / 11] words. *)
Lemma package_generateMnemonic_words (strength : Z) :
  entropyBitsOk strength = true ->
  exists m,
    Scure.generateMnemonic strength = Some m
    /\ List.length m = Z.to_nat ((strength + strength / 32) / 11).
Proof.
  intros Hok. unfold Scure.generateMnemonic. rewrite Hok. cbv zeta.
  eexists; split; [reflexivity|].
  rewrite length_map, length_seq. reflexivity.
Qed.

Lemma generateMnemonic_supported (self : CharmsWallet.t) (w : Z) :
  CharmsWallet.supported w = true ->
  exists m,
    CharmsWallet.generateMnemonic self (Some w) = Ok m
    /\ List.length m
       = Z.to_nat ((CharmsWallet.entropyBits w + CharmsWallet.entropyBits w / 32) / 11).
Proof.
  intros Hs. unfold CharmsWallet.generateMnemonic. cbv zeta. rewrite Hs.
  destruct (package_generateMnemonic_words (CharmsWallet.entropyBits w))
    as (m & Em & Hm).
  { unfold CharmsWallet.entropyBits. destruct (w =? 12); reflexivity. }
  rewrite Em. exists m; split; [reflexivity | exact Hm].
Qed.

(** X2.  The two word counts the ternary distinguishes behave as asked:
    12 words for 12, 24 words for 24. *)
Lemma generateMnemonic_12_and_24 (self : CharmsWallet.t) :
  (exists m, CharmsWallet.generateMnemonic self (Some 12) = Ok m
             /\ List.length m = 12%nat)
  /\ (exists m, CharmsWallet.generateMnemonic self (Some 24) = Ok m
                /\ List.length m = 24%nat).
Proof.
  split.
  - destruct (generateMnemonic_supported self 12 eq_refl) as (m & E & H).
    exists m; split; [exact E | rewrite H; reflexivity].
  - destruct (generateMnemonic_supported self 24 eq_refl) as (m & E & H).
    exists m; split; [exact E | rewrite H; reflexivity].
Qed.

(** C8.  For the supported word counts 15, 18 and 21 the wallet draws 256
    bits of entropy and returns a mnemonic of 24 words, where the specification
    asks for 160, 192 and 224 bits and for 15, 18 and 21 words. *)
Theorem generateMnemonic_15_18_21_returns_24_words (self : CharmsWallet.t) :
  Forall (fun w =>
            CharmsWallet.supported w = true
            /\ CharmsWallet.entropyBits w = 256
            /\ exists m,
                CharmsWallet.generateMnemonic self (Some w) = Ok m
                /\ List.length m = 24%nat)
         [15; 18; 21].
Proof.
  repeat constructor;
    match goal with
    | |- exists m, CharmsWallet.generateMnemonic _ (Some ?w) = _ /\ _ =>
        destruct (generateMnemonic_supported self w eq_refl) as (m & E & H);
        exists m; split; [exact E | rewrite H; reflexivity]
    end.
Qed.

(** C9.  An unsupported word count makes [generateMnemonic] throw a
    [CryptographyError]: the [ValidationError] raised inside the [try]
    block is caught by the method's own [catch] and wrapped.  The specification
    asks for a [ValidationError]. *)
Theorem generateMnemonic_unsupported_throws_CryptographyError
        (self : CharmsWallet.t) (w : Z) :
  CharmsWallet.supported w = false ->
  exists msg,
    CharmsWallet.generateMnemonic self (Some w)
    = Throw (mkException CryptographyError msg).
Proof.
  intros Hs. unfold CharmsWallet.generateMnemonic. cbv zeta. rewrite Hs.
  simpl. eexists; reflexivity.
Qed.

(** Whatever the word count, a failure of [generateMnemonic] is a
    [CryptographyError]. *)
Lemma generateMnemonic_never_throws_ValidationError
      (self : CharmsWallet.t) (w : option Z) (e : Exception) :
  CharmsWallet.generateMnemonic self w = Throw e -> class e = CryptographyError.
Proof.
  unfold CharmsWallet.generateMnemonic, catch. cbv zeta.
  destruct (if negb _ then _ else _); [discriminate|].
  unfold throw; intros E; inversion E; reflexivity.
Qed.

End Mnemonics.

(** A request for 13 words. *)
Lemma generateMnemonic_unsupported_throws_CryptographyError_witness :
  CharmsWallet.supported 13 = false
  /\ thrownClass
       (CharmsWallet.generateMnemonic (H0 := Fixture.bip39)
                                      (CharmsWallet.new None) (Some 13))
     = Some CryptographyError.
Proof.
  split; [reflexivity|].
  destruct (@generateMnemonic_unsupported_throws_CryptographyError
              Fixture.bip39 (CharmsWallet.new None) 13 eq_refl) as (msg & ->).
  reflexivity.
Defined.

(** ** The isolated signer and the HD path *)

Section IsolatedSigner.

Lemma string_length_app (a b : string) :
  String.length (a ++ b) = (String.length a + String.length b)%nat.
Proof. induction a as [|c a IH]; simpl; [reflexivity | rewrite IH; reflexivity]. Qed.

Lemma zeros_length (k : nat) : String.length (Js.zeros k) = k.
Proof. unfold Js.zeros. induction k; simpl; [reflexivity | rewrite IHk; reflexivity]. Qed.

Lemma fold_hex_length (bytes : list Z) (acc : string) :
  String.length
    (fold_left (fun acc byte => (acc ++ Js.hexByte byte)%string) bytes acc)
  = (String.length acc + 2 * List.length bytes)%nat.
Proof.
  revert acc; induction bytes as [|b bytes IH]; intros acc; simpl; [lia|].
  rewrite IH, string_length_app. simpl. lia.
Qed.

Lemma addressSuffix_length (d : list Z) :
  (String.length (CharmsWallet.addressSuffix d) <= 16)%nat.
Proof.
  unfold CharmsWallet.addressSuffix, Js.slice0. rewrite fold_hex_length.
  pose proof (firstn_le_length 8 d).
  change (String.length "") with 0%nat. lia.
Qed.

(** The address [fromPrivateKey] invents has 58 characters, whatever the
    key and the network. *)
Lemma mockAddress_length (d : list Z) (net : Network) :
  String.length (CharmsWallet.mockAddress d net) = 58%nat.
Proof.
  unfold CharmsWallet.mockAddress. cbv zeta.
  pose proof (addressSuffix_length d) as Hs.
  rewrite !string_length_app, zeros_length.
  destruct (Network_eqb net mainnet);
    [change (String.length "bc1p") with 4%nat
    | change (String.length "tb1p") with 4%nat]; lia.
Qed.

Context {L : BtcSigner} {L39 : Bip39} {L32 : Bip32}.

(** The key bundle of the HD path: the public key is the compressed point
    of the private key, and the address has the 62 characters of a
    witness-v1 address. *)
Lemma getAddressData_Ok (mnemonic : string) (network : Network) (index : Z)
      (keys : TaprootKeys) :
  CharmsWallet.getAddressData mnemonic network index = Ok keys ->
  Secp256k1.getPublicKey (privateKey keys) = Some (publicKey keys)
  /\ xOnlyPubkey keys = tl (publicKey keys)
  /\ String.length (k_address keys) = 62%nat.
Proof.
  unfold CharmsWallet.getAddressData. intros E.
  apply catch_Ok in E; [| intros e; unfold throw; discriminate].
  apply bind_Ok in E as ([] & _ & E).
  apply bind_Ok in E as (k & _ & E).
  apply taprootKeysOf_Ok in E as (_ & Hpub & Hx & r & Er & ->).
  split; [exact Hpub|]. split; [exact Hx|].
  apply p2tr_address in Er as (program & Hlen & ->).
  apply address_length; [|exact Hlen].
  unfold CharmsWallet.staticNetworkConfig.
  destruct (Network_eqb network mainnet); simpl; auto.
Qed.

(** [fromPrivateKey] never fails, and what it returns. *)
Lemma fromPrivateKey_Ok (d : list Z) (net : Network) :
  CharmsWallet.fromPrivateKey d net
  = Ok (AddressWallet.mk d net (CharmsWallet.mockAddress d net)
                         (AddressWallet.derivePublicKey d)
                         (tl (AddressWallet.derivePublicKey d))).
Proof.
  unfold CharmsWallet.fromPrivateKey, AddressWallet.new. cbv zeta.
  assert (H : Signing.nonEmpty (Some (CharmsWallet.mockAddress d net))
              = Some (CharmsWallet.mockAddress d net)).
  { pose proof (mockAddress_length d net) as Hl. unfold Signing.nonEmpty.
    destruct (CharmsWallet.mockAddress d net); [discriminate Hl | reflexivity]. }
  rewrite H. reflexivity.
Qed.

(** X1.  For every key the HD path hands out, the isolated signer built from
    that key has another address. *)
Lemma isolated_address_differs (mnemonic : string) (network : Network)
      (index : Z) (keys : TaprootKeys) (w : AddressWallet.t) :
  CharmsWallet.getAddressData mnemonic network index = Ok keys ->
  CharmsWallet.fromPrivateKey (privateKey keys) network = Ok w ->
  AddressWallet.getAddress w <> k_address keys.
Proof.
  intros Ek Ew. apply getAddressData_Ok in Ek as (_ & _ & Hl).
  rewrite fromPrivateKey_Ok in Ew. inversion Ew; subst.
  unfold AddressWallet.getAddress; simpl. intros Heq.
  pose proof (mockAddress_length (privateKey keys) network) as Hm.
  rewrite Heq, Hl in Hm. discriminate Hm.
Qed.

End IsolatedSigner.

(** The curve arithmetic reproduces the published multiples of the
    generator. *)
Lemma scalar_multiplication_vectors :
  Secp256k1.onCurve Secp256k1.G = true
  /\ Secp256k1.mul 1 Secp256k1.G = Secp256k1.G
  /\ Secp256k1.onCurve (Secp256k1.mul 3 Secp256k1.G) = true
  /\ Secp256k1.compress (Secp256k1.mul 3 Secp256k1.G)
     = Some (2 :: Secp256k1.numberToBytesBE 32 Examples.threeGx).
Proof. do 3 (split; [vm_compute; reflexivity|]). vm_compute; reflexivity. Qed.

(** C1.  At the private keys 1 and 3 the isolated signer does not compute
    the point [d * G].  [derivePublicKey] returns [02] followed by the key
    bytes xor 1, that is [02 01 ... 01 00] and [02 01 ... 01 02], where
    scalar multiplication gives [02 79BE667E ... 16F81798] (the generator)
    and [02 F9308A01 ... BCE036F9].  The wallet [fromPrivateKey] returns
    carries that public key, its tail as x-only key and an address of 58
    characters; the key bundle of the HD path for the same private key
    carries the compressed point, its x coordinate and the 62 characters of
    a Taproot address. *)
Theorem isolated_signer_key_is_not_the_curve_point :
  (* the code *)
  AddressWallet.derivePublicKey Examples.keyOne = 2 :: repeat 1 31 ++ [0]
  /\ AddressWallet.derivePublicKey Examples.keyThree = 2 :: repeat 1 31 ++ [2]
  (* scalar multiplication *)
  /\ Secp256k1.getPublicKey Examples.keyOne
     = Some (2 :: Secp256k1.numberToBytesBE 32 Secp256k1.Gx)
  /\ Secp256k1.getPublicKey Examples.keyThree
     = Some (2 :: Secp256k1.numberToBytesBE 32 Examples.threeGx)
  (* the wallet of the isolated path *)
  /\ (forall (L : BtcSigner) (net : Network) (d : list Z),
        exists w,
          CharmsWallet.fromPrivateKey d net = Ok w
          /\ AddressWallet.getPublicKey w = AddressWallet.derivePublicKey d
          /\ AddressWallet.getXOnlyPublicKey w = tl (AddressWallet.derivePublicKey d)
          /\ String.length (AddressWallet.getAddress w) = 58%nat)
  (* the key bundle of the HD path for the same private key *)
  /\ (forall (L : BtcSigner) (L39 : Bip39) (L32 : Bip32)
             (mnemonic : string) (net : Network) (index : Z) (keys : TaprootKeys),
        CharmsWallet.getAddressData mnemonic net index = Ok keys ->
        privateKey keys = Examples.keyOne \/ privateKey keys = Examples.keyThree ->
        Secp256k1.getPublicKey (privateKey keys) = Some (publicKey keys)
        /\ publicKey keys <> AddressWallet.derivePublicKey (privateKey keys)
        /\ xOnlyPubkey keys <> tl (AddressWallet.derivePublicKey (privateKey keys))
        /\ String.length (k_address keys) = 62%nat).
Proof.
  assert (H1 : Secp256k1.getPublicKey Examples.keyOne
               = Some (2 :: Secp256k1.numberToBytesBE 32 Secp256k1.Gx))
    by (vm_compute; reflexivity).
  assert (H3 : Secp256k1.getPublicKey Examples.keyThree
               = Some (2 :: Secp256k1.numberToBytesBE 32 Examples.threeGx))
    by (vm_compute; reflexivity).
  split; [reflexivity|].
  split; [reflexivity|].
  split; [exact H1|].
  split; [exact H3|].
  split.
  - intros L net d. eexists. split; [apply fromPrivateKey_Ok|].
    split; [reflexivity|]. split; [reflexivity|].
    apply mockAddress_length.
  - intros L L39 L32 mnemonic net index keys E Hd.
    apply getAddressData_Ok in E as (Hpub & Hx & Hl).
    split; [exact Hpub|].
    destruct Hd as [Hd | Hd]; rewrite Hd in Hpub |- *;
      [rewrite H1 in Hpub | rewrite H3 in Hpub];
      inversion Hpub as [Hp]; rewrite Hx, <- Hp;
      (split; [vm_compute; discriminate|]);
      (split; [vm_compute; discriminate | exact Hl]).
Qed.

(** The HD path does reach these private keys: with the example packages
    they are the keys of index 1 and 3. *)
Lemma hd_path_reaches_keys_one_and_three :
  (exists keys,
      CharmsWallet.getAddressData
        (H := Fixture.btcSigner) (H0 := Fixture.bip39) (H1 := Fixture.bip32)
        Fixture.mnemonic testnet 1 = Ok keys
      /\ privateKey keys = Examples.keyOne)
  /\ (exists keys,
        CharmsWallet.getAddressData
          (H := Fixture.btcSigner) (H0 := Fixture.bip39) (H1 := Fixture.bip32)
          Fixture.mnemonic testnet 3 = Ok keys
        /\ privateKey keys = Examples.keyThree).
Proof.
  split; eexists; (split; [vm_compute; reflexivity | reflexivity]).
Qed.

(** ** Output scripts read a prefix of the address *)

Section ScriptPrefix.

Import TransactionBuilder.

Lemma code_inj (c d : ascii) : Js.code c = Js.code d -> c = d.
Proof.
  unfold Js.code. intros H. apply N2Z.inj in H.
  rewrite <- (ascii_N_embedding c), <- (ascii_N_embedding d), H. reflexivity.
Qed.

(** The encoding of one character: itself below 128, otherwise two bytes
    of which the first is at least 128. *)
Lemma utf8_char_cases (c : ascii) :
  (Js.code c < 128 /\ Js.utf8_char c = [Js.code c])
  \/ (128 <= Js.code c /\
      exists h l, Js.utf8_char c = [h; l] /\ 128 <= h).
Proof.
  destruct c as [[] [] [] [] [] [] [] []];
    first [ left; split; [vm_compute; reflexivity | reflexivity]
          | right; split; [vm_compute; discriminate|];
            eexists; eexists; split; [reflexivity | vm_compute; discriminate] ].
Qed.

(** [startsWith] against an ASCII pattern is a test on the encoded bytes. *)
Lemma startsWith_utf8 (p s : string) :
  asciiOnly p ->
  Js.startsWith s p = bytesPrefix (Js.utf8 p) (Js.utf8 s).
Proof.
  unfold Js.startsWith, asciiOnly, Js.chars.
  revert s; induction p as [|c p IH]; intros s Hp.
  - destruct s; reflexivity.
  - simpl in Hp. inversion Hp as [|? ? Hc Hp']; subst.
    destruct (utf8_char_cases c) as [(_ & Ec) | (Hge & _)]; [|lia].
    cbn [Js.utf8]. rewrite Ec. cbn [app].
    destruct s as [|d s]; [reflexivity|].
    cbn [prefix Js.utf8 bytesPrefix].
    destruct (utf8_char_cases d) as [(Hd & Ed) | (Hd & h & l & Ed & Hh)];
      rewrite Ed; cbn [app bytesPrefix].
    + destruct (ascii_dec c d) as [-> | Hne].
      * rewrite Z.eqb_refl. apply IH; exact Hp'.
      * destruct (Z.eqb_spec (Js.code c) (Js.code d)) as [Heq | _];
          [elim Hne; apply code_inj; exact Heq | reflexivity].
    + destruct (ascii_dec c d) as [-> | Hne]; [lia|].
      destruct (Z.eqb_spec (Js.code c) h) as [Heq | _]; [lia | reflexivity].
Qed.

Lemma bytesPrefix_firstn (pre bs : list Z) (k : nat) :
  (List.length pre <= k)%nat ->
  bytesPrefix pre (firstn k bs) = bytesPrefix pre bs.
Proof.
  revert bs k; induction pre as [|x pre IH]; intros bs k Hk; [reflexivity|].
  simpl in Hk. destruct k as [|k]; [lia|].
  destruct bs as [|y bs]; [reflexivity|].
  cbn [firstn bytesPrefix]. rewrite IH by lia. reflexivity.
Qed.

Lemma asciiOnly_patterns :
  asciiOnly "bc1p" /\ asciiOnly "tb1p" /\ asciiOnly "bc1q" /\ asciiOnly "tb1q".
Proof. unfold asciiOnly; repeat split; repeat constructor. Qed.

Lemma isTaproot_bytes (a : string) (k : nat) :
  (4 <= k)%nat -> isTaproot a = taprootBytes (firstn k (Js.utf8 a)).
Proof.
  intros Hk. destruct asciiOnly_patterns as (H1 & H2 & _).
  unfold isTaproot, taprootBytes.
  rewrite !bytesPrefix_firstn by exact Hk.
  rewrite (startsWith_utf8 _ a H1), (startsWith_utf8 _ a H2). reflexivity.
Qed.

Lemma isSegwit_bytes (a : string) (k : nat) :
  (4 <= k)%nat -> isSegwit a = segwitBytes (firstn k (Js.utf8 a)).
Proof.
  intros Hk. destruct asciiOnly_patterns as (_ & _ & H1 & H2).
  unfold isSegwit, segwitBytes.
  rewrite !bytesPrefix_firstn by exact Hk.
  rewrite (startsWith_utf8 _ a H1), (startsWith_utf8 _ a H2). reflexivity.
Qed.

Lemma scriptPrefix_firstn (a : string) :
  exists k, (4 <= k)%nat /\ scriptPrefix a = firstn k (Js.utf8 a).
Proof.
  unfold scriptPrefix, Js.slice0.
  destruct (isTaproot a); [exists 32%nat | exists 20%nat]; split; auto; lia.
Qed.

(** Addresses with the same prefix take the same branch. *)
Lemma scriptPrefix_branch (a b : string) :
  scriptPrefix a = scriptPrefix b ->
  isTaproot a = isTaproot b /\ isSegwit a = isSegwit b.
Proof.
  intros H.
  destruct (scriptPrefix_firstn a) as (ka & Hka & Ea).
  destruct (scriptPrefix_firstn b) as (kb & Hkb & Eb).
  rewrite (isTaproot_bytes a ka Hka), (isTaproot_bytes b kb Hkb).
  rewrite (isSegwit_bytes a ka Hka), (isSegwit_bytes b kb Hkb).
  rewrite <- Ea, <- Eb, H. split; reflexivity.
Qed.

Lemma scriptPrefix_slices (a b : string) :
  scriptPrefix a = scriptPrefix b ->
  (isTaproot a = true -> Js.slice0 32 (Js.utf8 a) = Js.slice0 32 (Js.utf8 b))
  /\ (isTaproot a = false -> Js.slice0 20 (Js.utf8 a) = Js.slice0 20 (Js.utf8 b)).
Proof.
  intros H. pose proof (scriptPrefix_branch a b H) as (Ht & _).
  unfold scriptPrefix in H. rewrite <- Ht in H.
  split; intros E; rewrite E in H; exact H.
Qed.

Lemma utf8_empty (a : string) : Js.utf8 a = [] -> a = "".
Proof.
  destruct a as [|c a]; [reflexivity|]. cbn [Js.utf8].
  destruct (utf8_char_cases c) as [(_ & ->) | (_ & h & l & -> & _)]; discriminate.
Qed.

Lemma scriptPrefix_emptyb (a b : string) :
  scriptPrefix a = scriptPrefix b -> Js.emptyb a = Js.emptyb b.
Proof.
  assert (Hnil : forall s, scriptPrefix s = [] -> s = "").
  { intros s Hs. destruct (scriptPrefix_firstn s) as (k & Hk & E).
    rewrite E in Hs. apply utf8_empty.
    destruct (Js.utf8 s); [reflexivity|].
    destruct k; [lia | discriminate Hs]. }
  intros H. destruct a as [|c a], b as [|d b]; try reflexivity.
  - symmetry in H. apply Hnil in H. discriminate H.
  - apply Hnil in H. discriminate H.
Qed.

Context {L : BtcSigner}.

(** The script, when there is one, is a function of the prefix. *)
Lemma createScriptPubKey_prefix (a b : string) (net net' : Network) :
  scriptPrefix a = scriptPrefix b ->
  returned (createScriptPubKey a net) = returned (createScriptPubKey b net').
Proof.
  intros H. pose proof (scriptPrefix_branch a b H) as (Ht & Hs).
  pose proof (scriptPrefix_slices a b H) as (H32 & H20).
  unfold createScriptPubKey. rewrite <- Ht, <- Hs.
  destruct (isTaproot a).
  - rewrite <- (H32 eq_refl).
    destruct (p2tr _ NETWORK); reflexivity.
  - rewrite <- (H20 eq_refl).
    destruct (isSegwit a).
    + destruct (p2wpkhScript _); reflexivity.
    + destruct (p2pkhScript _); reflexivity.
Qed.

End ScriptPrefix.

Section SameScripts.

Import Constants TransactionBuilder.

Lemma returned_bind {A B} (m : result A) (k : A -> result B) :
  returned (bind m k)
  = match returned m with
    | Some a => returned (k a)
    | None => None
    end.
Proof. destruct m; reflexivity. Qed.

Lemma returned_rethrow {A} (what : string) (m : result A) :
  returned (rethrow what m) = returned m.
Proof.
  unfold rethrow, catch. destruct m as [a|e]; [reflexivity|].
  destruct (class e); reflexivity.
Qed.

Lemma returned_forEach {A A' B} (f : A -> result B) (g : A' -> result B)
      (l : list A) (l' : list A') :
  Forall2 (fun a a' => returned (f a) = returned (g a')) l l' ->
  returned (forEach f l) = returned (forEach g l').
Proof.
  induction 1 as [|a a' t t' Ha _ IH]; [reflexivity|].
  cbn [forEach].
  destruct (f a), (g a'); simpl in Ha; try discriminate; [|reflexivity].
  inversion Ha; subst.
  destruct (forEach f t), (forEach g t'); simpl in IH; try discriminate;
    [inversion IH; reflexivity | reflexivity].
Qed.

Lemma sameOutput_amounts (outs outs' : list Output) :
  Forall2 sameOutput outs outs' ->
  map o_amount outs = map o_amount outs'
  /\ List.length outs = List.length outs'.
Proof.
  induction 1 as [|o o' t t' (Ha & _) _ (IH1 & IH2)]; [split; reflexivity|].
  simpl. rewrite Ha, IH1, IH2. split; reflexivity.
Qed.

Lemma sameSimple_change (p p' : SimpleTxParams) :
  sameSimple p p' -> simpleChange p = simpleChange p'.
Proof.
  intros (Hu & Ho & _ & _ & Hf).
  apply sameOutput_amounts in Ho as (Hm & Hl).
  unfold simpleChange, simpleFee. cbv zeta.
  rewrite !totalInput_sum, !totalOutput_sum, Hu, Hm, Hl, Hf. reflexivity.
Qed.

Lemma sameSimple_validate (p p' : SimpleTxParams) :
  sameSimple p p' ->
  returned (validateSimpleParams p) = returned (validateSimpleParams p').
Proof.
  intros (Hu & Ho & Hc & _ & Hf).
  unfold validateSimpleParams. cbv zeta. rewrite <- Hu, <- Hf.
  destruct (s_utxos p) as [|u us]; [reflexivity|].
  cbv beta iota. rewrite !returned_bind.
  destruct (returned (forEach _ (u :: us))); [|reflexivity].
  assert (Hv : returned (forEach validateOutput (s_outputs p))
               = returned (forEach validateOutput (s_outputs p'))).
  { apply returned_forEach. eapply Forall2_impl; [|exact Ho].
    intros o o' (Ha & Hp). unfold validateOutput.
    rewrite <- Ha, <- (scriptPrefix_emptyb _ _ Hp). reflexivity. }
  destruct Ho as [|o o' t t' _ _]; [reflexivity|].
  cbv beta iota. rewrite !returned_bind, Hv.
  destruct (returned (forEach validateOutput (o' :: t'))); [|reflexivity].
  rewrite <- (scriptPrefix_emptyb _ _ Hc). reflexivity.
Qed.

Context {L : BtcSigner}.

(** The output that is added, when one is, is a function of the prefix. *)
Lemma payment_prefix (a b : string) (net net' : Network) (v : Z) :
  scriptPrefix a = scriptPrefix b ->
  returned (payment net a v) = returned (payment net' b v).
Proof.
  intros Hp. unfold payment. rewrite !returned_bind.
  rewrite (createScriptPubKey_prefix _ _ net net' Hp). reflexivity.
Qed.

Lemma sameOutput_outputOf (net : Network) (outs outs' : list Output) :
  Forall2 sameOutput outs outs' ->
  returned (forEach (outputOf net) outs) = returned (forEach (outputOf net) outs').
Proof.
  intros Ho. apply returned_forEach. eapply Forall2_impl; [|exact Ho].
  intros o o' (Ha & Hp). unfold outputOf.
  rewrite Ha. apply payment_prefix; exact Hp.
Qed.

(** Simple payments that differ in addresses sharing their prefix yield
    the same PSBT. *)
Lemma createSimpleTransaction_same (self : TransactionBuilder.t)
      (p p' : SimpleTxParams) :
  sameSimple p p' ->
  returned (createSimpleTransaction self p)
  = returned (createSimpleTransaction self p').
Proof.
  intros H.
  pose proof (sameSimple_validate _ _ H) as Hv.
  pose proof (sameSimple_change _ _ H) as Hch.
  destruct H as (Hu & Ho & Hc & Hn & Hf).
  unfold createSimpleTransaction. rewrite !returned_rethrow. cbv zeta.
  rewrite !returned_bind, Hv, <- Hn, <- Hu, <- Hch.
  fold (simpleNetwork self p).
  destruct (returned (validateSimpleParams p')); [|reflexivity].
  cbv beta. rewrite ?returned_bind.
  destruct (returned (getNetworkConfig _)); [|reflexivity].
  cbv beta. rewrite ?returned_bind.
  destruct (returned (forEach (inputOf _) (s_utxos p))); [|reflexivity].
  cbv beta. rewrite ?returned_bind, (sameOutput_outputOf _ _ _ Ho).
  destruct (returned (forEach (outputOf _) (s_outputs p'))); [|reflexivity].
  cbv beta. destruct (simpleChange p >? DUST_THRESHOLD); [|reflexivity].
  rewrite ?returned_bind.
  rewrite (payment_prefix
             _ _ (simpleNetwork self p) (simpleNetwork self p) _ Hc).
  reflexivity.
Qed.

(** The same for mining transactions and their change address. *)
Lemma createMiningTransaction_same (self : TransactionBuilder.t)
      (p p' : MiningTxParams) :
  sameMining p p' ->
  returned (createMiningTransaction self p)
  = returned (createMiningTransaction self p').
Proof.
  intros (Hu & Hd & Hc & Hn & Hf).
  assert (Hv : returned (validateMiningParams p) = returned (validateMiningParams p')).
  { unfold validateMiningParams. cbv zeta.
    rewrite <- Hu, <- Hd, <- Hf, <- (scriptPrefix_emptyb _ _ Hc). reflexivity. }
  assert (Hch : miningChange p = miningChange p').
  { unfold miningChange, miningFee. rewrite Hu, Hf. reflexivity. }
  unfold createMiningTransaction. rewrite !returned_rethrow. cbv zeta.
  rewrite !returned_bind, Hv, <- Hn, <- Hu, <- Hd, <- Hch.
  fold (miningNetwork self p).
  destruct (returned (validateMiningParams p')); [|reflexivity].
  cbv beta. rewrite ?returned_bind.
  destruct (returned (getNetworkConfig _)); [|reflexivity].
  cbv beta. rewrite ?returned_bind.
  destruct (returned (inputOf _ (m_utxo p))); [|reflexivity].
  cbv beta. rewrite ?returned_bind.
  destruct (returned (createMiningOpReturn _)); [|reflexivity].
  cbv beta. rewrite ?returned_bind.
  destruct (returned (fromPackage _ _)); [|reflexivity].
  cbv beta. destruct (miningChange p <? DUST_THRESHOLD); [reflexivity|].
  rewrite ?returned_bind.
  rewrite (payment_prefix
             _ _ (miningNetwork self p) (miningNetwork self p) _ Hc).
  reflexivity.
Qed.

Lemma sameOutput_refl (outs : list Output) : Forall2 sameOutput outs outs.
Proof. induction outs; constructor; [split; reflexivity | assumption]. Qed.

(** C10.  The script [createScriptPubKey] builds for an address is a
    function of [scriptPrefix]: the first 32 bytes of the UTF-8 encoding
    for an address that starts with [bc1p] or [tb1p], the first 20
    otherwise.  Two addresses with the same prefix get the same script, and
    both builders return the same PSBT whichever of the two is used as
    change address or as the address of a payment. *)
Theorem output_scripts_depend_on_prefix_only (a b : string) :
  scriptPrefix a = scriptPrefix b ->
  (forall net net',
      returned (createScriptPubKey a net) = returned (createScriptPubKey b net'))
  /\ (forall self p,
        returned (createSimpleTransaction self (withChange p a))
        = returned (createSimpleTransaction self (withChange p b)))
  /\ (forall self p,
        returned (createSimpleTransaction self (payTo p a))
        = returned (createSimpleTransaction self (payTo p b)))
  /\ (forall self p,
        returned (createMiningTransaction self (withMiningChange p a))
        = returned (createMiningTransaction self (withMiningChange p b))).
Proof.
  intros H. split; [intros net net'; apply createScriptPubKey_prefix; exact H|].
  split; [| split].
  - intros self p. apply createSimpleTransaction_same.
    unfold sameSimple, withChange; simpl.
    repeat split; try reflexivity; [apply sameOutput_refl | exact H].
  - intros self p. apply createSimpleTransaction_same.
    unfold sameSimple, payTo; simpl.
    repeat split; try reflexivity.
    destruct (s_outputs p) as [|o rest]; constructor;
      [split; [reflexivity | exact H] | apply sameOutput_refl].
  - intros self p. apply createMiningTransaction_same.
    unfold sameMining, withMiningChange; simpl.
    repeat split; try reflexivity. exact H.
Qed.

End SameScripts.

(** [Fixture.addressA] and [Fixture.addressA'] differ from their 33rd
    character on; both get the script of their common first 32 bytes, and
    the README's simple payment is the same PSBT with either as change
    address. *)
Lemma output_scripts_depend_on_prefix_only_witness :
  Fixture.addressA <> Fixture.addressA'
  /\ scriptPrefix Fixture.addressA = scriptPrefix Fixture.addressA'
  /\ returned (TransactionBuilder.createScriptPubKey
                 (H := Fixture.btcSigner) Fixture.addressA testnet)
     = returned (TransactionBuilder.createScriptPubKey
                   (H := Fixture.btcSigner) Fixture.addressA' testnet)
  /\ isOk (TransactionBuilder.createScriptPubKey
             (H := Fixture.btcSigner) Fixture.addressA testnet) = true
  /\ returned (TransactionBuilder.createSimpleTransaction
                 (H := Fixture.btcSigner) Fixture.builder
                 (withChange Examples.simple Fixture.addressA))
     = returned (TransactionBuilder.createSimpleTransaction
                   (H := Fixture.btcSigner) Fixture.builder
                   (withChange Examples.simple Fixture.addressA')).
Proof.
  assert (Hp : scriptPrefix Fixture.addressA = scriptPrefix Fixture.addressA')
    by (vm_compute; reflexivity).
  destruct (@output_scripts_depend_on_prefix_only
              Fixture.btcSigner Fixture.addressA Fixture.addressA' Hp)
    as (Hscript & Hchange & _ & _).
  split; [discriminate|].
  split; [exact Hp|].
  split; [apply Hscript|].
  split; [vm_compute; reflexivity|].
  apply Hchange.
Defined.

(** ** The examples, run *)

(** The first 32 bytes of the example addresses are x coordinates of curve
    points: [btc.p2tr] has a script for them. *)
Example example_addresses_have_scripts :
  forallb (fun a => Secp256k1.isXCoordinate
                      (Secp256k1.bytesToNumberBE (Js.padded 32 (scriptPrefix a))))
          [Fixture.addressA; Fixture.addressB; Fixture.addressA']
  = true.
Proof. vm_compute; reflexivity. Qed.

(** [Examples.walletA] is what the constructor returns. *)
Example walletA_is_constructed :
  AddressWallet.new (H := Fixture.btcSigner) Examples.keyOne testnet
                    (Some Fixture.addressA)
  = Ok Examples.walletA.
Proof. reflexivity. Qed.

(** The PSBT of the README payment, as the builder returns it, is not
    signed: its input carries the script made of the text of the address
    and names no key. *)
Example builder_psbt_is_not_signed :
  map tapInternalKey (inputs Examples.simpleTx) = [None]
  /\ success (AddressWallet.signPSBT
                (H := Fixture.btcSigner) Examples.walletA Examples.simpleTx
                (Examples.utxoA 100000)) = false
  /\ success (AddressWallet.signPSBT
                (H := Fixture.btcSigner) Examples.walletA Examples.preparedTx
                (Examples.utxoA 100000)) = true.
Proof. split; [|split]; vm_compute; reflexivity. Qed.

(** One satoshi above the threshold the change is paid out. *)
Example change_of_547_is_paid :
  TransactionBuilder.simpleChange Examples.change547 = 547
  /\ exists tx,
      TransactionBuilder.createSimpleTransaction
        (H := Fixture.btcSigner) Fixture.builder Examples.change547 = Ok tx
      /\ map t_amount (outputs tx) = [546; 547].
Proof. split; [reflexivity|]. eexists; split; vm_compute; reflexivity. Qed.

(** The README's mining transaction is not built.  Its payload has 20
    bytes (16 of the hash, 4 of the nonce); the script made for it starts
    with [01 6a], the byte [6a] pushed as data, and is of no known type, so
    adding the output throws. *)
Example mining_example_is_refused :
  (exists data,
      TransactionBuilder.createMiningOpReturn (m_miningData Examples.mining)
      = Ok data
      /\ firstn 3 (opReturnScript data) = [0x01; 0x6a; 20]
      /\ addOutput (H := Fixture.btcSigner) (opReturnScript data) 0 = None)
  /\ thrownClass (TransactionBuilder.createMiningTransaction
                    (H := Fixture.btcSigner) Fixture.builder Examples.mining)
     = Some TransactionError.
Proof.
  split; [eexists; split; [vm_compute; reflexivity|] |];
    [split|]; vm_compute; reflexivity.
Qed.

Lemma simple_validation_rejects_witness :
  thrownClass (TransactionBuilder.createSimpleTransaction
                 (H := Fixture.btcSigner) Fixture.builder Examples.highRate)
  = Some ValidationError
  /\ thrownClass (TransactionBuilder.createSimpleTransaction
                    (H := Fixture.btcSigner) Fixture.builder Examples.dustOutput)
     = Some ValidationError.
Proof.
  split.
  - apply (@simple_validation_rejects Fixture.btcSigner).
    left. exists 1001. repeat split; [discriminate | right; reflexivity].
  - apply (@simple_validation_rejects Fixture.btcSigner).
    right. exists (mkOutput Fixture.addressB 545).
    split; [left; reflexivity | reflexivity].
Defined.

Lemma mining_validation_rejects_witness :
  thrownClass (TransactionBuilder.createMiningTransaction
                 (H := Fixture.btcSigner) Fixture.builder Examples.negativeNonce)
  = Some ValidationError.
Proof.
  apply (@mining_validation_rejects Fixture.btcSigner).
  right; right; left. reflexivity.
Defined.

Lemma isolated_address_differs_witness :
  CharmsWallet.getAddressData
    (H := Fixture.btcSigner) (H0 := Fixture.bip39) (H1 := Fixture.bip32)
    Fixture.mnemonic testnet 1 = Ok Examples.hdKeys
  /\ CharmsWallet.fromPrivateKey (H := Fixture.btcSigner)
                                 (privateKey Examples.hdKeys) testnet
     = Ok Examples.isolated
  /\ AddressWallet.getAddress Examples.isolated <> k_address Examples.hdKeys.
Proof.
  assert (Hk : CharmsWallet.getAddressData
                 (H := Fixture.btcSigner) (H0 := Fixture.bip39) (H1 := Fixture.bip32)
                 Fixture.mnemonic testnet 1 = Ok Examples.hdKeys)
    by (vm_compute; reflexivity).
  assert (Hw : CharmsWallet.fromPrivateKey (H := Fixture.btcSigner)
                                           (privateKey Examples.hdKeys) testnet
               = Ok Examples.isolated)
    by (vm_compute; reflexivity).
  split; [exact Hk|]. split; [exact Hw|].
  exact (@isolated_address_differs
           Fixture.btcSigner Fixture.bip39 Fixture.bip32
           Fixture.mnemonic testnet 1 Examples.hdKeys Examples.isolated Hk Hw).
Defined.

(** ** What the isolated signer's public key gives away *)

Lemma map_nth_seq (d : list Z) :
  map (fun i => nth i d 0) (seq 0 (List.length d)) = d.
Proof.
  induction d as [|a d IH]; [reflexivity|].
  cbn [List.length seq map nth]. f_equal.
  rewrite <- seq_shift, map_map. exact IH.
Qed.

(** X5.  The bytes after the prefix of [derivePublicKey d], each xor 1 again,
    are the private key itself. *)
Lemma derivePublicKey_reveals_private_key (d : list Z) :
  List.length d = 32%nat ->
  map (fun b => Z.lxor b 1) (tl (AddressWallet.derivePublicKey d)) = d.
Proof.
  intros Hlen. unfold AddressWallet.derivePublicKey. cbn [tl].
  rewrite map_map.
  transitivity (map (fun i => nth i d 0) (seq 0 32)).
  - apply map_ext. intros i.
    rewrite Z.lxor_assoc, Z.lxor_nilpotent, Z.lxor_0_r. reflexivity.
  - rewrite <- Hlen. apply map_nth_seq.
Qed.

Lemma derivePublicKey_reveals_private_key_witness :
  List.length Examples.keyThree = 32%nat
  /\ map (fun b => Z.lxor b 1)
         (tl (AddressWallet.derivePublicKey Examples.keyThree))
     = Examples.keyThree.
Proof.
  split; [reflexivity|].
  apply derivePublicKey_reveals_private_key. reflexivity.
Defined.

(* ================================================================== *)
(** * Further properties of the builder, the signers and the wallet *)
(* ================================================================== *)

(** Arithmetic with divisions by constants. *)
Ltac div_lia := Z.to_euclidean_division_equations; lia.

(** ** Strings and loops *)

Lemma chars_app (a b : string) : Js.chars (a ++ b) = Js.chars a ++ Js.chars b.
Proof.
  unfold Js.chars. induction a as [|c a IH]; simpl; [reflexivity | rewrite IH; reflexivity].
Qed.

Lemma chars_length (s : string) : List.length (Js.chars s) = String.length s.
Proof.
  unfold Js.chars. induction s as [|c s IH]; simpl; [reflexivity | rewrite IH; reflexivity].
Qed.

Lemma string_of_list_length (l : list ascii) :
  String.length (string_of_list_ascii l) = List.length l.
Proof. induction l as [|c l IH]; simpl; [reflexivity | rewrite IH; reflexivity]. Qed.

Lemma substring_length (k : nat) (s : string) :
  String.length (substring 0 k s) = Nat.min k (String.length s).
Proof.
  revert s; induction k as [|k IH]; intros s; destruct s as [|c s]; simpl;
    try reflexivity.
  rewrite IH; reflexivity.
Qed.

Lemma map_constant {A B} (f : A -> B) (c : B) (l : list A) :
  (forall x, In x l -> f x = c) -> map f l = repeat c (List.length l).
Proof.
  induction l as [|a l IH]; intros H; simpl; [reflexivity|].
  rewrite (H a (or_introl eq_refl)), IH; [reflexivity|].
  intros x Hx; apply H; right; exact Hx.
Qed.

(** A loop that went through pairs every element with what it built. *)
Lemma forEach_Forall2 {A B} (f : A -> result B) (l : list A) (bs : list B) :
  forEach f l = Ok bs -> Forall2 (fun a b => f a = Ok b) l bs.
Proof.
  revert bs; induction l as [|a l IH]; intros bs E; simpl in E.
  - inversion E; constructor.
  - destruct (f a) as [b|e] eqn:Ea; [|discriminate].
    destruct (forEach f l) as [bs'|e]; [|discriminate].
    inversion E; subst. constructor; auto.
Qed.

(** ** What the builder returns and what it throws *)

Section BuilderBehaviour.

Import Constants TransactionBuilder.

Context {L : BtcSigner}.

(** X6.  Whatever goes wrong inside [createSimpleTransaction] or
    [createMiningTransaction], the caller sees a [ValidationError] or a
    [TransactionError]: every other exception is wrapped by the [catch]
    clause of the method. *)
Theorem builder_throws_validation_or_transaction_errors
        (self : TransactionBuilder.t) (e : Exception) :
  (exists p, createSimpleTransaction self p = Throw e)
  \/ (exists p, createMiningTransaction self p = Throw e) ->
  class e = ValidationError \/ class e = TransactionError.
Proof.
  intros [(p & E) | (p & E)]; apply rethrow_classes in E; tauto.
Qed.

(** The input the builder makes of a UTXO. *)
Lemma inputOf_Ok (net : Network) (u : UTXO) (i : TxInput) :
  inputOf net u = Ok i ->
  exists d s,
    Js.hexDecode (txid u) = Some d
    /\ createScriptPubKey (address u) net = Ok s
    /\ i = mkTxInput (rev d) (vout u) (Some (mkWitnessUtxo s (amount u))) None.
Proof.
  unfold inputOf; intros E.
  apply bind_Ok in E as (d & Ed & E). apply fromPackage_Ok in Ed.
  apply bind_Ok in E as (s & Es & E). inversion E; subst.
  exists d, s; auto.
Qed.

Lemma inputOf_bad_txid (net : Network) (u : UTXO) :
  Js.hexDecode (txid u) = None ->
  exists msg, inputOf net u = Throw (mkException JsError msg).
Proof. unfold inputOf; intros ->; simpl; eauto. Qed.

(** X7.  The validation of a request only asks for a txid that is not
    empty.  A txid that [hex.decode] cannot read therefore passes
    validation and fails when the input is added: the error is a
    [TransactionError], for a mining request and for a simple payment whose
    first UTXO carries it. *)
Theorem txid_that_is_not_hexadecimal_fails_the_build (self : TransactionBuilder.t) :
  (forall p,
      validateMiningParams p = Ok tt ->
      Js.hexDecode (txid (m_utxo p)) = None ->
      thrownClass (createMiningTransaction self p) = Some TransactionError)
  /\ (forall p u rest,
        validateSimpleParams p = Ok tt ->
        s_utxos p = u :: rest ->
        Js.hexDecode (txid u) = None ->
        thrownClass (createSimpleTransaction self p) = Some TransactionError).
Proof.
  split.
  - intros p Hv Hh. unfold createMiningTransaction. cbv zeta. rewrite Hv. cbn [bind].
    destruct (getNetworkConfig_total
                (match m_network p with Some n => n | None => network self end))
      as (c & ->). cbn [bind].
    destruct (inputOf_bad_txid
                (match m_network p with Some n => n | None => network self end)
                (m_utxo p) Hh) as (msg & ->). cbn [bind].
    rewrite (rethrow_Throw _ _ _ eq_refl). reflexivity.
  - intros p u rest Hv Hu Hh. unfold createSimpleTransaction. cbv zeta.
    rewrite Hv. cbn [bind].
    destruct (getNetworkConfig_total
                (match s_network p with Some n => n | None => network self end))
      as (c & ->). cbn [bind]. rewrite Hu. cbn [forEach].
    destruct (inputOf_bad_txid
                (match s_network p with Some n => n | None => network self end)
                u Hh) as (msg & ->). cbn [bind].
    rewrite (rethrow_Throw _ _ _ eq_refl). reflexivity.
Qed.

Lemma opReturnScript_bytes (data : list Z) :
  opReturnScript data = 0x01 :: 0x6a :: pushData data.
Proof.
  unfold opReturnScript, scriptEncode. cbn [flat_map encodeItem].
  rewrite app_nil_r.
  change (pushData (scriptNum OP_RETURN)) with [0x01; 0x6a]. reflexivity.
Qed.

(** X8.  No mining transaction is built.  [createMiningTransaction]
    makes the script of its OP_RETURN output with
    [Script.encode([OP.RETURN, data])], and [OP.RETURN] is the number 106:
    the script pushes the byte [6a] as data and then the payload, it does
    not start with the opcode.  With a package that knows no output type
    for such a script, [addOutput] refuses it and every call throws.  A
    request that passes validation, has a readable txid, an address with a
    script and a payload that decodes, and would leave any amount of
    change, gets a [TransactionError] whose message starts with
    [Failed to create mining transaction: ]. *)
Theorem mining_transaction_is_never_built :
  (forall data, knownOutputScript (opReturnScript data) = false) ->
  forall (self : TransactionBuilder.t) (p : MiningTxParams),
    (forall data, opReturnScript data = 0x01 :: 0x6a :: pushData data)
    /\ (forall tx, createMiningTransaction self p <> Ok tx)
    /\ (thrownClass (createMiningTransaction self p) = Some TransactionError
        \/ thrownClass (createMiningTransaction self p) = Some ValidationError)
    /\ (forall input data,
          validateMiningParams p = Ok tt ->
          inputOf (miningNetwork self p) (m_utxo p) = Ok input ->
          createMiningOpReturn (m_miningData p) = Ok data ->
          exists msg,
            createMiningTransaction self p
            = throw TransactionError
                    ("Failed to create mining transaction: " ++ msg)%string).
Proof.
  intros Hunknown self p.
  assert (Hno : forall tx, createMiningTransaction self p <> Ok tx).
  { intros tx E. unfold createMiningTransaction in E.
    apply rethrow_Ok in E. cbv zeta in E.
    apply bind_Ok in E as ([] & _ & E).
    apply bind_Ok in E as (c & _ & E).
    apply bind_Ok in E as (input & _ & E).
    apply bind_Ok in E as (data & _ & E).
    apply bind_Ok in E as (opReturn & Eo & _).
    apply fromPackage_Ok, addOutput_Some in Eo as (Hk & _).
    rewrite Hunknown in Hk. discriminate Hk. }
  split; [intros data; apply opReturnScript_bytes|]. split; [exact Hno|]. split.
  - destruct (createMiningTransaction self p) as [tx|e] eqn:E.
    + elim (Hno tx); reflexivity.
    + unfold createMiningTransaction in E.
      apply rethrow_classes in E as [C | C]; simpl; rewrite C; auto.
  - intros input data Hv Ei Ed.
    unfold createMiningTransaction. cbv zeta. rewrite Hv. cbn [bind].
    fold (miningNetwork self p).
    destruct (getNetworkConfig_total (miningNetwork self p)) as (c & ->).
    cbn [bind]. rewrite Ei. cbn [bind]. rewrite Ed. cbn [bind].
    unfold addOutput. rewrite Hunknown. cbn [fromPackage bind].
    eexists; reflexivity.
Qed.

(** X9.  A simple payment that was built has one input per UTXO, and its
    inputs add up to the UTXOs of the request.  What it pays in fees
    (inputs minus outputs) is never below the estimated fee and never more
    than 546 satoshis above it: it is the estimate when a change output was
    added, and the estimate plus the dropped change otherwise. *)
Theorem simple_transaction_fee_bounds
        (self : TransactionBuilder.t) (p : SimpleTxParams) (tx : Transaction) :
  createSimpleTransaction self p = Ok tx ->
  List.length (inputs tx) = List.length (s_utxos p)
  /\ sumInputs tx = totalInput (s_utxos p)
  /\ 0 <= simpleFee p
  /\ simpleFee p <= sumInputs tx - sumOutputs tx <= simpleFee p + DUST_THRESHOLD
  /\ (DUST_THRESHOLD < simpleChange p ->
      sumInputs tx - sumOutputs tx = simpleFee p)
  /\ (simpleChange p <= DUST_THRESHOLD ->
      sumInputs tx - sumOutputs tx = simpleFee p + simpleChange p).
Proof.
  intros E.
  pose proof (simple_amounts _ _ _ E) as (Hin & Hout).
  pose proof (createSimpleTransaction_Ok _ _ _ E) as (Hv & _).
  pose proof (simpleFee_nonneg _ Hv) as Hnn.
  assert (Hlen : List.length (inputs tx) = List.length (s_utxos p)).
  { rewrite <- (length_map inputAmount), Hin, length_map. reflexivity. }
  assert (Hsum : sumInputs tx = totalInput (s_utxos p)).
  { unfold sumInputs. rewrite Hin, totalInput_sum. reflexivity. }
  assert (Hc : simpleChange p
               = sumInputs tx - sumZ (map o_amount (s_outputs p)) - simpleFee p).
  { unfold simpleChange. rewrite Hsum, totalOutput_sum. reflexivity. }
  unfold sumOutputs. unfold DUST_THRESHOLD in *.
  destruct Hout as [(Hgt & ->) | (Hle & ->)].
  - rewrite sumZ_app, sumZ_cons. change (sumZ []) with 0.
    repeat split; auto; lia.
  - repeat split; auto; lia.
Qed.

(** X10.  A simple payment that was built follows the request in order:
    the i-th input spends the i-th UTXO (txid bytes reversed, index, amount
    and the script made of its address), and the i-th output pays the
    amount of the i-th requested output to the script made of its address.
    A change output, when there is one, comes after them. *)
Theorem simple_transaction_follows_the_request
        (self : TransactionBuilder.t) (p : SimpleTxParams) (tx : Transaction) :
  createSimpleTransaction self p = Ok tx ->
  Forall2 (fun u i =>
             Js.hexDecode (txid u) = Some (rev (i_txid i))
             /\ i_index i = vout u
             /\ exists s,
                 createScriptPubKey (address u) (simpleNetwork self p) = Ok s
                 /\ witnessUtxo i = Some (mkWitnessUtxo s (amount u)))
          (s_utxos p) (inputs tx)
  /\ Forall2 (fun o t =>
                createScriptPubKey (o_address o) (simpleNetwork self p)
                = Ok (script t)
                /\ t_amount t = o_amount o)
             (s_outputs p) (firstn (List.length (s_outputs p)) (outputs tx)).
Proof.
  intros E. apply createSimpleTransaction_Ok in E
    as (_ & ins & outs & Ei & Eo & Hcases).
  pose proof (forEach_length _ _ _ Eo) as Hlen.
  apply forEach_Forall2 in Ei. apply forEach_Forall2 in Eo.
  assert (Hins : Forall2 (fun u i =>
             Js.hexDecode (txid u) = Some (rev (i_txid i))
             /\ i_index i = vout u
             /\ exists s,
                 createScriptPubKey (address u) (simpleNetwork self p) = Ok s
                 /\ witnessUtxo i = Some (mkWitnessUtxo s (amount u)))
          (s_utxos p) ins).
  { eapply Forall2_impl; [|exact Ei]. intros u i Hi.
    apply inputOf_Ok in Hi as (d & s & Hd & Hs & ->). simpl.
    rewrite rev_involutive. repeat split; auto. exists s; auto. }
  assert (Houts : Forall2 (fun o t =>
                createScriptPubKey (o_address o) (simpleNetwork self p)
                = Ok (script t)
                /\ t_amount t = o_amount o)
             (s_outputs p) outs).
  { eapply Forall2_impl; [|exact Eo]. intros o t Ho.
    unfold outputOf in Ho. apply payment_Ok in Ho as (s & Hs & _ & ->).
    simpl. auto. }
  destruct Hcases as [(_ & cs & _ & ->) | (_ & ->)]; simpl; split; auto.
  - rewrite <- Hlen, firstn_app, Nat.sub_diag, firstn_all. simpl.
    rewrite app_nil_r. exact Houts.
  - rewrite <- Hlen, firstn_all. exact Houts.
Qed.

(** X11.  The builder does not read the network.  The same request gives
    the same result (the same PSBT or the same exception) on any builder
    and for any value of its [network] field: [createScriptPubKey] ignores
    its [_network] argument and [btc.p2tr] is called without one. *)
Theorem builder_does_not_read_the_network
        (self self' : TransactionBuilder.t) (n n' : option Network) :
  (forall p, createSimpleTransaction self (onNetwork p n)
             = createSimpleTransaction self' (onNetwork p n'))
  /\ (forall p, createMiningTransaction self (miningOnNetwork p n)
                = createMiningTransaction self' (miningOnNetwork p n')).
Proof.
  split; intros p.
  - unfold createSimpleTransaction. cbv zeta. f_equal.
    change (validateSimpleParams (onNetwork p n)) with (validateSimpleParams p).
    change (validateSimpleParams (onNetwork p n')) with (validateSimpleParams p).
    destruct (validateSimpleParams p); [|reflexivity]. cbn [bind].
    simpl s_network.
    destruct (getNetworkConfig_total
                (match n with Some n0 => n0 | None => network self end)) as (c & ->).
    destruct (getNetworkConfig_total
                (match n' with Some n0 => n0 | None => network self' end)) as (c' & ->).
    reflexivity.
  - unfold createMiningTransaction. cbv zeta. f_equal.
    change (validateMiningParams (miningOnNetwork p n)) with (validateMiningParams p).
    change (validateMiningParams (miningOnNetwork p n')) with (validateMiningParams p).
    destruct (validateMiningParams p); [|reflexivity]. cbn [bind].
    simpl m_network.
    destruct (getNetworkConfig_total
                (match n with Some n0 => n0 | None => network self end)) as (c & ->).
    destruct (getNetworkConfig_total
                (match n' with Some n0 => n0 | None => network self' end)) as (c' & ->).
    reflexivity.
Qed.

End BuilderBehaviour.

(** A request the builder refuses, and the class of what it throws. *)
Lemma builder_throws_validation_or_transaction_errors_witness :
  exists e,
    TransactionBuilder.createSimpleTransaction
      (H := Fixture.btcSigner) Fixture.builder Examples.insufficient = Throw e
    /\ (class e = ValidationError \/ class e = TransactionError).
Proof.
  eexists. split; [vm_compute; reflexivity|].
  apply (@builder_throws_validation_or_transaction_errors
           Fixture.btcSigner Fixture.builder).
  left. exists Examples.insufficient. vm_compute; reflexivity.
Defined.

(** The two README requests with the txid [not-a-txid]. *)
Lemma txid_that_is_not_hexadecimal_fails_the_build_witness :
  TransactionBuilder.validateMiningParams Examples.badTxidMining = Ok tt
  /\ Js.hexDecode (txid (m_utxo Examples.badTxidMining)) = None
  /\ thrownClass (TransactionBuilder.createMiningTransaction
                    (H := Fixture.btcSigner) Fixture.builder Examples.badTxidMining)
     = Some TransactionError
  /\ TransactionBuilder.validateSimpleParams Examples.badTxidSimple = Ok tt
  /\ thrownClass (TransactionBuilder.createSimpleTransaction
                    (H := Fixture.btcSigner) Fixture.builder Examples.badTxidSimple)
     = Some TransactionError.
Proof.
  split; [vm_compute; reflexivity|]. split; [vm_compute; reflexivity|].
  split.
  - apply (proj1 (@txid_that_is_not_hexadecimal_fails_the_build
                    Fixture.btcSigner Fixture.builder));
      vm_compute; reflexivity.
  - split; [vm_compute; reflexivity|].
    eapply (proj2 (@txid_that_is_not_hexadecimal_fails_the_build
                     Fixture.btcSigner Fixture.builder));
      [vm_compute; reflexivity | reflexivity | vm_compute; reflexivity].
Defined.

(** The mining example of the README: the request passes validation and
    would leave 98470 satoshis of change; the build throws. *)
Lemma mining_transaction_is_never_built_witness :
  (forall data,
      knownOutputScript (BtcSigner := Fixture.btcSigner) (opReturnScript data)
      = false)
  /\ TransactionBuilder.validateMiningParams Examples.mining = Ok tt
  /\ TransactionBuilder.miningChange Examples.mining = 98470
  /\ (forall tx,
        TransactionBuilder.createMiningTransaction
          (H := Fixture.btcSigner) Fixture.builder Examples.mining <> Ok tx)
  /\ thrownClass (TransactionBuilder.createMiningTransaction
                    (H := Fixture.btcSigner) Fixture.builder Examples.mining)
     = Some TransactionError.
Proof.
  assert (Hunknown :
            forall data,
              knownOutputScript (BtcSigner := Fixture.btcSigner)
                                (opReturnScript data) = false)
    by (intros data; reflexivity).
  split; [exact Hunknown|].
  split; [vm_compute; reflexivity|]. split; [vm_compute; reflexivity|].
  destruct (@mining_transaction_is_never_built
              Fixture.btcSigner Hunknown Fixture.builder Examples.mining)
    as (_ & Hno & _ & _).
  split; [exact Hno | vm_compute; reflexivity].
Defined.

(** The simple example of the README: the change of 48470 satoshis is
    paid out, and the fee is the estimated 1530. *)
Lemma simple_transaction_fee_bounds_witness :
  TransactionBuilder.createSimpleTransaction
    (H := Fixture.btcSigner) Fixture.builder Examples.simple = Ok Examples.simpleTx
  /\ sumInputs Examples.simpleTx = 100000
  /\ Constants.DUST_THRESHOLD < TransactionBuilder.simpleChange Examples.simple
  /\ sumInputs Examples.simpleTx - sumOutputs Examples.simpleTx = 1530.
Proof.
  assert (E : TransactionBuilder.createSimpleTransaction
                (H := Fixture.btcSigner) Fixture.builder Examples.simple
              = Ok Examples.simpleTx) by (vm_compute; reflexivity).
  assert (Hc : Constants.DUST_THRESHOLD < TransactionBuilder.simpleChange Examples.simple)
    by (vm_compute; reflexivity).
  split; [exact E|].
  destruct (@simple_transaction_fee_bounds
              Fixture.btcSigner Fixture.builder Examples.simple Examples.simpleTx E)
    as (_ & Hsum & _ & _ & Hgt & _).
  split; [exact Hsum|]. split; [exact Hc | exact (Hgt Hc)].
Defined.

Lemma simple_transaction_follows_the_request_witness :
  TransactionBuilder.createSimpleTransaction
    (H := Fixture.btcSigner) Fixture.builder Examples.simple = Ok Examples.simpleTx
  /\ Forall2 (fun o t =>
                TransactionBuilder.createScriptPubKey
                  (H := Fixture.btcSigner) (o_address o) testnet
                = Ok (script t)
                /\ t_amount t = o_amount o)
             [mkOutput Fixture.addressB 50000]
             (firstn 1 (outputs Examples.simpleTx)).
Proof.
  assert (E : TransactionBuilder.createSimpleTransaction
                (H := Fixture.btcSigner) Fixture.builder Examples.simple
              = Ok Examples.simpleTx) by (vm_compute; reflexivity).
  split; [exact E|].
  exact (proj2 (@simple_transaction_follows_the_request
                  Fixture.btcSigner Fixture.builder Examples.simple
                  Examples.simpleTx E)).
Defined.

(** ** The outputs of a simple payment *)

Section BuiltTransactions.

Import Constants TransactionBuilder.

Context {L : BtcSigner}.

(** X12.  A simple payment that was built has at least one input and at
    least one output; it has as many outputs as the request, or one more
    (the change); and none of its outputs is dust: each carries at least
    546 satoshis. *)
Theorem simple_transaction_has_no_dust_output
        (self : TransactionBuilder.t) (p : SimpleTxParams) (tx : Transaction) :
  createSimpleTransaction self p = Ok tx ->
  inputs tx <> []
  /\ outputs tx <> []
  /\ (List.length (outputs tx) = List.length (s_outputs p)
      \/ List.length (outputs tx) = S (List.length (s_outputs p)))
  /\ Forall (fun o => DUST_THRESHOLD <= t_amount o) (outputs tx).
Proof.
  intros E.
  pose proof (simple_amounts _ _ _ E) as (Hin & Hout).
  pose proof (createSimpleTransaction_Ok _ _ _ E) as (Hv & _).
  apply validateSimpleParams_Ok in Hv as (Hu & _ & Ho & Hd & _).
  assert (Hreq : Forall (fun a => DUST_THRESHOLD <= a) (map o_amount (s_outputs p))).
  { apply Forall_map. eapply Forall_impl; [|exact Hd]. intros o (_ & H); exact H. }
  assert (Hamounts : Forall (fun a => DUST_THRESHOLD <= a) (map t_amount (outputs tx))
                     /\ (List.length (map t_amount (outputs tx))
                         = List.length (s_outputs p)
                         \/ List.length (map t_amount (outputs tx))
                            = S (List.length (s_outputs p)))).
  { destruct Hout as [(Hgt & ->) | (_ & ->)].
    - split.
      + apply Forall_app; split; [exact Hreq|]. constructor; [lia | constructor].
      + right. rewrite length_app, length_map. simpl. lia.
    - split; [exact Hreq|]. left. apply length_map. }
  destruct Hamounts as (Hall & Hlen). rewrite length_map in Hlen.
  split; [| split; [| split; [exact Hlen | apply (proj1 (Forall_map _ _ _)) in Hall; exact Hall]]].
  - intros Hnil. rewrite Hnil in Hin. simpl in Hin.
    destruct (s_utxos p); [congruence | discriminate].
  - intros Hnil. rewrite Hnil in Hlen. simpl in Hlen.
    destruct (s_outputs p); [congruence | destruct Hlen; discriminate].
Qed.

End BuiltTransactions.

(** The simple example of the README: 50000 satoshis paid, 48470 back. *)
Lemma simple_transaction_has_no_dust_output_witness :
  TransactionBuilder.createSimpleTransaction
    (H := Fixture.btcSigner) Fixture.builder Examples.simple = Ok Examples.simpleTx
  /\ map t_amount (outputs Examples.simpleTx) = [50000; 48470]
  /\ Forall (fun o => Constants.DUST_THRESHOLD <= t_amount o)
            (outputs Examples.simpleTx).
Proof.
  assert (E : TransactionBuilder.createSimpleTransaction
                (H := Fixture.btcSigner) Fixture.builder Examples.simple
              = Ok Examples.simpleTx) by (vm_compute; reflexivity).
  split; [exact E|]. split; [reflexivity|].
  exact (proj2 (proj2 (proj2 (@simple_transaction_has_no_dust_output
                                Fixture.btcSigner Fixture.builder Examples.simple
                                Examples.simpleTx E)))).
Defined.

(** ** The payload of a mining transaction *)

Section MiningPayload.

Import Constants TransactionBuilder.

Lemma hexPairs_length (cs : list ascii) (bs : list Z) :
  Js.hexPairs cs = Some bs -> List.length cs = (2 * List.length bs)%nat.
Proof.
  revert cs; induction bs as [|b bs IH]; intros cs E;
    destruct cs as [|hi [|lo rest]]; simpl in E; try discriminate; try reflexivity.
  - destruct (Js.hexValue hi), (Js.hexValue lo), (Js.hexPairs rest); discriminate.
  - destruct (Js.hexValue hi), (Js.hexValue lo), (Js.hexPairs rest) as [bs'|] eqn:Er;
      try discriminate.
    inversion E; subst. simpl. rewrite (IH rest Er). lia.
Qed.

Lemma hexPairs_app (a b : list ascii) (x y : list Z) :
  Js.hexPairs a = Some x -> Js.hexPairs b = Some y ->
  Js.hexPairs (a ++ b) = Some (x ++ y).
Proof.
  revert a; induction x as [|v x IH]; intros a Ea Eb;
    destruct a as [|hi [|lo rest]]; simpl in Ea; try discriminate.
  - exact Eb.
  - destruct (Js.hexValue hi), (Js.hexValue lo), (Js.hexPairs rest); discriminate.
  - destruct (Js.hexValue hi) as [h|] eqn:Eh; [|discriminate].
    destruct (Js.hexValue lo) as [l|] eqn:El; [|discriminate].
    destruct (Js.hexPairs rest) as [bs'|] eqn:Er; [|discriminate].
    inversion Ea; subst. simpl. rewrite Eh, El, (IH rest Er Eb). reflexivity.
Qed.

Lemma hexValue_hexDigit (d : Z) :
  0 <= d < 16 -> Js.hexValue (Js.hexDigit d) = Some d.
Proof.
  intros Hd.
  assert (H : d = 0 \/ d = 1 \/ d = 2 \/ d = 3 \/ d = 4 \/ d = 5 \/ d = 6 \/ d = 7
              \/ d = 8 \/ d = 9 \/ d = 10 \/ d = 11 \/ d = 12 \/ d = 13 \/ d = 14
              \/ d = 15) by lia.
  repeat (destruct H as [-> | H]; [reflexivity|]). subst; reflexivity.
Qed.

(** A non-negative integer is below sixteen to the number of its
    hexadecimal digits. *)
Lemma hex_digits_bound (n : Z) :
  0 <= n -> n < 16 ^ (Z.log2 n / 4 + 1).
Proof.
  intros Hn. destruct (Z.eq_dec n 0) as [-> | Hz].
  - vm_compute; reflexivity.
  - assert (Hp : 0 < n) by lia.
    pose proof (Z.log2_spec n Hp) as (_ & Hlt).
    pose proof (Z.log2_nonneg n) as Hl.
    change 16 with (2 ^ 4). rewrite <- Z.pow_mul_r by div_lia.
    eapply Z.lt_le_trans; [exact Hlt|].
    apply Z.pow_le_mono_r; div_lia.
Qed.

Lemma toString16_length (n : Z) :
  0 <= n -> String.length (Js.toString16 n) = Z.to_nat (Z.log2 n / 4 + 1).
Proof.
  intros Hn. unfold Js.toString16.
  destruct (n <? 0) eqn:Hlt; [lia|].
  unfold Js.hexDigitsOf. cbv zeta.
  rewrite string_of_list_length, length_map, length_rev, length_seq. reflexivity.
Qed.

(** The eight digits of [nonce.toString(16).padStart(8, '0')] for a nonce
    that fits four bytes. *)
Lemma nonceHex_digits (n : Z) :
  0 <= n < 2 ^ 32 ->
  Js.chars (Js.padStart0 8 (Js.toString16 n))
  = map (fun i => Js.hexDigit ((n / 16 ^ Z.of_nat i) mod 16)) (rev (seq 0 8)).
Proof.
  intros (Hn & Hlt).
  pose proof (hex_digits_bound n Hn) as Hb.
  assert (Hl : 0 <= Z.log2 n < 32).
  { split; [apply Z.log2_nonneg|].
    destruct (Z.eq_dec n 0) as [-> | Hz]; [vm_compute; reflexivity|].
    apply Z.log2_lt_pow2; lia. }
  unfold Js.padStart0. rewrite toString16_length by exact Hn.
  unfold Js.toString16. destruct (n <? 0) eqn:Hneg; [lia|].
  unfold Js.hexDigitsOf. cbv zeta.
  set (k := Z.to_nat (Z.log2 n / 4 + 1)) in *.
  assert (Hk : (k <= 8)%nat) by (subst k; div_lia).
  assert (Hk' : Z.of_nat k = Z.log2 n / 4 + 1) by (subst k; div_lia).
  rewrite chars_app. unfold Js.chars. rewrite !list_ascii_of_string_of_list_ascii.
  replace 8%nat with (k + (8 - k))%nat at 2 by lia.
  rewrite seq_app, rev_app_distr, map_app. f_equal.
  rewrite (map_constant _ "0"%char).
  - rewrite length_rev, length_seq. reflexivity.
  - intros i Hi. apply in_rev, in_seq in Hi.
    rewrite Z.div_small; [reflexivity|].
    split; [exact Hn|]. eapply Z.lt_le_trans; [exact Hb|].
    rewrite <- Hk'. apply Z.pow_le_mono_r; lia.
Qed.

(** They decode to the four bytes of the nonce, most significant first. *)
Lemma nonceHex_decodes (n : Z) :
  0 <= n < 2 ^ 32 ->
  Js.hexPairs (Js.chars (Js.padStart0 8 (Js.toString16 n)))
  = Some (Secp256k1.numberToBytesBE 4 n).
Proof.
  intros Hn. rewrite (nonceHex_digits n Hn).
  cbn [seq rev app map Js.hexPairs].
  rewrite !hexValue_hexDigit by (apply Z.mod_pos_bound; lia).
  unfold Secp256k1.numberToBytesBE. cbn [seq map].
  repeat match goal with
         | |- context [?b ^ Z.of_nat ?e] =>
             let v := eval vm_compute in (b ^ Z.of_nat e) in
             change (b ^ Z.of_nat e) with v
         end.
  apply f_equal. repeat (apply (f_equal2 cons); [div_lia|]). reflexivity.
Qed.

(** X13.  The payload of the OP_RETURN output.  When the first 32
    characters of the hash are hexadecimal digits and the nonce fits four
    bytes, [createMiningOpReturn] returns the bytes of those characters
    followed by the nonce on four bytes, most significant byte first; for a
    hash of 32 characters or more that is 16 + 4 = 20 bytes.  The size
    check against [MAX_OP_RETURN_SIZE] never fires on such input. *)
Theorem mining_payload_is_hash_prefix_then_nonce (d : MiningData) (hb : list Z) :
  Js.hexDecode (substring 0 32 (hash d)) = Some hb ->
  0 <= nonce d < 2 ^ 32 ->
  createMiningOpReturn d = Ok (hb ++ Secp256k1.numberToBytesBE 4 (nonce d))
  /\ ((32 <= String.length (hash d))%nat ->
      List.length (hb ++ Secp256k1.numberToBytesBE 4 (nonce d)) = 20%nat).
Proof.
  intros Hh Hn. unfold Js.hexDecode in Hh.
  pose proof (hexPairs_length _ _ Hh) as Hlen.
  rewrite chars_length, substring_length in Hlen.
  pose proof (nonceHex_decodes _ Hn) as Hd.
  pose proof (hexPairs_length _ _ Hd) as Hlen'.
  rewrite chars_length in Hlen'. rewrite numberToBytesBE_length in Hlen'.
  split.
  - unfold createMiningOpReturn. cbv zeta.
    rewrite string_length_app, substring_length, Hlen'.
    pose proof (Nat.le_min_l 32 (String.length (hash d))) as Hm.
    rewrite Z.gtb_ltb. unfold MAX_OP_RETURN_SIZE.
    match goal with
    | |- context [?a <? ?b] => destruct (Z.ltb_spec a b) as [Hgt | _]; [lia|]
    end.
    unfold Js.hexDecode. rewrite chars_app, (hexPairs_app _ _ _ _ Hh Hd).
    reflexivity.
  - intros H32. rewrite length_app, numberToBytesBE_length. lia.
Qed.

Context {L : BtcSigner}.

(** X14.  Validation puts no upper bound on the nonce.  From [2 ^ 32] on
    the hexadecimal form of the nonce has more than eight digits and is
    not cut: a payload, when there is one, is longer than 20 bytes.  For a
    nonce from [2 ^ 32] to [2 ^ 36 - 1] there is none: the nine digits make
    a string of odd length, [hex.decode] refuses it, and no transaction is
    built. *)
Theorem nonce_beyond_four_bytes
        (self : TransactionBuilder.t) (p : MiningTxParams) :
  validateMiningParams p = Ok tt ->
  2 ^ 32 <= nonce (m_miningData p) ->
  (forall data,
      createMiningOpReturn (m_miningData p) = Ok data ->
      (20 < List.length data)%nat)
  /\ (nonce (m_miningData p) < 2 ^ 36 ->
      forall tx, createMiningTransaction self p <> Ok tx).
Proof.
  intros Hv Hn.
  apply validateMiningParams_Ok in Hv as (_ & _ & Hh & _ & _ & _).
  set (d := m_miningData p) in *.
  assert (Hpos : 0 < nonce d) by lia.
  assert (Hl : 32 <= Z.log2 (nonce d)) by (apply Z.log2_le_pow2; lia).
  assert (Hlen : forall data,
             createMiningOpReturn d = Ok data ->
             (32 + Z.to_nat (Z.log2 (nonce d) / 4 + 1) = 2 * List.length data)%nat).
  { intros data E. unfold createMiningOpReturn in E. cbv zeta in E.
    destruct (_ >? _); [discriminate|].
    apply fromPackage_Ok in E. unfold Js.hexDecode in E.
    apply hexPairs_length in E.
    rewrite chars_length, string_length_app, substring_length in E.
    unfold Js.padStart0 in E.
    rewrite string_length_app, string_of_list_length, repeat_length in E.
    rewrite toString16_length in E by lia. div_lia. }
  split.
  - intros data E. apply Hlen in E. div_lia.
  - intros Hlt tx E.
    apply createMiningTransaction_Ok in E
      as (_ & _ & input & data & cs & _ & Ed & _ & _).
    fold d in Ed. apply Hlen in Ed.
    assert (Z.log2 (nonce d) < 36) by (apply Z.log2_lt_pow2; lia).
    assert (Z.log2 (nonce d) / 4 = 8) by div_lia.
    lia.
Qed.

End MiningPayload.

(** The mining data of the README: a hash of [b]s and the nonce 12345,
    which is [0x3039]. *)
Lemma mining_payload_is_hash_prefix_then_nonce_witness :
  Js.hexDecode (substring 0 32 Examples.miningHash) = Some (repeat 187 16)
  /\ TransactionBuilder.createMiningOpReturn (mkMiningData Examples.miningHash 12345)
     = Ok (repeat 187 16 ++ [0; 0; 48; 57]).
Proof.
  assert (Hh : Js.hexDecode (substring 0 32 (hash (mkMiningData Examples.miningHash 12345)))
               = Some (repeat 187 16)) by (vm_compute; reflexivity).
  split; [exact Hh|].
  refine (proj1 (mining_payload_is_hash_prefix_then_nonce
                   (mkMiningData Examples.miningHash 12345) (repeat 187 16) Hh _)).
  simpl; lia.
Defined.

(** With the nonce [2 ^ 32] the README request passes validation and is
    not built. *)
Lemma nonce_beyond_four_bytes_witness :
  TransactionBuilder.validateMiningParams Examples.bigNonce = Ok tt
  /\ 2 ^ 32 <= nonce (m_miningData Examples.bigNonce) < 2 ^ 36
  /\ isOk (TransactionBuilder.createMiningTransaction
             (H := Fixture.btcSigner) Fixture.builder Examples.bigNonce) = false.
Proof.
  assert (Hv : TransactionBuilder.validateMiningParams Examples.bigNonce = Ok tt)
    by (vm_compute; reflexivity).
  assert (Hn : 2 ^ 32 <= nonce (m_miningData Examples.bigNonce) < 2 ^ 36)
    by (simpl; lia).
  split; [exact Hv|]. split; [exact Hn|].
  destruct (@nonce_beyond_four_bytes
              Fixture.btcSigner Fixture.builder Examples.bigNonce Hv (proj1 Hn))
    as (_ & H).
  destruct (TransactionBuilder.createMiningTransaction
              (H := Fixture.btcSigner) Fixture.builder Examples.bigNonce)
    as [tx|e] eqn:E; [|reflexivity].
  exfalso. exact (H (proj2 Hn) tx eq_refl).
Defined.

(** ** Empty and malformed requests *)

Section SimpleValidation.

Import Constants TransactionBuilder.

Context {L : BtcSigner}.

Lemma utxo_loop_Ok (utxos : list UTXO) :
  Forall (fun u => utxoMalformed u = false) utxos ->
  exists r,
    forEach (fun utxo =>
               if utxoMalformed utxo
               then throw ValidationError "Invalid UTXO format"
               else Ok tt) utxos = Ok r.
Proof.
  induction 1 as [|u us Hu _ (r & IH)]; simpl; [eauto|].
  rewrite Hu, IH. eauto.
Qed.

Lemma utxo_loop_Throw (utxos : list UTXO) :
  Exists (fun u => utxoMalformed u = true) utxos ->
  forEach (fun utxo =>
             if utxoMalformed utxo
             then throw ValidationError "Invalid UTXO format"
             else Ok tt) utxos
  = Throw (mkException ValidationError "Invalid UTXO format").
Proof.
  induction utxos as [|u us IH]; intros H; [inversion H|].
  simpl. destruct (utxoMalformed u) eqn:Hu; [reflexivity|].
  inversion H as [? ? Hu' | ? ? Hus]; subst; [congruence|].
  rewrite (IH Hus). reflexivity.
Qed.

(** X15.  What a simple payment answers to an empty or malformed request:
    without UTXOs, [ValidationError: At least one UTXO is required]; with a
    UTXO whose txid or address is empty or whose amount is 0, wherever it
    stands in the list, [ValidationError: Invalid UTXO format]; with
    well-formed UTXOs and no output, [ValidationError: At least one output
    is required]. *)
Theorem simple_builder_rejects_empty_and_malformed_requests
        (self : TransactionBuilder.t) (p : SimpleTxParams) :
  (s_utxos p = [] ->
   createSimpleTransaction self p
   = Throw (mkException ValidationError "At least one UTXO is required"))
  /\ (Exists (fun u => utxoMalformed u = true) (s_utxos p) ->
      createSimpleTransaction self p
      = Throw (mkException ValidationError "Invalid UTXO format"))
  /\ (s_utxos p <> [] ->
      Forall (fun u => utxoMalformed u = false) (s_utxos p) ->
      s_outputs p = [] ->
      createSimpleTransaction self p
      = Throw (mkException ValidationError "At least one output is required")).
Proof.
  unfold createSimpleTransaction, validateSimpleParams. cbv zeta.
  split; [| split].
  - intros ->. reflexivity.
  - intros H. pose proof (utxo_loop_Throw _ H) as E.
    destruct (s_utxos p) as [|u us]; [inversion H|].
    rewrite E. reflexivity.
  - intros Hne Hall Ho. destruct (utxo_loop_Ok _ Hall) as (r & E).
    destruct (s_utxos p) as [|u us]; [congruence|].
    rewrite E, Ho. reflexivity.
Qed.

End SimpleValidation.

(** A request without UTXOs, one whose second UTXO holds 0 satoshis, one
    without outputs. *)
Lemma simple_builder_rejects_empty_and_malformed_requests_witness :
  TransactionBuilder.createSimpleTransaction
    (H := Fixture.btcSigner) Fixture.builder Examples.noUtxos
  = Throw (mkException ValidationError "At least one UTXO is required")
  /\ TransactionBuilder.createSimpleTransaction
       (H := Fixture.btcSigner) Fixture.builder Examples.zeroAmount
     = Throw (mkException ValidationError "Invalid UTXO format")
  /\ TransactionBuilder.createSimpleTransaction
       (H := Fixture.btcSigner) Fixture.builder Examples.noOutputs
     = Throw (mkException ValidationError "At least one output is required").
Proof.
  split.
  - apply (proj1 (@simple_builder_rejects_empty_and_malformed_requests
                    Fixture.btcSigner Fixture.builder Examples.noUtxos)).
    reflexivity.
  - split.
    + apply (proj1 (proj2 (@simple_builder_rejects_empty_and_malformed_requests
                             Fixture.btcSigner Fixture.builder Examples.zeroAmount))).
      apply Exists_cons_tl, Exists_cons_hd. reflexivity.
    + apply (proj2 (proj2 (@simple_builder_rejects_empty_and_malformed_requests
                             Fixture.btcSigner Fixture.builder Examples.noOutputs))).
      * simpl; discriminate.
      * apply Forall_cons; [reflexivity | apply Forall_nil].
      * reflexivity.
Defined.

(** ** What the signers return and what they throw *)

Section Signers.

Import Constants Signing.

Context {L : BtcSigner} {L39 : Bip39} {L32 : Bip32}.

Lemma toSignedTransaction_fields (r : TransactionResult) (s : SignedTransaction) :
  toSignedTransaction r = Ok s ->
  success r = true
  /\ r_txid r = Some (st_txid s) /\ st_txid s <> ""
  /\ r_hex r = Some (st_hex s) /\ st_hex s <> ""
  /\ st_size s = Js.orZero (r_size r)
  /\ st_vsize s = Js.orZero (r_vsize r)
  /\ st_fee s = Js.orZero (r_fee r).
Proof.
  unfold toSignedTransaction, nonEmpty.
  destruct (success r); [|destruct (r_txid r) as [[|]|], (r_hex r) as [[|]|]; discriminate].
  destruct (r_txid r) as [[|c id]|]; simpl; try discriminate;
    destruct (r_hex r) as [[|c' h]|]; simpl; try discriminate.
  intros E; inversion E; subst; simpl. repeat split; auto; discriminate.
Qed.

Lemma toSignedTransaction_Throw (r : TransactionResult) (e : Exception) :
  toSignedTransaction r = Throw e -> class e = TransactionError.
Proof.
  unfold toSignedTransaction.
  destruct (success r), (nonEmpty (r_txid r)), (nonEmpty (r_hex r));
    unfold throw; intros E; inversion E; reflexivity.
Qed.

Lemma signAndReport_fields (tx : Transaction) (utxo : UTXO) (key : list Z)
      (r : TransactionResult) :
  signAndReport tx utxo key = Ok r ->
  exists raw,
    signFinalizeExtract tx key = Some raw
    /\ r = mkTransactionResult true (Some (calculateTxId raw))
                               (Some (Js.hexEncode raw)) None
                               (Some (Z.of_nat (List.length raw)))
                               (Some (calculateVirtualSize raw))
                               (Some (calculateFee utxo tx)).
Proof.
  unfold signAndReport; intros E.
  apply bind_Ok in E as (raw & Er & E). apply fromPackage_Ok in Er.
  inversion E; subst. exists raw; auto.
Qed.

Lemma hexEncode_length (bytes : list Z) :
  String.length (Js.hexEncode bytes) = (2 * List.length bytes)%nat.
Proof.
  induction bytes as [|b bytes IH]; simpl; [reflexivity|]. rewrite IH; lia.
Qed.

(** What either signer returned came out of [signAndReport]. *)
Lemma signedBy_report (tx : Transaction) (utxo : UTXO) (signed : SignedTransaction) :
  signedBy tx utxo signed ->
  exists tx' key r,
    signAndReport tx' utxo key = Ok r /\ toSignedTransaction r = Ok signed.
Proof.
  intros [(self & m & path & E) | (w & E)].
  - unfold TransactionSigner.signTransaction in E.
    pose proof (toSignedTransaction_Ok _ _ E) as (Hs & _).
    apply settle_success in Hs. unfold TransactionSigner.signPSBT in *.
    set (r := settle _) in *. clearbody r.
    apply bind_Ok in Hs as ([] & _ & Hs).
    apply bind_Ok in Hs as (keys & _ & Hs).
    apply bind_Ok in Hs as (tx' & _ & Hs).
    exists tx', (privateKey keys), r; auto.
  - unfold AddressWallet.signTransaction in E.
    pose proof (toSignedTransaction_Ok _ _ E) as (Hs & _).
    apply settle_success in Hs. unfold AddressWallet.signPSBT in *.
    set (r := settle _) in *. clearbody r.
    apply bind_Ok in Hs as ([] & _ & Hs).
    apply bind_Ok in Hs as (tx' & _ & Hs).
    exists tx', (AddressWallet.privateKey w), r; auto.
Qed.

(** X16.  The sizes of a [SignedTransaction], from either signer.  [hex]
    is the hexadecimal form of the bytes of the finalized transaction and
    [txid] their id; [size] is their number, which is positive, and [hex]
    has twice as many characters; [vsize] is three quarters of [size]
    rounded up, whatever the share of witness data, hence at most [size]. *)
Theorem signed_transaction_sizes
        (tx : Transaction) (utxo : UTXO) (signed : SignedTransaction) :
  signedBy tx utxo signed ->
  exists raw,
    st_hex signed = Js.hexEncode raw
    /\ st_txid signed = calculateTxId raw
    /\ st_size signed = Z.of_nat (List.length raw)
    /\ 0 < st_size signed
    /\ Z.of_nat (String.length (st_hex signed)) = 2 * st_size signed
    /\ st_vsize signed = (3 * st_size signed + 3) / 4
    /\ 3 * st_size signed <= 4 * st_vsize signed
    /\ st_vsize signed <= st_size signed.
Proof.
  intros Hs. apply signedBy_report in Hs as (tx' & key & r & Hr & Hs).
  apply signAndReport_fields in Hr as (raw & _ & ->).
  apply toSignedTransaction_fields in Hs
    as (_ & Hid & _ & Hhex & Hne & Hsize & Hv & _).
  simpl in Hid, Hhex, Hne, Hsize, Hv. injection Hid as Hid. injection Hhex as Hhex.
  exists raw.
  assert (Hpos : (0 < List.length raw)%nat).
  { destruct raw; [|simpl; lia]. exfalso; apply Hne; rewrite <- Hhex; reflexivity. }
  rewrite Hsize, Hv, <- Hhex, <- Hid, hexEncode_length.
  unfold calculateVirtualSize, Js.ceil_three_quarters.
  split; [reflexivity|]. split; [reflexivity|]. split; [reflexivity|].
  split; [lia|]. split; [lia|]. split; [reflexivity|].
  split; div_lia.
Qed.

Lemma malformed_utxo_result_signer (self : TransactionSigner.t) (psbt : Transaction)
      (utxo : UTXO) (m : string) (path : option string) :
  utxoMalformed utxo = true ->
  TransactionSigner.signPSBT self psbt utxo m path
  = failed (mkException ValidationError "Invalid UTXO format").
Proof.
  intros H. unfold TransactionSigner.signPSBT, TransactionSigner.validateSigningInputs.
  rewrite H. reflexivity.
Qed.

Lemma malformed_utxo_result_wallet (w : AddressWallet.t) (psbt : Transaction)
      (utxo : UTXO) :
  utxoMalformed utxo = true ->
  AddressWallet.signPSBT w psbt utxo
  = failed (mkException ValidationError "Invalid UTXO format").
Proof.
  intros H. unfold AddressWallet.signPSBT, AddressWallet.validateSigningInputs.
  rewrite H. reflexivity.
Qed.

(** X17.  [signTransaction], of either signer, throws nothing but
    [TransactionError].  The [ValidationError] that [validateSigningInputs]
    raises for a UTXO without txid, amount or address is caught inside
    [signPSBT] and reaches the caller as
    [TransactionError: Signing failed: Invalid UTXO format]. *)
Theorem signTransaction_throws_only_TransactionError
        (tx : Transaction) (utxo : UTXO) (e : Exception) :
  (exists self mnemonic path,
      TransactionSigner.signTransaction self tx utxo mnemonic path = Throw e)
  \/ (exists w, AddressWallet.signTransaction w tx utxo = Throw e) ->
  class e = TransactionError
  /\ (utxoMalformed utxo = true ->
      message e = "Signing failed: Invalid UTXO format").
Proof.
  intros [(self & m & path & E) | (w & E)].
  - unfold TransactionSigner.signTransaction in E. split.
    + apply toSignedTransaction_Throw in E; exact E.
    + intros H. rewrite (malformed_utxo_result_signer _ _ _ _ _ H) in E.
      inversion E; reflexivity.
  - unfold AddressWallet.signTransaction in E. split.
    + apply toSignedTransaction_Throw in E; exact E.
    + intros H. rewrite (malformed_utxo_result_wallet _ _ _ H) in E.
      inversion E; reflexivity.
Qed.

Lemma signPSBT_address_mismatch (w : AddressWallet.t) (psbt : Transaction)
      (utxo : UTXO) :
  Types.address utxo <> AddressWallet.address w ->
  success (AddressWallet.signPSBT w psbt utxo) = false
  /\ (utxoMalformed utxo = false ->
      AddressWallet.signPSBT w psbt utxo
      = failed (mkException ValidationError
                            "UTXO address does not match wallet address")).
Proof.
  intros Hne. apply String.eqb_neq in Hne.
  unfold AddressWallet.signPSBT, AddressWallet.validateSigningInputs.
  rewrite Hne. destruct (utxoMalformed utxo); simpl; split; auto; discriminate.
Qed.

(** X18.  An [AddressWallet] signs only for its own address.  Handed a
    UTXO whose address is another string, [signPSBT] reports a failure and
    [signTransaction] returns nothing; for a well-formed UTXO the result is
    [Signing failed: UTXO address does not match wallet address], thrown as
    a [TransactionError] by [signTransaction]. *)
Theorem address_wallet_signs_only_its_own_address
        (w : AddressWallet.t) (psbt : Transaction) (utxo : UTXO) :
  Types.address utxo <> AddressWallet.getAddress w ->
  success (AddressWallet.signPSBT w psbt utxo) = false
  /\ (forall s, AddressWallet.signTransaction w psbt utxo <> Ok s)
  /\ (utxoMalformed utxo = false ->
      AddressWallet.signPSBT w psbt utxo
      = mkTransactionResult
          false None None
          (Some "Signing failed: UTXO address does not match wallet address")
          None None None
      /\ AddressWallet.signTransaction w psbt utxo
         = Throw (mkException
                    TransactionError
                    "Signing failed: UTXO address does not match wallet address")).
Proof.
  intros Hne. destruct (signPSBT_address_mismatch w psbt utxo Hne) as (Hf & Hm).
  split; [exact Hf|]. split.
  - intros s E. unfold AddressWallet.signTransaction in E.
    apply toSignedTransaction_Ok in E as (Hs & _). congruence.
  - intros Hu. unfold AddressWallet.signTransaction. rewrite (Hm Hu).
    split; reflexivity.
Qed.

Lemma updateWitnessUtxo_amount (net : Network) (tx : Transaction)
      (u u' : UTXO) (xOnly : list Z) :
  amount u = amount u' ->
  updateWitnessUtxo net tx u xOnly = updateWitnessUtxo net tx u' xOnly.
Proof. intros H. unfold updateWitnessUtxo. rewrite H. reflexivity. Qed.

Lemma signAndReport_amount (tx : Transaction) (u u' : UTXO) (key : list Z) :
  amount u = amount u' ->
  signAndReport tx u key = signAndReport tx u' key.
Proof. intros H. unfold signAndReport, calculateFee. rewrite H. reflexivity. Qed.

(** X19.  Of the UTXO they are handed, the signers read the amount, and
    the [AddressWallet] the address.  Two well-formed UTXOs of the same
    amount give the same result with [TransactionSigner.signPSBT], and with
    [AddressWallet.signPSBT] when their addresses are equal too: the txid
    and the output index are never compared with the input of the PSBT. *)
Theorem signers_read_only_the_amount_of_the_utxo
        (psbt : Transaction) (u u' : UTXO) :
  utxoMalformed u = false ->
  utxoMalformed u' = false ->
  amount u = amount u' ->
  (forall self mnemonic path,
      TransactionSigner.signPSBT self psbt u mnemonic path
      = TransactionSigner.signPSBT self psbt u' mnemonic path)
  /\ (forall w,
        Types.address u = Types.address u' ->
        AddressWallet.signPSBT w psbt u = AddressWallet.signPSBT w psbt u').
Proof.
  intros Hu Hu' Ha. split.
  - intros self m path.
    unfold TransactionSigner.signPSBT, TransactionSigner.validateSigningInputs.
    rewrite Hu, Hu'. f_equal.
    destruct (if Js.emptyb m then _ else _); [|reflexivity]. cbn [bind].
    destruct (TransactionSigner.deriveTaprootKeys _ _ _ _) as [keys|]; [|reflexivity].
    cbn [bind]. rewrite (updateWitnessUtxo_amount _ _ u u' _ Ha).
    destruct (updateWitnessUtxo _ _ _ _) as [tx|]; [|reflexivity].
    cbn [bind]. apply signAndReport_amount; exact Ha.
  - intros w Hadr.
    unfold AddressWallet.signPSBT, AddressWallet.validateSigningInputs.
    rewrite Hu, Hu', Hadr. f_equal.
    destruct (if negb _ then _ else _); [|reflexivity]. cbn [bind].
    rewrite (updateWitnessUtxo_amount _ _ u u' _ Ha).
    destruct (updateWitnessUtxo _ _ _ _) as [tx|]; [|reflexivity].
    cbn [bind]. apply signAndReport_amount; exact Ha.
Qed.

(** X20.  A PSBT that came out of the builder goes through
    [updateWitnessUtxo] unchanged, whatever the network, the UTXO and the
    key of the signer: its first input already carries the [witnessUtxo]
    the builder made from the text of the address, so the script of the
    signer's own key is never attached. *)
Theorem signer_keeps_the_witness_data_of_the_builder
        (self : TransactionBuilder.t) (tx : Transaction)
        (net : Network) (utxo : UTXO) (xOnly : list Z) :
  (exists p, TransactionBuilder.createSimpleTransaction self p = Ok tx)
  \/ (exists p, TransactionBuilder.createMiningTransaction self p = Ok tx) ->
  updateWitnessUtxo net tx utxo xOnly = Ok tx.
Proof.
  intros [(p & E) | (p & E)].
  - apply createSimpleTransaction_Ok in E as (Hv & ins & outs & Ei & _ & Hc).
    apply validateSimpleParams_Ok in Hv as (Hne & _).
    assert (Hin : exists i rest w, ins = i :: rest /\ witnessUtxo i = Some w).
    { destruct (s_utxos p) as [|u us]; [congruence|]. simpl in Ei.
      destruct (TransactionBuilder.inputOf _ u) as [i|] eqn:Eu; [|discriminate].
      destruct (forEach _ us) as [rest|]; [|discriminate].
      inversion Ei; subst.
      unfold TransactionBuilder.inputOf in Eu.
      apply bind_Ok in Eu as (d & _ & Eu). apply bind_Ok in Eu as (s & _ & Eu).
      inversion Eu; subst. do 3 eexists; split; reflexivity. }
    destruct Hin as (i & rest & w & -> & Hw).
    unfold updateWitnessUtxo.
    destruct Hc as [(_ & cs & _ & ->) | (_ & ->)]; simpl; rewrite Hw; reflexivity.
  - apply createMiningTransaction_Ok in E
      as (_ & _ & input & data & cs & Ei & _ & _ & ->).
    unfold TransactionBuilder.inputOf in Ei.
    apply bind_Ok in Ei as (d & _ & Ei). apply bind_Ok in Ei as (s & _ & Ei).
    inversion Ei; subst. reflexivity.
Qed.

(** The inputs the builder makes name no key. *)
Lemma built_inputs_name_no_key
      (self : TransactionBuilder.t) (p : SimpleTxParams) (tx : Transaction) :
  TransactionBuilder.createSimpleTransaction self p = Ok tx ->
  Forall (fun i => tapInternalKey i = None) (inputs tx).
Proof.
  intros E. apply createSimpleTransaction_Ok in E
    as (_ & ins & outs & Ei & _ & Hc).
  assert (Hins : Forall (fun i => tapInternalKey i = None) ins).
  { apply forEach_Forall2 in Ei. clear Hc.
    induction Ei as [|u i us is' Hi _ IH]; constructor; [|exact IH].
    unfold TransactionBuilder.inputOf in Hi.
    apply bind_Ok in Hi as (d & _ & Hi). apply bind_Ok in Hi as (sc & _ & Hi).
    inversion Hi; reflexivity. }
  destruct Hc as [(_ & cs & _ & ->) | (_ & ->)]; exact Hins.
Qed.

End Signers.

(** The README payment, prepared for the key of [walletA], as the wallet
    signed it. *)
Lemma signed_transaction_sizes_witness :
  signedBy (H := Fixture.btcSigner) (H0 := Fixture.bip39) (H1 := Fixture.bip32)
           Examples.preparedTx (Examples.utxoA 100000) Examples.preparedSigned
  /\ 0 < st_size Examples.preparedSigned
  /\ Z.of_nat (String.length (st_hex Examples.preparedSigned))
     = 2 * st_size Examples.preparedSigned
  /\ st_vsize Examples.preparedSigned = (3 * st_size Examples.preparedSigned + 3) / 4
  /\ st_vsize Examples.preparedSigned <= st_size Examples.preparedSigned.
Proof.
  assert (Hs : signedBy (H := Fixture.btcSigner) (H0 := Fixture.bip39)
                        (H1 := Fixture.bip32)
                        Examples.preparedTx (Examples.utxoA 100000)
                        Examples.preparedSigned).
  { right. exists Examples.walletA. vm_compute; reflexivity. }
  split; [exact Hs|].
  destruct (@signed_transaction_sizes
              Fixture.btcSigner Fixture.bip39 Fixture.bip32
              Examples.preparedTx (Examples.utxoA 100000) Examples.preparedSigned Hs)
    as (raw & _ & _ & _ & Hpos & Hhex & Hv & _ & Hle).
  split; [exact Hpos|]. split; [exact Hhex|]. split; [exact Hv | exact Hle].
Defined.

(** The README payment with a UTXO of 0 satoshis. *)
Lemma signTransaction_throws_only_TransactionError_witness :
  Signing.utxoMalformed (Examples.utxoA 0) = true
  /\ exists e,
      AddressWallet.signTransaction
        (H := Fixture.btcSigner) Examples.walletA Examples.simpleTx (Examples.utxoA 0)
      = Throw e
      /\ class e = TransactionError
      /\ message e = "Signing failed: Invalid UTXO format".
Proof.
  split; [reflexivity|].
  assert (E : AddressWallet.signTransaction
                (H := Fixture.btcSigner) Examples.walletA Examples.simpleTx
                (Examples.utxoA 0)
              = Throw (mkException TransactionError
                                   "Signing failed: Invalid UTXO format"))
    by (vm_compute; reflexivity).
  eexists. split; [exact E|].
  destruct (@signTransaction_throws_only_TransactionError
              Fixture.btcSigner Fixture.bip39 Fixture.bip32
              Examples.simpleTx (Examples.utxoA 0) _
              (or_intror (ex_intro _ Examples.walletA E)))
    as (Hc & Hm).
  split; [exact Hc | apply Hm; reflexivity].
Defined.

(** The wallet of [addressA] handed a UTXO that sits on [addressB]. *)
Lemma address_wallet_signs_only_its_own_address_witness :
  String.eqb Fixture.addressB (AddressWallet.getAddress Examples.walletA) = false
  /\ AddressWallet.signTransaction
       (H := Fixture.btcSigner) Examples.walletA Examples.simpleTx
       (mkUTXO Fixture.txidA 0 100000 Fixture.addressB)
     = Throw (mkException
                TransactionError
                "Signing failed: UTXO address does not match wallet address").
Proof.
  assert (Hne : String.eqb Fixture.addressB (AddressWallet.getAddress Examples.walletA)
                = false) by (vm_compute; reflexivity).
  split; [exact Hne|].
  refine (proj2 (proj2 (proj2 (@address_wallet_signs_only_its_own_address
                                 Fixture.btcSigner Examples.walletA Examples.simpleTx
                                 (mkUTXO Fixture.txidA 0 100000 Fixture.addressB) _))
                       _)).
  - apply String.eqb_neq. exact Hne.
  - reflexivity.
Defined.

(** The wallet of [addressA] signs the prepared README payment just as
    well when it is handed a UTXO with another txid and another index. *)
Lemma signers_read_only_the_amount_of_the_utxo_witness :
  txid (Examples.utxoB 100000) = Fixture.txidB
  /\ vout (Examples.utxoB 100000) = 1
  /\ AddressWallet.signPSBT
       (H := Fixture.btcSigner) Examples.walletA Examples.preparedTx
       (Examples.utxoA 100000)
     = AddressWallet.signPSBT
         (H := Fixture.btcSigner) Examples.walletA Examples.preparedTx
         (Examples.utxoB 100000)
  /\ success (AddressWallet.signPSBT
                (H := Fixture.btcSigner) Examples.walletA Examples.preparedTx
                (Examples.utxoB 100000)) = true.
Proof.
  split; [reflexivity|]. split; [reflexivity|]. split.
  - apply (proj2 (@signers_read_only_the_amount_of_the_utxo
                    Fixture.btcSigner Fixture.bip39 Fixture.bip32
                    Examples.preparedTx (Examples.utxoA 100000) (Examples.utxoB 100000)
                    eq_refl eq_refl eq_refl)).
    reflexivity.
  - vm_compute; reflexivity.
Defined.

Lemma signer_keeps_the_witness_data_of_the_builder_witness :
  TransactionBuilder.createSimpleTransaction
    (H := Fixture.btcSigner) Fixture.builder Examples.simple = Ok Examples.simpleTx
  /\ Signing.updateWitnessUtxo
       (H := Fixture.btcSigner) testnet Examples.simpleTx (Examples.utxoA 100000)
       (AddressWallet.xOnlyPubkey Examples.walletA)
     = Ok Examples.simpleTx.
Proof.
  assert (E : TransactionBuilder.createSimpleTransaction
                (H := Fixture.btcSigner) Fixture.builder Examples.simple
              = Ok Examples.simpleTx) by (vm_compute; reflexivity).
  split; [exact E|].
  apply (@signer_keeps_the_witness_data_of_the_builder
           Fixture.btcSigner Fixture.builder).
  left. exists Examples.simple. exact E.
Defined.

(** ** The words of a mnemonic *)

Section WordCount.

Import Signing.

Lemma countWords_inside (cs rest : list ascii) :
  forallb (fun c => negb (isSpace c)) cs = true ->
  countWords true (cs ++ rest) = countWords true rest.
Proof.
  induction cs as [|c cs IH]; simpl; intros H; [reflexivity|].
  apply andb_true_iff in H as (Hc & H). apply negb_true_iff in Hc.
  rewrite Hc. simpl. apply IH; exact H.
Qed.

Lemma countWords_word (w : string) (b : bool) (rest : list ascii) :
  isWord w = true ->
  countWords b (Js.chars w ++ rest)
  = ((if b then 0 else 1) + countWords true rest)%nat.
Proof.
  unfold isWord. intros H. apply andb_true_iff in H as (Hne & H).
  destruct w as [|c w]; [discriminate|].
  change (Js.chars (String c w)) with (c :: Js.chars w) in *.
  simpl in H. apply andb_true_iff in H as (Hc & H). apply negb_true_iff in Hc.
  simpl. rewrite Hc. rewrite (countWords_inside _ _ H). reflexivity.
Qed.

Lemma countWords_join (ws : list string) (b : bool) :
  Forall (fun w => isWord w = true) ws ->
  ws <> [] ->
  countWords b (Js.chars (joinWords ws))
  = ((if b then 0 else 1) + (List.length ws - 1))%nat.
Proof.
  unfold joinWords. intros H; revert b.
  induction H as [|w ws Hw H IH]; intros b Hne; [congruence|].
  destruct ws as [|w' ws'].
  - simpl. rewrite <- (app_nil_r (Js.chars w)), (countWords_word w b [] Hw).
    reflexivity.
  - change (concat " " (w :: w' :: ws'))
      with (w ++ " " ++ concat " " (w' :: ws'))%string.
    rewrite chars_app, (countWords_word w b _ Hw).
    change (Js.chars (" " ++ concat " " (w' :: ws'))%string)
      with (" "%char :: Js.chars (concat " " (w' :: ws'))).
    change (countWords true (" "%char :: Js.chars (concat " " (w' :: ws'))))
      with (countWords false (Js.chars (concat " " (w' :: ws')))).
    rewrite (IH false) by discriminate. simpl. lia.
Qed.

(** [split(/\s+/)] gives back the words that [join(' ')] put together. *)
Lemma splitLength_join (ws : list string) :
  Forall (fun w => isWord w = true) ws ->
  ws <> [] ->
  splitLength (joinWords ws) = List.length ws.
Proof.
  intros H Hne. unfold splitLength. rewrite (countWords_join ws false H Hne).
  destruct ws; [congruence|]. simpl. rewrite Nat.sub_0_r. reflexivity.
Qed.

Lemma joinWords_not_empty (ws : list string) :
  Forall (fun w => isWord w = true) ws ->
  ws <> [] ->
  Js.emptyb (joinWords ws) = false.
Proof.
  intros H Hne. destruct H as [|w ws Hw H]; [congruence|].
  unfold isWord in Hw. apply andb_true_iff in Hw as (Hw & _).
  destruct w as [|c w]; [discriminate|].
  unfold joinWords. destruct ws; reflexivity.
Qed.

Context {L : BtcSigner} {L39 : Bip39} {L32 : Bip32}.

(** X21.  The mnemonic check of [TransactionSigner] counts words and
    nothing else: for words joined by single spaces and a well-formed UTXO,
    [validateSigningInputs] passes exactly when there are 12 to 24 words
    (so 13 or 14 words pass as well), and with fewer than 12 or more than
    24 words [signPSBT] reports
    [Signing failed: Invalid mnemonic word count]. *)
Theorem signer_takes_twelve_to_twenty_four_words
        (psbt : Transaction) (utxo : UTXO) (ws : list string) :
  utxoMalformed utxo = false ->
  ws <> [] ->
  Forall (fun w => isWord w = true) ws ->
  (TransactionSigner.validateSigningInputs psbt utxo (joinWords ws) = Ok tt
   <-> (12 <= List.length ws <= 24)%nat)
  /\ ((List.length ws < 12 \/ 24 < List.length ws)%nat ->
      forall self path,
        TransactionSigner.signPSBT self psbt utxo (joinWords ws) path
        = failed (mkException ValidationError "Invalid mnemonic word count")).
Proof.
  intros Hu Hne Hw.
  pose proof (splitLength_join ws Hw Hne) as Hs.
  pose proof (joinWords_not_empty ws Hw Hne) as He.
  assert (Hv : TransactionSigner.validateSigningInputs psbt utxo (joinWords ws)
               = if Nat.ltb (List.length ws) 12 || Nat.ltb 24 (List.length ws)
                 then throw ValidationError "Invalid mnemonic word count"
                 else Ok tt).
  { unfold TransactionSigner.validateSigningInputs. rewrite Hu, He. cbv zeta.
    rewrite Hs. reflexivity. }
  split.
  - rewrite Hv.
    destruct (Nat.ltb_spec (List.length ws) 12); simpl;
      [split; [discriminate | lia]|].
    destruct (Nat.ltb_spec 24 (List.length ws)); simpl;
      [split; [discriminate | lia]|].
    split; [lia | reflexivity].
  - intros Hout self path. unfold TransactionSigner.signPSBT. rewrite Hv.
    assert (Hb : Nat.ltb (List.length ws) 12 || Nat.ltb 24 (List.length ws) = true).
    { apply orb_true_iff. destruct Hout as [H | H]; [left | right];
        apply Nat.ltb_lt; exact H. }
    rewrite Hb. reflexivity.
Qed.

End WordCount.

(** Three words are refused; fourteen pass the check. *)
Lemma signer_takes_twelve_to_twenty_four_words_witness :
  Signing.utxoMalformed (Examples.utxoA 100000) = false
  /\ forallb isWord Examples.threeWords = true
  /\ forallb isWord Examples.fourteenWords = true
  /\ success (TransactionSigner.signPSBT
                (H := Fixture.btcSigner) (H0 := Fixture.bip39) (H1 := Fixture.bip32)
                (TransactionSigner.new None) Examples.simpleTx
                (Examples.utxoA 100000) (joinWords Examples.threeWords) None)
     = false
  /\ TransactionSigner.validateSigningInputs
       Examples.simpleTx (Examples.utxoA 100000) (joinWords Examples.fourteenWords)
     = Ok tt.
Proof.
  split; [reflexivity|]. split; [reflexivity|]. split; [reflexivity|].
  split.
  - rewrite (proj2 (@signer_takes_twelve_to_twenty_four_words
                      Fixture.btcSigner Fixture.bip39 Fixture.bip32
                      Examples.simpleTx (Examples.utxoA 100000) Examples.threeWords
                      eq_refl
                      ltac:(discriminate)
                      ltac:(repeat (apply Forall_cons; [reflexivity|]);
                            apply Forall_nil))
                   ltac:(left; simpl; lia)).
    reflexivity.
  - apply (proj1 (@signer_takes_twelve_to_twenty_four_words
                    Fixture.btcSigner Fixture.bip39 Fixture.bip32
                    Examples.simpleTx (Examples.utxoA 100000) Examples.fourteenWords
                    eq_refl
                    ltac:(discriminate)
                    ltac:(repeat (apply Forall_cons; [reflexivity|]);
                          apply Forall_nil))).
    simpl; lia.
Defined.

(** ** Address patterns and networks *)

Section AddressPatterns.

Import Constants.

(** A string accepted by [/^<prefix>[class]{n}$/] has the length of the
    prefix plus [n]. *)
Lemma matchExact_length (prefix : string) (cls : ascii -> bool) (n : nat)
      (s : string) :
  matchExact prefix cls n s = true ->
  (String.length prefix <= String.length s)%nat ->
  String.length s = (String.length prefix + n)%nat.
Proof.
  unfold matchExact. cbv zeta. intros H Hle.
  apply andb_true_iff in H as (_ & H). apply andb_true_iff in H as (H & _).
  apply Nat.eqb_eq in H. rewrite length_skipn, chars_length in H. lia.
Qed.

Lemma startsWith_length (s p : string) :
  Js.startsWith s p = true -> (String.length p <= String.length s)%nat.
Proof.
  unfold Js.startsWith. revert s; induction p as [|a p IH]; intros s H; simpl.
  - lia.
  - destruct s as [|b s]; simpl in H; [discriminate|].
    destruct (ascii_dec a b); [|discriminate]. apply IH in H. simpl; lia.
Qed.

Lemma matchExact_false (prefix : string) (cls : ascii -> bool) (n : nat)
      (s : string) :
  String.length s <> (String.length prefix + n)%nat ->
  matchExact prefix cls n s = false.
Proof.
  intros Hne. destruct (matchExact prefix cls n s) eqn:E; [|reflexivity].
  exfalso; apply Hne. apply matchExact_length with (cls := cls); [exact E|].
  unfold matchExact in E. apply andb_true_iff in E as (E & _).
  apply startsWith_length; exact E.
Qed.

Lemma matchLegacy_length (first : list ascii) (lo hi : nat) (s : string) :
  matchLegacy first lo hi s = true ->
  (lo + 1 <= String.length s <= hi + 1)%nat.
Proof.
  unfold matchLegacy. rewrite <- chars_length.
  destruct (Js.chars s) as [|c rest]; [discriminate|].
  intros H. apply andb_true_iff in H as (H & _).
  apply andb_true_iff in H as (H & Hhi). apply andb_true_iff in H as (_ & Hlo).
  apply Nat.leb_le in Hhi, Hlo. simpl. lia.
Qed.

Lemma matchLegacy_false (first : list ascii) (lo hi : nat) (s : string) :
  (hi + 1 < String.length s)%nat -> matchLegacy first lo hi s = false.
Proof.
  intros Hlt. destruct (matchLegacy first lo hi s) eqn:E; [|reflexivity].
  apply matchLegacy_length in E. lia.
Qed.

(** No pattern of [ADDRESS_PATTERNS] accepts a string of 58 characters. *)
Lemma patterns_reject_58 (s : string) :
  String.length s = 58%nat ->
  MAINNET_P2TR s = false /\ TESTNET_P2TR s = false
  /\ MAINNET_P2WPKH s = false /\ TESTNET_P2WPKH s = false
  /\ LEGACY s = false /\ TESTNET_LEGACY s = false.
Proof.
  intros H.
  unfold MAINNET_P2TR, TESTNET_P2TR, MAINNET_P2WPKH, TESTNET_P2WPKH,
    LEGACY, TESTNET_LEGACY.
  repeat split;
    first [ apply matchExact_false; rewrite H; simpl; lia
          | apply matchLegacy_false; rewrite H; lia ].
Qed.

Lemma startsWith_head (s p : string) (x : ascii) :
  Js.startsWith s (String x p) = true -> exists s', s = String x s'.
Proof.
  unfold Js.startsWith. destruct s as [|c s]; simpl; [discriminate|].
  destruct (ascii_dec x c) as [-> | _]; [eauto | discriminate].
Qed.

Lemma matchExact_head (x : ascii) (p : string) (cls : ascii -> bool) (n : nat)
      (s : string) :
  matchExact (String x p) cls n s = true -> exists s', s = String x s'.
Proof.
  unfold matchExact. intros H. apply andb_true_iff in H as (H & _).
  apply startsWith_head in H. exact H.
Qed.

Lemma matchLegacy_head (first : list ascii) (lo hi : nat) (s : string) :
  matchLegacy first lo hi s = true ->
  exists c s', s = String c s' /\ In c first.
Proof.
  unfold matchLegacy, Js.chars. destruct s as [|c s]; simpl; [discriminate|].
  intros H. apply andb_true_iff in H as (H & _).
  apply andb_true_iff in H as (H & _). apply andb_true_iff in H as (H & _).
  apply existsb_exists in H as (f & Hin & Hf). apply Ascii.eqb_eq in Hf; subst.
  eauto.
Qed.

(** What a wallet accepts starts with [b], [1] or [3] on mainnet and with
    [t], [m], [n] or [2] on the test networks. *)
Lemma validateAddress_head (self : CharmsWallet.t) (a : string) :
  valid (CharmsWallet.validateAddress self a) = true ->
  exists c a',
    a = String c a'
    /\ if Network_eqb (CharmsWallet.network (CharmsWallet.config self)) mainnet
       then In c ["b"; "1"; "3"]%char
       else In c ["t"; "m"; "n"; "2"]%char.
Proof.
  unfold CharmsWallet.validateAddress. cbv zeta.
  unfold MAINNET_P2TR, TESTNET_P2TR, MAINNET_P2WPKH, TESTNET_P2WPKH,
    LEGACY, TESTNET_LEGACY, CharmsWallet.isTest.
  destruct (CharmsWallet.network (CharmsWallet.config self));
    cbn [Network_eqb andb orb];
    repeat match goal with
      | |- context [if matchExact ?p ?c ?n a then _ else _] =>
          let E := fresh "E" in
          destruct (matchExact p c n a) eqn:E;
          [ intros _; apply matchExact_head in E as (a' & ->);
            do 2 eexists; split; [reflexivity | simpl; tauto] |]
      | |- context [if matchLegacy ?f ?lo ?hi a then _ else _] =>
          let E := fresh "E" in
          destruct (matchLegacy f lo hi a) eqn:E;
          [ intros _; apply matchLegacy_head in E as (c & a' & -> & Hin);
            do 2 eexists; split; [reflexivity | simpl in *; tauto] |]
      end;
    simpl; discriminate.
Qed.

(** X22.  What [validateAddress] answers.  The type is never ['p2sh'],
    although [AddressValidation] allows it: a [3...] address on mainnet and
    a [2...] address on a test network come back as ['legacy'].  An
    accepted address comes back with the network of the wallet and no
    error, and is refused on the other side: what a wallet configured for
    mainnet accepts, every wallet configured for testnet or testnet4
    refuses, and the other way round.  A refused address comes back with
    [Invalid address format for <network> network] and nothing else. *)
Theorem validateAddress_reports_and_keeps_networks_apart
        (self : CharmsWallet.t) (a : string) :
  v_type (CharmsWallet.validateAddress self a) <> Some Types.p2sh
  /\ (valid (CharmsWallet.validateAddress self a) = true ->
      v_network (CharmsWallet.validateAddress self a)
      = Some (CharmsWallet.network (CharmsWallet.config self))
      /\ v_error (CharmsWallet.validateAddress self a) = None
      /\ forall other,
          Network_eqb (CharmsWallet.network (CharmsWallet.config other)) mainnet
          <> Network_eqb (CharmsWallet.network (CharmsWallet.config self)) mainnet ->
          valid (CharmsWallet.validateAddress other a) = false)
  /\ (valid (CharmsWallet.validateAddress self a) = false ->
      CharmsWallet.validateAddress self a
      = mkAddressValidation
          false
          (Some ("Invalid address format for "
                   ++ showNetwork (CharmsWallet.network (CharmsWallet.config self))
                   ++ " network")%string)
          None None).
Proof.
  assert (Hshape :
            v_type (CharmsWallet.validateAddress self a) <> Some Types.p2sh
            /\ (valid (CharmsWallet.validateAddress self a) = true ->
                v_network (CharmsWallet.validateAddress self a)
                = Some (CharmsWallet.network (CharmsWallet.config self))
                /\ v_error (CharmsWallet.validateAddress self a) = None)
            /\ (valid (CharmsWallet.validateAddress self a) = false ->
                CharmsWallet.validateAddress self a
                = mkAddressValidation
                    false
                    (Some ("Invalid address format for "
                             ++ showNetwork
                                  (CharmsWallet.network (CharmsWallet.config self))
                             ++ " network")%string)
                    None None)).
  { unfold CharmsWallet.validateAddress. cbv zeta.
    destruct (CharmsWallet.network (CharmsWallet.config self));
      unfold CharmsWallet.isTest; cbn [Network_eqb andb orb];
      repeat match goal with
        | |- context [if ?P a then _ else _] => destruct (P a)
        end;
      simpl; repeat split; try discriminate; auto. }
  destruct Hshape as (Htype & Hyes & Hno).
  split; [exact Htype|]. split; [|exact Hno].
  intros Hv. destruct (Hyes Hv) as (Hn & He).
  split; [exact Hn|]. split; [exact He|].
  intros other Hside.
  destruct (valid (CharmsWallet.validateAddress other a)) eqn:Hv'; [|reflexivity].
  apply validateAddress_head in Hv as (c & a' & -> & Hc).
  apply validateAddress_head in Hv' as (c' & a'' & Heq & Hc').
  injection Heq as <- _.
  destruct (Network_eqb (CharmsWallet.network (CharmsWallet.config self)) mainnet),
    (Network_eqb (CharmsWallet.network (CharmsWallet.config other)) mainnet);
    try congruence; simpl in Hc, Hc'; intuition (subst; discriminate).
Qed.

End AddressPatterns.

(** [addressA] under the prefix [bc]: accepted on mainnet as a mainnet
    address, refused on testnet. *)
Lemma validateAddress_reports_and_keeps_networks_apart_witness :
  valid (CharmsWallet.validateAddress (CharmsWallet.new (Some mainnet))
                                      Examples.mainnetShaped) = true
  /\ v_network (CharmsWallet.validateAddress (CharmsWallet.new (Some mainnet))
                                             Examples.mainnetShaped)
     = Some mainnet
  /\ valid (CharmsWallet.validateAddress (CharmsWallet.new (Some testnet))
                                         Examples.mainnetShaped) = false.
Proof.
  assert (Hv : valid (CharmsWallet.validateAddress (CharmsWallet.new (Some mainnet))
                                                   Examples.mainnetShaped) = true)
    by (vm_compute; reflexivity).
  destruct (validateAddress_reports_and_keeps_networks_apart
              (CharmsWallet.new (Some mainnet)) Examples.mainnetShaped)
    as (_ & Hyes & _).
  destruct (Hyes Hv) as (Hn & _ & Hother).
  split; [exact Hv|]. split; [exact Hn|].
  apply (Hother (CharmsWallet.new (Some testnet))). simpl; discriminate.
Defined.

(** ** Keys, addresses and the isolated signer *)

Section KeyDerivation.

Import Constants.

Context {L : BtcSigner} {L39 : Bip39} {L32 : Bip32}.

(** X23.  The address that [fromPrivateKey] gives its [AddressWallet] is
    of no use.  [validateAddress] of every wallet refuses it, on every
    network and for every key: it has 58 characters, and no pattern of
    [ADDRESS_PATTERNS] accepts 58 characters.  And the wallet does not sign
    for the address that was derived with its key: handed a UTXO that sits
    on the address of [getAddressData] for that private key, [signPSBT]
    reports a failure and [signTransaction] returns nothing. *)
Theorem isolated_wallet_address_is_of_no_use
        (d : list Z) (net : Network) (w : AddressWallet.t) :
  CharmsWallet.fromPrivateKey d net = Ok w ->
  (forall self,
      CharmsWallet.validateAddress self (AddressWallet.getAddress w)
      = mkAddressValidation
          false
          (Some ("Invalid address format for "
                   ++ showNetwork (CharmsWallet.network (CharmsWallet.config self))
                   ++ " network")%string)
          None None)
  /\ (forall mnemonic index keys psbt utxo,
        CharmsWallet.getAddressData mnemonic net index = Ok keys ->
        privateKey keys = d ->
        Types.address utxo = k_address keys ->
        success (AddressWallet.signPSBT w psbt utxo) = false
        /\ forall s, AddressWallet.signTransaction w psbt utxo <> Ok s).
Proof.
  rewrite fromPrivateKey_Ok. intros E; inversion E; subst. split.
  - intros self.
    unfold AddressWallet.getAddress; simpl AddressWallet.address.
    destruct (patterns_reject_58 _ (mockAddress_length d net))
      as (H1 & H2 & H3 & H4 & H5 & H6).
    unfold CharmsWallet.validateAddress. cbv zeta.
    rewrite H1, H2, H3, H4, H5, H6, !andb_false_r. reflexivity.
  - intros mnemonic index keys psbt utxo Ek Hd Ha.
    apply getAddressData_Ok in Ek as (_ & _ & Hl).
    assert (Hne : Types.address utxo
                  <> AddressWallet.address
                       (AddressWallet.mk d net (CharmsWallet.mockAddress d net)
                          (AddressWallet.derivePublicKey d)
                          (tl (AddressWallet.derivePublicKey d)))).
    { simpl. rewrite Ha. intros Heq.
      pose proof (mockAddress_length d net) as Hm.
      rewrite <- Heq, Hl in Hm. discriminate Hm. }
    destruct (signPSBT_address_mismatch _ psbt utxo Hne) as (Hf & _).
    split; [exact Hf|].
    intros s Es. unfold AddressWallet.signTransaction in Es.
    apply toSignedTransaction_Ok in Es as (Hs & _). congruence.
Qed.

Lemma getPublicKey_lengths (priv pub : list Z) :
  Secp256k1.getPublicKey priv = Some pub ->
  List.length priv = 32%nat /\ List.length pub = 33%nat
  /\ List.length (tl pub) = 32%nat.
Proof.
  unfold Secp256k1.getPublicKey. cbv zeta.
  destruct (Nat.eqb (List.length priv) 32) eqn:Hlen; [|discriminate].
  apply Nat.eqb_eq in Hlen.
  destruct (_ && _); [|discriminate].
  destruct (Secp256k1.mul _ _) as [|x y]; [discriminate|].
  unfold Secp256k1.compress. intros E; inversion E; subst.
  cbn [List.length tl]. rewrite numberToBytesBE_length. auto.
Qed.

(** X24.  The three static methods agree.  When [getAddressData] returns
    a key bundle, [generateAddress] returns the address of the bundle and
    [getPrivateKey] its private key, for the same mnemonic, network and
    index; the private key has 32 bytes, the public key 33 and the x-only
    key 32. *)
Theorem address_data_agrees_with_address_and_private_key
        (mnemonic : string) (network : Network) (index : Z) (keys : TaprootKeys) :
  CharmsWallet.getAddressData mnemonic network index = Ok keys ->
  CharmsWallet.generateAddress mnemonic network index = Ok (k_address keys)
  /\ CharmsWallet.getPrivateKey mnemonic network index = Ok (privateKey keys)
  /\ List.length (privateKey keys) = 32%nat
  /\ List.length (publicKey keys) = 33%nat
  /\ List.length (xOnlyPubkey keys) = 32%nat.
Proof.
  unfold CharmsWallet.getAddressData. intros E.
  apply catch_Ok in E; [| intros e; unfold throw; discriminate].
  apply bind_Ok in E as ([] & Hc & E).
  apply bind_Ok in E as (k & Hk & E).
  pose proof (taprootKeysOf_Ok _ _ _ E) as (Hpriv & Hpub & Hx & _).
  apply getPublicKey_lengths in Hpub as (H32 & H33 & Ht).
  split; [| split; [| rewrite Hx; auto]].
  - unfold CharmsWallet.generateAddress. rewrite Hc. cbn [bind]. rewrite Hk.
    cbn [bind]. rewrite E. reflexivity.
  - unfold CharmsWallet.getPrivateKey. rewrite Hc. cbn [bind]. rewrite Hk.
    cbn [bind]. rewrite Hpriv. reflexivity.
Qed.

(** X25.  The errors of key derivation.  [generateAddress],
    [getPrivateKey], [getAddressData], the [deriveTaprootKeys] of the wallet
    and the one of the signer throw nothing but [CryptographyError]: they
    wrap whatever was thrown inside them, the errors of the packages and
    their own.  So for a mnemonic that the package refuses, where
    [validateMnemonic] answers [valid: false] with its error text, the
    three static methods throw a [CryptographyError], not the
    [ValidationError] raised inside them, with the messages
    [Failed to generate address: Invalid mnemonic phrase],
    [Failed to get private key: Invalid mnemonic phrase] and
    [Failed to get address data: Invalid mnemonic phrase]. *)
Theorem key_derivation_fails_with_CryptographyError
        (mnemonic : string) (network : Network) (index : Z) :
  (forall e,
      CharmsWallet.generateAddress mnemonic network index = Throw e
      \/ CharmsWallet.getPrivateKey mnemonic network index = Throw e
      \/ CharmsWallet.getAddressData mnemonic network index = Throw e
      \/ (exists self, CharmsWallet.deriveTaprootKeys self mnemonic index = Throw e)
      \/ (exists self path,
             TransactionSigner.deriveTaprootKeys self mnemonic path index = Throw e) ->
      class e = CryptographyError)
  /\ (Scure.validateMnemonic mnemonic = false ->
      (forall self,
          CharmsWallet.validateMnemonic self mnemonic
          = mkValidationResult
              false
              (Some "Invalid mnemonic phrase. Please check the words and try again."))
      /\ CharmsWallet.generateAddress mnemonic network index
         = Throw (mkException CryptographyError
                              "Failed to generate address: Invalid mnemonic phrase")
      /\ CharmsWallet.getPrivateKey mnemonic network index
         = Throw (mkException CryptographyError
                              "Failed to get private key: Invalid mnemonic phrase")
      /\ CharmsWallet.getAddressData mnemonic network index
         = Throw (mkException CryptographyError
                              "Failed to get address data: Invalid mnemonic phrase")).
Proof.
  split.
  - intros e.
    assert (Hcatch : forall A (m : result A) (what : string),
               catch m (fun error =>
                          throw CryptographyError (what ++ message error)%string)
               = Throw e -> class e = CryptographyError).
    { intros A m what. destruct m; simpl; [discriminate|].
      unfold throw; intros E; inversion E; reflexivity. }
    intros [E | [E | [E | [(self & E) | (self & path & E)]]]];
      eapply Hcatch; exact E.
  - intros H.
    unfold CharmsWallet.validateMnemonic, CharmsWallet.generateAddress,
      CharmsWallet.getPrivateKey, CharmsWallet.getAddressData,
      CharmsWallet.checkedMnemonic.
    rewrite H. repeat split; reflexivity.
Qed.

Lemma emptyb_encodeSegwit (net : BtcNetwork) (program : list Z) :
  Js.emptyb (Bech32m.encodeSegwit (bech32 net) 1 program) = false.
Proof. destruct net; reflexivity. Qed.

Lemma p2tr_networks (x : list Z) (net : BtcNetwork) (r : P2Ret) :
  p2tr x net = Some r ->
  exists program,
    List.length program = 32%nat
    /\ forall net',
        p2tr x net'
        = Some (mkP2Ret (0x51 :: 0x20 :: program)
                        (Bech32m.encodeSegwit (bech32 net') 1 program)).
Proof.
  unfold p2tr. destruct (taprootOutputKey x) as [q|]; [|discriminate].
  intros _. eexists; split; [apply numberToBytesBE_length | reflexivity].
Qed.

(** X26.  One key for every network.  When [generateAddress] returns an
    address for some network, it returns one for each of the three, all
    for the same 32-byte witness program: under the prefix [bc] on mainnet
    and under the prefix [tb] on testnet and on testnet4, whose addresses
    are therefore equal. *)
Theorem same_key_on_every_network
        (mnemonic : string) (network : Network) (index : Z) (a : string) :
  CharmsWallet.generateAddress mnemonic network index = Ok a ->
  exists program,
    List.length program = 32%nat
    /\ CharmsWallet.generateAddress mnemonic mainnet index
       = Ok (Bech32m.encodeSegwit "bc" 1 program)
    /\ CharmsWallet.generateAddress mnemonic testnet index
       = Ok (Bech32m.encodeSegwit "tb" 1 program)
    /\ CharmsWallet.generateAddress mnemonic testnet4 index
       = Ok (Bech32m.encodeSegwit "tb" 1 program).
Proof.
  unfold CharmsWallet.generateAddress at 1. intros E.
  apply catch_Ok in E; [| intros e; unfold throw; discriminate].
  apply bind_Ok in E as ([] & Hc & E).
  apply bind_Ok in E as (k & Hk & E).
  apply bind_Ok in E as (keys & Ek & _).
  apply taprootKeysOf_Ok in Ek as (Hpriv & Hpub & Hx & r & Er & _).
  apply p2tr_networks in Er as (program & Hlen & Hall).
  exists program. split; [exact Hlen|].
  assert (Hgen : forall n,
             CharmsWallet.generateAddress mnemonic n index
             = Ok (Bech32m.encodeSegwit
                     (bech32 (CharmsWallet.staticNetworkConfig n)) 1 program)).
  { intros n. unfold CharmsWallet.generateAddress. rewrite Hc. cbn [bind].
    rewrite Hk. cbn [bind].
    unfold CharmsWallet.taprootKeysOf, hdPublicKey. rewrite Hpriv, Hpub.
    rewrite <- Hx, Hall. cbn [fromPackage bind p_address].
    rewrite emptyb_encodeSegwit. reflexivity. }
  split; [apply (Hgen mainnet)|]. split; [apply (Hgen testnet) | apply (Hgen testnet4)].
Qed.

(** X27.  For a mnemonic that the package accepts, [deriveTaprootKeys] of
    a wallet returns what the static [getAddressData] returns for the
    network of the wallet.  (The method itself does not ask the package:
    it is the only derivation of the wallet that skips
    [validateMnemonic].) *)
Theorem wallet_deriveTaprootKeys_agrees_with_getAddressData
        (self : CharmsWallet.t) (mnemonic : string) (index : Z) :
  Scure.validateMnemonic mnemonic = true ->
  returned (CharmsWallet.deriveTaprootKeys self mnemonic index)
  = returned (CharmsWallet.getAddressData
                mnemonic (CharmsWallet.network (CharmsWallet.config self)) index).
Proof.
  intros H.
  unfold CharmsWallet.deriveTaprootKeys, CharmsWallet.getAddressData,
    CharmsWallet.checkedMnemonic.
  rewrite H. cbn [bind].
  destruct (CharmsWallet.addressKeyOf mnemonic index) as [k|e]; [|reflexivity].
  cbn [bind].
  destruct (CharmsWallet.network (CharmsWallet.config self)); cbn [Signing.networkConfig bind];
    unfold CharmsWallet.staticNetworkConfig; cbn [Network_eqb];
    destruct (CharmsWallet.taprootKeysOf _ k); reflexivity.
Qed.

(** X28.  The constructor of [AddressWallet] takes any byte string as a
    private key when it is given an address: it does not fail, keeps the
    address, and holds a public key of 33 bytes that starts with [0x02]
    and an x-only key of 32 bytes, its tail, even for a key that is too
    short or empty (the missing bytes count as 0).  Bytes stay bytes. *)
Theorem address_wallet_takes_any_key_with_an_address
        (d : list Z) (net : Network) (a : string) :
  a <> "" ->
  exists w,
    AddressWallet.new d net (Some a) = Ok w
    /\ AddressWallet.getAddress w = a
    /\ List.length (AddressWallet.getPublicKey w) = 33%nat
    /\ List.length (AddressWallet.getXOnlyPublicKey w) = 32%nat
    /\ AddressWallet.getPublicKey w = 2 :: AddressWallet.getXOnlyPublicKey w
    /\ (Forall (fun b => 0 <= b < 256) d ->
        Forall (fun b => 0 <= b < 256) (AddressWallet.getPublicKey w)).
Proof.
  intros Ha. unfold AddressWallet.new. cbv zeta.
  assert (H : Signing.nonEmpty (Some a) = Some a).
  { unfold Signing.nonEmpty. destruct a; [congruence | reflexivity]. }
  rewrite H. cbn [bind]. eexists; split; [reflexivity|].
  unfold AddressWallet.getAddress, AddressWallet.getPublicKey,
    AddressWallet.getXOnlyPublicKey, AddressWallet.derivePublicKey; simpl.
  split; [reflexivity|]. split; [reflexivity|]. split; [reflexivity|].
  split; [reflexivity|].
  intros Hd.
  assert (Hb : forall i, 0 <= Z.lxor (nth i d 0) 1 < 256).
  { intros i.
    assert (Hn : 0 <= nth i d 0 < 256).
    { destruct (Nat.lt_ge_cases i (List.length d)) as [Hlt | Hge].
      - rewrite Forall_forall in Hd. apply Hd, nth_In, Hlt.
      - rewrite nth_overflow by exact Hge. lia. }
    split.
    - apply Z.lxor_nonneg; lia.
    - destruct (Z.eq_dec (Z.lxor (nth i d 0) 1) 0) as [-> | Hz]; [lia|].
      apply Z.log2_lt_cancel.
      eapply Z.le_lt_trans; [apply Z.log2_lxor; lia|].
      change (Z.log2 256) with 8. change (Z.log2 1) with 0.
      destruct (Z.eq_dec (nth i d 0) 0) as [-> | Hnz]; [simpl; lia|].
      assert (Z.log2 (nth i d 0) < 8) by (apply Z.log2_lt_pow2; lia).
      lia. }
  repeat (constructor; [first [lia | apply Hb]|]). constructor.
Qed.

(** X29.  The constructor of [AddressWallet] without an address (or with
    the empty string) derives one.  Whatever goes wrong comes out as a
    [CryptographyError].  When the wallet is made, its address is the
    Taproot address that the package gives for bytes 1 to 32 of
    [derivePublicKey], the private key with the lowest bit of every byte
    flipped, under the prefix of the network; it has 62 characters, and
    [validateAddress] of a wallet on that network accepts it as ['p2tr']. *)
Theorem address_wallet_without_address_derives_one
        (d : list Z) (net : Network) (a : option string) :
  Signing.nonEmpty a = None ->
  (forall e, AddressWallet.new d net a = Throw e -> class e = CryptographyError)
  /\ (forall w,
        AddressWallet.new d net a = Ok w ->
        (exists r,
            p2tr (map (fun i => Z.lxor (nth i d 0) 0x01) (seq 0 32))
                 (CharmsWallet.staticNetworkConfig net) = Some r
            /\ AddressWallet.getAddress w = p_address r)
        /\ String.length (AddressWallet.getAddress w) = 62%nat
        /\ forall self,
            CharmsWallet.network (CharmsWallet.config self) = net ->
            CharmsWallet.validateAddress self (AddressWallet.getAddress w)
            = mkAddressValidation true None (Some net) (Some Types.p2tr)).
Proof.
  intros Ha. unfold AddressWallet.new. cbv zeta. rewrite Ha.
  unfold AddressWallet.generateAddressFromPublicKey.
  assert (Hnet : Signing.networkConfig net = Ok (CharmsWallet.staticNetworkConfig net))
    by (destruct net; reflexivity).
  rewrite Hnet. cbn [bind].
  change (tl (AddressWallet.derivePublicKey d))
    with (map (fun i => Z.lxor (nth i d 0) 0x01) (seq 0 32)).
  destruct (p2tr (map (fun i => Z.lxor (nth i d 0) 0x01) (seq 0 32))
                 (CharmsWallet.staticNetworkConfig net)) as [r|] eqn:Er.
  - cbn [fromPackage bind].
    destruct (p2tr_address _ _ _ Er) as (program & Hlen & Hadr).
    rewrite Hadr, emptyb_encodeSegwit. cbn [catch bind]. split.
    + intros e; discriminate.
    + intros w E. inversion E; subst.
      unfold AddressWallet.getAddress; simpl AddressWallet.address.
      split; [exists r; auto|]. split.
      * apply address_length; [|exact Hlen].
        unfold CharmsWallet.staticNetworkConfig.
        destruct (Network_eqb net mainnet); simpl; auto.
      * intros self Hn. unfold CharmsWallet.validateAddress. cbv zeta. rewrite Hn.
        unfold MAINNET_P2TR, TESTNET_P2TR.
        destruct net; simpl CharmsWallet.staticNetworkConfig; simpl bech32.
        -- rewrite (proj1 (matchExact_p2tr program Hlen)). reflexivity.
        -- rewrite (proj2 (matchExact_p2tr program Hlen)). reflexivity.
        -- rewrite (proj2 (matchExact_p2tr program Hlen)). reflexivity.
  - cbn [fromPackage bind throw catch]. split.
    + intros e E. inversion E; reflexivity.
    + intros w; discriminate.
Qed.

(** X30.  [TransactionSigner.deriveTaprootKeys] walks the last two steps
    with [accountKey.derive('0')] and [chainKey.derive(index.toString())],
    paths without the leading [m] ([CharmsWallet.deriveTaprootKeys] goes by
    [deriveChild] instead).  With a package whose [derive] refuses the
    path ['0'], the signer that works from a mnemonic signs nothing:
    [deriveTaprootKeys] throws a [CryptographyError] for every mnemonic,
    path and index, [signPSBT] reports a failure for every PSBT and UTXO,
    and [signTransaction] throws a [TransactionError]. *)
Theorem mnemonic_signer_fails_on_the_relative_path :
  (forall k, derive k "0" = None) ->
  forall (self : TransactionSigner.t) (psbt : Transaction) (utxo : UTXO)
         (mnemonic : string),
    (forall path index,
        exists msg,
          TransactionSigner.deriveTaprootKeys self mnemonic path index
          = Throw (mkException CryptographyError msg))
    /\ (forall path,
          success (TransactionSigner.signPSBT self psbt utxo mnemonic path) = false
          /\ exists msg,
              TransactionSigner.signTransaction self psbt utxo mnemonic path
              = Throw (mkException TransactionError msg)).
Proof.
  intros Hrel self psbt utxo mnemonic.
  assert (Hd : forall path index,
             exists msg,
               TransactionSigner.deriveTaprootKeys self mnemonic path index
               = Throw (mkException CryptographyError msg)).
  { intros path index. unfold TransactionSigner.deriveTaprootKeys.
    destruct (mnemonicToSeed mnemonic) as [seed|];
      [|eexists; reflexivity].
    cbn [fromPackage bind].
    destruct (fromMasterSeed seed) as [hdkey|]; [|eexists; reflexivity].
    cbn [fromPackage bind].
    destruct (derive hdkey path) as [accountKey|]; [|eexists; reflexivity].
    cbn [fromPackage bind]. rewrite Hrel. eexists; reflexivity. }
  split; [exact Hd|].
  intros path.
  assert (Hf : success (TransactionSigner.signPSBT self psbt utxo mnemonic path) = false).
  { unfold TransactionSigner.signPSBT.
    destruct (TransactionSigner.validateSigningInputs psbt utxo mnemonic);
      [|reflexivity].
    cbn [bind].
    destruct (Hd (match path with
                  | Some d => d
                  | None => Constants.DEFAULT_DERIVATION_PATH
                  end) 0) as (msg & ->).
    reflexivity. }
  split; [exact Hf|].
  unfold TransactionSigner.signTransaction, Signing.toSignedTransaction.
  rewrite Hf. unfold throw. eexists; reflexivity.
Qed.

End KeyDerivation.

(** The isolated wallet of the key at index 1. *)
Lemma isolated_wallet_address_is_of_no_use_witness :
  CharmsWallet.fromPrivateKey (H := Fixture.btcSigner)
                              (privateKey Examples.hdKeys) testnet
  = Ok Examples.isolated
  /\ CharmsWallet.validateAddress (CharmsWallet.new (Some testnet))
                                  (AddressWallet.getAddress Examples.isolated)
     = mkAddressValidation
         false (Some "Invalid address format for testnet network") None None
  /\ CharmsWallet.getAddressData
       (H := Fixture.btcSigner) (H0 := Fixture.bip39) (H1 := Fixture.bip32)
       Fixture.mnemonic testnet 1 = Ok Examples.hdKeys
  /\ address Examples.utxoDerived = k_address Examples.hdKeys
  /\ success (AddressWallet.signPSBT (H := Fixture.btcSigner)
                Examples.isolated Examples.simpleTx Examples.utxoDerived) = false.
Proof.
  assert (Hw : CharmsWallet.fromPrivateKey (H := Fixture.btcSigner)
                                           (privateKey Examples.hdKeys) testnet
               = Ok Examples.isolated) by (vm_compute; reflexivity).
  assert (Hk : CharmsWallet.getAddressData
                 (H := Fixture.btcSigner) (H0 := Fixture.bip39) (H1 := Fixture.bip32)
                 Fixture.mnemonic testnet 1 = Ok Examples.hdKeys)
    by (vm_compute; reflexivity).
  destruct (@isolated_wallet_address_is_of_no_use
              Fixture.btcSigner Fixture.bip39 Fixture.bip32
              (privateKey Examples.hdKeys) testnet Examples.isolated Hw)
    as (Hval & Hsign).
  split; [exact Hw|]. split; [exact (Hval (CharmsWallet.new (Some testnet)))|].
  split; [exact Hk|]. split; [reflexivity|].
  exact (proj1 (Hsign Fixture.mnemonic 1 Examples.hdKeys Examples.simpleTx
                      Examples.utxoDerived Hk eq_refl eq_refl)).
Defined.

Lemma address_data_agrees_with_address_and_private_key_witness :
  CharmsWallet.getAddressData
    (H := Fixture.btcSigner) (H0 := Fixture.bip39) (H1 := Fixture.bip32)
    Fixture.mnemonic testnet 1 = Ok Examples.hdKeys
  /\ CharmsWallet.generateAddress
       (H := Fixture.btcSigner) (H0 := Fixture.bip39) (H1 := Fixture.bip32)
       Fixture.mnemonic testnet 1 = Ok (k_address Examples.hdKeys)
  /\ CharmsWallet.getPrivateKey
       (H0 := Fixture.bip39) (H1 := Fixture.bip32)
       Fixture.mnemonic testnet 1 = Ok (privateKey Examples.hdKeys).
Proof.
  assert (Hk : CharmsWallet.getAddressData
                 (H := Fixture.btcSigner) (H0 := Fixture.bip39) (H1 := Fixture.bip32)
                 Fixture.mnemonic testnet 1 = Ok Examples.hdKeys)
    by (vm_compute; reflexivity).
  split; [exact Hk|].
  destruct (@address_data_agrees_with_address_and_private_key
              Fixture.btcSigner Fixture.bip39 Fixture.bip32
              Fixture.mnemonic testnet 1 Examples.hdKeys Hk)
    as (Ha & Hp & _).
  split; [exact Ha | exact Hp].
Defined.

(** One word is not a mnemonic. *)
Lemma key_derivation_fails_with_CryptographyError_witness :
  @validateMnemonic Fixture.bip39 "abandon" = false
  /\ CharmsWallet.generateAddress
       (H := Fixture.btcSigner) (H0 := Fixture.bip39) (H1 := Fixture.bip32)
       "abandon" testnet 0
     = Throw (mkException CryptographyError
                          "Failed to generate address: Invalid mnemonic phrase")
  /\ class (mkException CryptographyError
                        "Failed to generate address: Invalid mnemonic phrase")
     = CryptographyError.
Proof.
  assert (Hv : @validateMnemonic Fixture.bip39 "abandon" = false) by reflexivity.
  destruct (@key_derivation_fails_with_CryptographyError
              Fixture.btcSigner Fixture.bip39 Fixture.bip32 "abandon" testnet 0)
    as (Hclass & Hmsg).
  destruct (Hmsg Hv) as (_ & Hg & _).
  split; [exact Hv|]. split; [exact Hg|].
  apply Hclass. left. exact Hg.
Defined.

(** The first address of the example mnemonic. *)
Lemma same_key_on_every_network_witness :
  (exists a,
      CharmsWallet.generateAddress
        (H := Fixture.btcSigner) (H0 := Fixture.bip39) (H1 := Fixture.bip32)
        Fixture.mnemonic testnet 0 = Ok a)
  /\ exists program,
      CharmsWallet.generateAddress
        (H := Fixture.btcSigner) (H0 := Fixture.bip39) (H1 := Fixture.bip32)
        Fixture.mnemonic mainnet 0 = Ok (Bech32m.encodeSegwit "bc" 1 program)
      /\ CharmsWallet.generateAddress
           (H := Fixture.btcSigner) (H0 := Fixture.bip39) (H1 := Fixture.bip32)
           Fixture.mnemonic testnet4 0 = Ok (Bech32m.encodeSegwit "tb" 1 program).
Proof.
  assert (E : exists a,
             CharmsWallet.generateAddress
               (H := Fixture.btcSigner) (H0 := Fixture.bip39) (H1 := Fixture.bip32)
               Fixture.mnemonic testnet 0 = Ok a)
    by (eexists; vm_compute; reflexivity).
  split; [exact E|]. destruct E as (a & E).
  destruct (@same_key_on_every_network
              Fixture.btcSigner Fixture.bip39 Fixture.bip32
              Fixture.mnemonic testnet 0 a E)
    as (program & _ & Hm & _ & Ht4).
  exists program. split; [exact Hm | exact Ht4].
Defined.

Lemma wallet_deriveTaprootKeys_agrees_with_getAddressData_witness :
  @validateMnemonic Fixture.bip39 Fixture.mnemonic = true
  /\ returned (CharmsWallet.deriveTaprootKeys
                 (H := Fixture.btcSigner) (H0 := Fixture.bip39) (H1 := Fixture.bip32)
                 (CharmsWallet.new (Some testnet)) Fixture.mnemonic 1)
     = Some Examples.hdKeys.
Proof.
  split; [vm_compute; reflexivity|].
  rewrite (@wallet_deriveTaprootKeys_agrees_with_getAddressData
             Fixture.btcSigner Fixture.bip39 Fixture.bip32
             (CharmsWallet.new (Some testnet)) Fixture.mnemonic 1)
    by (vm_compute; reflexivity).
  vm_compute; reflexivity.
Defined.

(** An empty private key. *)
Lemma address_wallet_takes_any_key_with_an_address_witness :
  exists w,
    AddressWallet.new (H := Fixture.btcSigner) [] testnet (Some Fixture.addressA)
    = Ok w
    /\ AddressWallet.getAddress w = Fixture.addressA
    /\ List.length (AddressWallet.getPublicKey w) = 33%nat
    /\ List.length (AddressWallet.getXOnlyPublicKey w) = 32%nat.
Proof.
  destruct (@address_wallet_takes_any_key_with_an_address
              Fixture.btcSigner [] testnet Fixture.addressA)
    as (w & Hn & Ha & Hp & Hx & _).
  - discriminate.
  - exists w. split; [exact Hn|]. split; [exact Ha|]. split; [exact Hp | exact Hx].
Defined.

(** The key [3] on testnet, without an address. *)
Lemma address_wallet_without_address_derives_one_witness :
  AddressWallet.new (H := Fixture.btcSigner) Examples.keyThree testnet None
  = Ok Examples.derivedWallet
  /\ String.length (AddressWallet.getAddress Examples.derivedWallet) = 62%nat
  /\ CharmsWallet.validateAddress (CharmsWallet.new (Some testnet))
                                  (AddressWallet.getAddress Examples.derivedWallet)
     = mkAddressValidation true None (Some testnet) (Some Types.p2tr).
Proof.
  assert (Hw : AddressWallet.new (H := Fixture.btcSigner)
                                 Examples.keyThree testnet None
               = Ok Examples.derivedWallet) by (vm_compute; reflexivity).
  destruct (@address_wallet_without_address_derives_one
              Fixture.btcSigner Examples.keyThree testnet None eq_refl)
    as (_ & Hok).
  destruct (Hok Examples.derivedWallet Hw) as (_ & Hlen & Hval).
  split; [exact Hw|]. split; [exact Hlen|].
  exact (Hval (CharmsWallet.new (Some testnet)) eq_refl).
Defined.

(** A package that asks for the leading [m], and the README payment. *)
Lemma mnemonic_signer_fails_on_the_relative_path_witness :
  (forall k, derive (Bip32 := Fixture.bip32) k "0" = None)
  /\ success (TransactionSigner.signPSBT
                (H := Fixture.btcSigner) (H0 := Fixture.bip39) (H1 := Fixture.bip32)
                (TransactionSigner.new (Some testnet)) Examples.simpleTx
                (Examples.utxoA 100000) Fixture.mnemonic None) = false.
Proof.
  assert (Hrel : forall k, derive (Bip32 := Fixture.bip32) k "0" = None)
    by (intros k; reflexivity).
  split; [exact Hrel|].
  exact (proj1 (proj2 (@mnemonic_signer_fails_on_the_relative_path
                         Fixture.btcSigner Fixture.bip39 Fixture.bip32 Hrel
                         (TransactionSigner.new (Some testnet)) Examples.simpleTx
                         (Examples.utxoA 100000) Fixture.mnemonic)
                      None)).
Defined.
